(** * news-backend: a model of [server.js] and its route contracts

    The server is an Express application over two Sequelize models, [User]
    and [Content], with bcryptjs for passwords and jsonwebtoken for session
    tokens.  This development embeds the handlers of [server.js] as pure
    functions from a store and a request to a store and a response, and
    proves the contracts of the routes.

    Conventions of the embedding:
    - a table is a finite map from the primary key to the row; a column
      declared without [allowNull: false] is an [option] (SQL NULL);
    - the [:id] of a path and the parameters of a query are the strings
      that Express hands to the handler; what PostgreSQL reads from such a
      string is written out for plain decimal numerals and left to an
      interface ([Platform]) for every other spelling;
    - a value of a request body reaches its column as Sequelize and
      node-postgres send it: a string as it is, a number or a boolean as
      its text; [VARCHAR(255)] bounds the length, [INTEGER] has its 32-bit
      range, and a value that the column refuses is an error, which the
      handler's [catch] clause turns into a 500; the message of an error
      is the library's where a statement below names it, and a short label
      of the failure elsewhere;
    - JavaScript numbers are IEEE 754 doubles ([float]) where the handler
      computes with them (the [offset] of a listing);
    - bcryptjs, jsonwebtoken, the conversions of JavaScript and the parts
      of PostgreSQL's input syntax that are not written out are an
      interface ([Platform]) without assumed laws;
    - the clock and bcrypt's random salt are inputs of a request ([Env]);
    - the [updatedAt] timestamp of a content row is read by no handler and
      is left out; [createdAt] is kept, the listings are ordered by it;
    - a sequence advances with a successful insert; the value that
      PostgreSQL consumes for an insert that fails, and the end of a
      sequence, are not modelled, so the properties of failed writes are
      stated on the rows of the tables;
    - a query parameter is a string or absent: the arrays and objects that
      Express builds from repeated or bracketed parameters are not
      modelled. *)

From stdpp Require Import base option list gmap strings sorting.
From Stdlib Require Import ZArith Ascii String Floats DecimalString.

Local Open Scope string_scope.
Local Open Scope Z_scope.
Local Set Warnings "-register-all".

(** ** JSON values *)

(** [JNum n] is a number whose value is the integer [n]; [JFrac f] is a
    number with a fractional part. *)
Inductive json : Type :=
  | JNull
  | JBool (b : bool)
  | JNum (n : Z)
  | JFrac (f : float)
  | JStr (s : string)
  | JArr (items : list json)
  | JObj (fields : list (string * json)).

(** A value read from an object: [None] is [undefined]. *)
Definition truthy (v : option json) : bool :=
  match v with
  | None | Some JNull => false
  | Some (JBool b) => b
  | Some (JNum n) => negb (n =? 0)
  | Some (JFrac _) => true
  | Some (JStr s) => negb (String.eqb s "")
  | Some (JArr _) | Some (JObj _) => true
  end.

Definition typeof (v : option json) : string :=
  match v with
  | None => "undefined"
  | Some JNull | Some (JArr _) | Some (JObj _) => "object"
  | Some (JBool _) => "boolean"
  | Some (JNum _) | Some (JFrac _) => "number"
  | Some (JStr _) => "string"
  end.

Definition json_of_option {A} (f : A → json) (o : option A) : json :=
  match o with Some a => f a | None => JNull end.


(** An element of a PostgreSQL array of strings, as the column returns
    it: NULL, a text or, in an array of more dimensions, an array. *)
Inductive tag : Type :=
  | Tnull
  | Ttext (s : string)
  | Tarr (items : list tag).

Fixpoint tag_json (t : tag) : json :=
  match t with
  | Tnull => JNull
  | Ttext s => JStr s
  | Tarr items => JArr (tag_json <$> items)
  end.

(** ** Errors thrown inside a handler *)

Inductive result (A : Type) : Type :=
  | Ok (a : A)
  | Err (message : string).
Arguments Ok {A} a.
Arguments Err {A} message.

#[global] Instance result_ret : MRet result := λ A a, Ok a.
#[global] Instance result_bind : MBind result := λ A B f r,
  match r with Ok a => f a | Err m => Err m end.
#[global] Instance result_fmap : FMap result := λ A B f r,
  match r with Ok a => Ok (f a) | Err m => Err m end.

(** ** Enumerated columns *)

Module Role.
Inductive t := publisher | user.
#[global] Instance eq_dec : EqDecision t.
Proof. solve_decision. Defined.
Definition name (r : t) : string :=
  match r with publisher => "publisher" | user => "user" end.
Definition parse (s : string) : option t :=
  if String.eqb s "publisher" then Some publisher
  else if String.eqb s "user" then Some user
  else None.
End Role.

Module ContentType.
Inductive t := newspaper | journal | article | video_script.
#[global] Instance eq_dec : EqDecision t.
Proof. solve_decision. Defined.
Definition name (x : t) : string :=
  match x with
  | newspaper => "newspaper" | journal => "journal"
  | article => "article" | video_script => "video_script"
  end.
Definition parse (s : string) : option t :=
  if String.eqb s "newspaper" then Some newspaper
  else if String.eqb s "journal" then Some journal
  else if String.eqb s "article" then Some article
  else if String.eqb s "video_script" then Some video_script
  else None.
End ContentType.

Module Status.
Inductive t := draft | published | archived.
#[global] Instance eq_dec : EqDecision t.
Proof. solve_decision. Defined.
Definition name (x : t) : string :=
  match x with
  | draft => "draft" | published => "published" | archived => "archived"
  end.
Definition parse (s : string) : option t :=
  if String.eqb s "draft" then Some draft
  else if String.eqb s "published" then Some published
  else if String.eqb s "archived" then Some archived
  else None.
End Status.

(** ** The two models ([sequelize.define], server.js lines 30-116)

    The primary key [id] is the key of the table; the other attributes are
    the fields of the row. *)

Module User.
Record t := mk {
  username : string;          (* STRING, allowNull: false *)
  email : string;             (* STRING, allowNull: false, unique *)
  password : string;          (* STRING, allowNull: false *)
  role : option Role.t;       (* ENUM('publisher','user'), default 'user' *)
  profile : json;             (* JSON, default {} *)
  createdAt : Z;              (* set by the ORM when the row is inserted *)
  updatedAt : Z               (* set by the ORM; no route updates a user *)
}.
End User.

Module Content.
Record t := mk {
  title : string;                   (* STRING, allowNull: false *)
  content : string;                 (* TEXT, allowNull: false *)
  type : ContentType.t;             (* ENUM, allowNull: false *)
  category : option string;         (* STRING *)
  tags : option (list tag);         (* ARRAY(STRING), default [] *)
  status : option Status.t;         (* ENUM, default 'draft' *)
  featuredImage : option string;    (* STRING *)
  videoUrl : option string;         (* STRING *)
  readTime : option Z;              (* INTEGER *)
  views : option Z;                 (* INTEGER, default 0 *)
  publisherId : Z;                  (* INTEGER, allowNull: false, references users(id) *)
  createdAt : Z                     (* set by the ORM when the row is inserted *)
}.

Definition set_status (v : option Status.t) (c : t) : t :=
  mk (title c) (content c) (type c) (category c) (tags c) v
     (featuredImage c) (videoUrl c) (readTime c) (views c) (publisherId c)
     (createdAt c).
Definition set_views (v : option Z) (c : t) : t :=
  mk (title c) (content c) (type c) (category c) (tags c) (status c)
     (featuredImage c) (videoUrl c) (readTime c) v (publisherId c)
     (createdAt c).
End Content.

(** The database: the two tables and the sequences that number their rows. *)
Record Store := mkStore {
  users : gmap Z User.t;
  contents : gmap Z Content.t;
  users_id_seq : Z;
  contents_id_seq : Z
}.

Definition with_users (us : gmap Z User.t) (seq : Z) (s : Store) : Store :=
  mkStore us (contents s) seq (contents_id_seq s).
Definition with_contents (cs : gmap Z Content.t) (s : Store) : Store :=
  mkStore (users s) cs (users_id_seq s) (contents_id_seq s).
Definition with_new_content (cs : gmap Z Content.t) (seq : Z) (s : Store) : Store :=
  mkStore (users s) cs (users_id_seq s) seq.

(** ** Requests and responses *)

(** The payload of a session token: [{ id, username, role }]. *)
Record Claims := mkClaims {
  claim_id : Z;
  claim_username : string;
  claim_role : option string
}.

(** [req.query] of [GET /api/contents]: each parameter as the string that
    the URL carries. *)
Record Query := mkQuery {
  q_type : option string;
  q_category : option string;
  q_page : option string;
  q_limit : option string
}.

Record Request := mkRequest {
  authorization : option string;   (* req.headers['authorization'] *)
  params_id : string;              (* req.params.id *)
  query : Query;                   (* req.query *)
  body : gmap string json          (* req.body *)
}.

Record Response := mkResponse {
  res_status : Z;
  res_body : json
}.

Definition error_body (message : string) : json := JObj [("error", JStr message)].

(** What the outside world supplies to one request: the clock and the salt
    that [bcrypt.hash] draws. *)
Record Env := mkEnv {
  now : Z;
  salt : string
}.

(** ** Text and numerals

    A plain decimal numeral is an optional minus sign followed by one or
    more digits; JavaScript writes an integer of absolute value at most
    [2^53] as the numeral that spells it, and PostgreSQL reads a numeral as
    the integer it spells. *)

Fixpoint has_nul (s : string) : bool :=
  match s with
  | EmptyString => false
  | String c rest => Ascii.eqb c Ascii.zero || has_nul rest
  end.

Fixpoint blank (s : string) : bool :=
  match s with
  | EmptyString => true
  | String c rest => Ascii.eqb c " " && blank rest
  end.

Definition digit (c : ascii) : option Z :=
  let n := Z.of_nat (nat_of_ascii c) in
  if (48 <=? n) && (n <=? 57) then Some (n - 48) else None.

Fixpoint digits (s : string) (acc : Z) : option Z :=
  match s with
  | EmptyString => Some acc
  | String c rest =>
      match digit c with
      | Some d => digits rest (10 * acc + d)
      | None => None
      end
  end.

Definition decimal (s : string) : option Z :=
  match s with
  | EmptyString => None
  | String c rest =>
      if Ascii.eqb c "-"
      then if String.eqb rest "" then None else Z.opp <$> digits rest 0
      else digits s 0
  end.

Definition decimal_text (n : Z) : string := NilZero.string_of_int (Z.to_int n).

(** The range of PostgreSQL's [INTEGER]. *)
Definition in_int4 (n : Z) : bool := (-2147483648 <=? n) && (n <=? 2147483647).

(** ** bcryptjs, jsonwebtoken, JavaScript and PostgreSQL

    What the handlers call and do not define.  The conversions of
    JavaScript and the input syntax of PostgreSQL appear here only for the
    arguments on which the definitions below do not write them out. *)

Class Platform := {
  (** [bcrypt.hash(plaintext, 10)] with the salt it drew *)
  bcrypt_hash : string → string → string;
  (** [bcrypt.compare(plaintext, digest)] *)
  bcrypt_compare : string → string → bool;
  (** [jwt.sign(claims, secret, { expiresIn: '24h' })] at a time *)
  jwt_sign : Claims → string → Z → string;
  (** [jwt.verify(token, secret)] at a time; [None] is a bad signature or
      an expired token *)
  jwt_verify : string → string → Z → option Claims;
  (** [process.env.JWT_SECRET] *)
  env_JWT_SECRET : option string;
  (** [String(x)] of a JavaScript number *)
  js_String : float → string;
  (** [String(n)] of an integer of absolute value above [2^53], which
      JavaScript rounds to 17 digits or writes with an exponent *)
  js_String_big : Z → string;
  (** the number that arithmetic makes of a string ([x - 1], [x * y]) *)
  js_Number : string → float;
  (** [parseInt(x)] of a string *)
  js_parseInt : string → float;
  (** the integer that PostgreSQL reads from a text that is not a plain
      decimal numeral; [None] when it refuses the text *)
  pg_int4_other : string → option Z;
  (** the text that PostgreSQL compares a column with when Sequelize
      writes a condition on a string that holds a NUL character; [None]
      when the query fails *)
  pg_literal_nul : string → option string;
  (** the array that an [ARRAY(STRING)] column stores for a JavaScript
      array that is not empty *)
  pg_varchar_array : list json → result (list tag);
  (** the row count that PostgreSQL reads from the text of a [LIMIT] or
      [OFFSET]; [None] when it refuses the text *)
  pg_count : string → option Z
}.

(** ** Assigning JSON values to columns

    What the ORM and the database do with a value handed to an attribute:
    [undefined] and [null] violate [allowNull: false]; [undefined] takes the
    [defaultValue] of a column that has one; a value that the type of the
    column does not take is an error. *)

(** [String(n)] of a number whose value is the integer [n]. *)
Definition number_text `{Platform} (n : Z) : string :=
  if Z.abs n <=? 2 ^ 53 then decimal_text n else js_String_big n.

(** The text that node-postgres sends for a parameter that is a string, a
    number or a boolean. *)
Definition scalar_text `{Platform} (v : json) : option string :=
  match v with
  | JStr s => Some s
  | JNum n => Some (number_text n)
  | JFrac f => Some (js_String f)
  | JBool b => Some (if b then "true" else "false")
  | JNull | JArr _ | JObj _ => None
  end.

(** A [TEXT] column takes every text without a NUL character. *)
Definition text (s : string) : result string :=
  if has_nul s then Err "invalid byte sequence for encoding UTF8: 0x00"
  else Ok s.

(** A [VARCHAR(255)] column takes a text of at most 255 characters, and a
    longer one whose characters beyond the 255th are all spaces, which it
    cuts to 255. *)
Definition varchar (s : string) : result string :=
  if has_nul s then Err "invalid byte sequence for encoding UTF8: 0x00"
  else if (String.length s <=? 255)%nat then Ok s
  else if blank (substring 255 (String.length s - 255) s)
  then Ok (substring 0 255 s)
  else Err "value too long for type character varying(255)".

(** [DataTypes.STRING]: the ORM refuses arrays and objects. *)
Definition string_value `{Platform} (v : json) : result string :=
  match scalar_text v with
  | Some s => varchar s
  | None => Err "string violation: the value cannot be an array or an object"
  end.

(** [DataTypes.TEXT] *)
Definition text_value `{Platform} (v : json) : result string :=
  match scalar_text v with
  | Some s => text s
  | None => Err "string violation: the value cannot be an array or an object"
  end.

(** PostgreSQL's input of an [INTEGER] from a text. *)
Definition int4_in `{Platform} (s : string) : option Z :=
  match decimal s with
  | Some n => if in_int4 n then Some n else None
  | None => pg_int4_other s
  end.

(** [DataTypes.INTEGER] *)
Definition integer_value `{Platform} (v : json) : result Z :=
  match v with
  | JNum n =>
      if in_int4 n then Ok n else Err "value out of range for type integer"
  | JStr s =>
      match int4_in s with
      | Some n => Ok n
      | None => Err "invalid input syntax for type integer"
      end
  | _ => Err "invalid input syntax for type integer"
  end.

Definition enum_value {A} (parse : string → option A) (v : json) : result A :=
  match v with
  | JStr s =>
      match parse s with
      | Some a => Ok a
      | None => Err ("invalid input value for enum: " +:+ s)
      end
  | _ => Err "invalid input value for enum"
  end.

(** [DataTypes.ARRAY(DataTypes.STRING)] *)
Definition string_array_value `{Platform} (v : json) : result (list tag) :=
  match v with
  | JArr [] => Ok []
  | JArr items => pg_varchar_array items
  | _ => Err "values.map is not a function"
  end.

Definition required {A} (attr : string) (coerce : json → result A)
    (v : option json) : result A :=
  match v with
  | None | Some JNull => Err ("notNull Violation: " +:+ attr +:+ " cannot be null")
  | Some j => coerce j
  end.

Definition nullable {A} (coerce : json → result A)
    (v : option json) : result (option A) :=
  match v with
  | None | Some JNull => Ok None
  | Some j => Some <$> coerce j
  end.

Definition with_default {A} (d : A) (coerce : json → result A)
    (v : option json) : result (option A) :=
  match v with
  | None => Ok (Some d)
  | Some JNull => Ok None
  | Some j => Some <$> coerce j
  end.

(** ** Conditions of a [where] clause *)

(** The text that a condition [column = s] compares the column with. *)
Definition sql_literal `{Platform} (s : string) : option string :=
  if has_nul s then pg_literal_nul s else Some s.

(** [where: { id: v }] for the string [v] of a path: the key that the
    database reads, [None] when it refuses the comparison. *)
Definition where_id `{Platform} (v : string) : option Z :=
  match sql_literal v with
  | Some t => int4_in t
  | None => None
  end.

(** The strings of [column IN (...)]; a [null] among them matches nothing. *)
Fixpoint where_items `{Platform} (items : list json) : result (list string) :=
  match items with
  | [] => Ok []
  | JStr s :: rest =>
      match sql_literal s with
      | Some t => cons t <$> where_items rest
      | None => Err "invalid byte sequence for encoding UTF8: 0x00"
      end
  | JNull :: rest => where_items rest
  | _ :: _ => Err "operator does not exist"
  end.

(** [where: { column: w }] on a STRING column that is NOT NULL: equality
    with a string, [IN] for an array of strings, nothing for [null]. *)
Definition where_string `{Platform} (w : option json) : result (string → bool) :=
  match w with
  | None => Err "WHERE parameter has invalid undefined value"
  | Some JNull => Ok (λ _, false)
  | Some (JStr e) =>
      match sql_literal e with
      | Some t => Ok (String.eqb t)
      | None => Err "invalid byte sequence for encoding UTF8: 0x00"
      end
  | Some (JArr items) =>
      es ← where_items items; Ok (λ x, existsb (String.eqb x) es)
  | Some _ => Err "operator does not exist"
  end.

(** ** Operations of the [User] model *)

Module Users.
Import User.

Definition findOne (tbl : gmap Z t) (p : t → bool) : option (Z * t) :=
  List.find (λ r, p r.2) (map_to_list tbl).

Definition findByPk (tbl : gmap Z t) (id : Z) : option t := tbl !! id.

(** [User.create({ username, email, password, role })]; the new row gets
    the next value of the sequence, the default [profile] and the time of
    the insert.  At both places that call it, [password] is the digest that
    [bcrypt.hash] returned: a string of 60 characters, which the column
    takes as it is. *)
Definition create `{Platform} (tbl : gmap Z t) (seq now : Z)
    (username email : option json) (password : string) (role : option json)
    : result (Z * t) :=
  u ← required "User.username" string_value username;
  e ← required "User.email" string_value email;
  r ← with_default Role.user (enum_value Role.parse) role;
  if existsb (λ x, String.eqb (User.email x.2) e) (map_to_list tbl)
  then Err "Validation error"
  else match tbl !! seq with
       | Some _ => Err "duplicate key value violates unique constraint"
       | None => Ok (seq, mk u e password r (JObj []) now now)
       end.

Definition role_json (u : t) : json :=
  json_of_option (λ r, JStr (Role.name r)) (role u).

(** The four fields that register and login send back. *)
Definition public_fields (id : Z) (u : t) : json :=
  JObj [("id", JNum id); ("username", JStr (username u));
        ("email", JStr (email u)); ("role", role_json u)].

(** [attributes: ['id', 'username', 'profile']] of the joined publisher. *)
Definition identity (id : Z) (u : t) : json :=
  JObj [("id", JNum id); ("username", JStr (username u));
        ("profile", profile u)].

(** [attributes: { exclude: ['password'] }] *)
Definition without_password (id : Z) (u : t) : json :=
  JObj [("id", JNum id); ("username", JStr (username u));
        ("email", JStr (email u)); ("role", role_json u);
        ("profile", profile u); ("createdAt", JNum (createdAt u));
        ("updatedAt", JNum (updatedAt u))].

Definition claims (id : Z) (u : t) : Claims :=
  mkClaims id (username u) (Role.name <$> role u).
End Users.

(** ** Operations of the [Content] model *)

Module Contents.
Import Content.

(** [findOne({ where: { id, ... } })] for the [id] of a path: the query
    fails when the database does not read an [INTEGER] from it; otherwise
    it finds the row with that primary key, if it satisfies the other
    conditions. *)
Definition findOne `{Platform} (tbl : gmap Z t) (id : string) (p : t → bool)
    : result (option (Z * t)) :=
  match where_id id with
  | None => Err "invalid input syntax for type integer"
  | Some k =>
      Ok match tbl !! k with
         | Some c => if p c then Some (k, c) else None
         | None => None
         end
  end.

(** [order: [['createdAt', 'DESC']]] *)
Definition newest_first (a b : Z * t) : Prop :=
  createdAt b.2 ≤ createdAt a.2.

#[global] Instance newest_first_dec a b : Decision (newest_first a b).
Proof. unfold newest_first. apply _. Defined.

Definition matching (tbl : gmap Z t) (p : t → bool) : list (Z * t) :=
  merge_sort newest_first (List.filter (λ r, p r.2) (map_to_list tbl)).

(** The row count of a [LIMIT] or [OFFSET] that Sequelize writes for a
    JavaScript number; PostgreSQL refuses a negative one. *)
Definition row_count `{Platform} (x : float) : option Z :=
  match pg_count (js_String x) with
  | Some n => if n <? 0 then None else Some n
  | None => None
  end.

(** [findAll({ where, order, limit, offset })]; without [limit] and
    [offset] it returns every matching row. *)
Definition findAll `{Platform} (tbl : gmap Z t) (p : t → bool)
    (window : option (float * float)) : result (list (Z * t)) :=
  let rows := matching tbl p in
  match window with
  | None => Ok rows
  | Some (limit, offset) =>
      match row_count limit, row_count offset with
      | Some l, Some o => Ok (take (Z.to_nat l) (drop (Z.to_nat o) rows))
      | None, _ => Err "LIMIT is not a row count"
      | _, None => Err "OFFSET is not a row count"
      end
  end.

(** A value for [publisherId] must name a row of [users]. *)
Definition references `{Platform} (users : gmap Z User.t) (v : json) : result Z :=
  n ← integer_value v;
  match users !! n with
  | Some _ => Ok n
  | None => Err "violates foreign key constraint"
  end.

(** [Content.create({...})] as the create route calls it: [status] and
    [views] are not passed and take their defaults. *)
Definition create `{Platform} (users : gmap Z User.t) (tbl : gmap Z t) (seq now : Z)
    (title content type category : option json) (tags : json)
    (featuredImage videoUrl readTime : option json) (publisherId : Z)
    : result (Z * t) :=
  ti ← required "Content.title" string_value title;
  co ← required "Content.content" text_value content;
  ty ← required "Content.type" (enum_value ContentType.parse) type;
  ca ← nullable string_value category;
  ta ← with_default [] string_array_value (Some tags);
  fi ← nullable string_value featuredImage;
  vi ← nullable string_value videoUrl;
  rt ← nullable integer_value readTime;
  pu ← references users (JNum publisherId);
  match tbl !! seq with
  | Some _ => Err "duplicate key value violates unique constraint"
  | None =>
      Ok (seq, mk ti co ty ca ta (Some Status.draft) fi vi rt (Some 0) pu now)
  end.

(** One attribute of [instance.update(values)]: a key that is absent
    leaves the attribute as it is. *)
Definition assign {A} (v : option json) (coerce : option json → result A)
    (old : A) : result A :=
  match v with
  | None => Ok old
  | Some _ => coerce v
  end.

(** [instance.update(values)]: every model attribute named in [values] is
    overwritten; the primary key and [createdAt] cannot be reassigned, and
    keys that are not attributes are dropped. *)
Definition update `{Platform} (users : gmap Z User.t) (c : t)
    (values : gmap string json) : result t :=
  ti ← assign (values !! "title") (required "Content.title" string_value) (title c);
  co ← assign (values !! "content") (required "Content.content" text_value) (content c);
  ty ← assign (values !! "type")
         (required "Content.type" (enum_value ContentType.parse)) (type c);
  ca ← assign (values !! "category") (nullable string_value) (category c);
  ta ← assign (values !! "tags") (nullable string_array_value) (tags c);
  st ← assign (values !! "status") (nullable (enum_value Status.parse)) (status c);
  fi ← assign (values !! "featuredImage") (nullable string_value) (featuredImage c);
  vi ← assign (values !! "videoUrl") (nullable string_value) (videoUrl c);
  rt ← assign (values !! "readTime") (nullable integer_value) (readTime c);
  vw ← assign (values !! "views") (nullable integer_value) (views c);
  pu ← assign (values !! "publisherId")
         (required "Content.publisherId" (references users)) (publisherId c);
  Ok (mk ti co ty ca ta st fi vi rt vw pu (createdAt c)).

(** [instance.increment('views')]: [SET views = views + 1]; NULL stays
    NULL, and the database refuses a sum beyond the range of [INTEGER]. *)
Definition increment_views (c : t) : result t :=
  match views c with
  | None => Ok c
  | Some v =>
      if in_int4 (v + 1) then Ok (set_views (Some (v + 1)) c)
      else Err "integer out of range"
  end.

Definition toJSON (id : Z) (c : t) : list (string * json) :=
  [("id", JNum id); ("title", JStr (title c)); ("content", JStr (content c));
   ("type", JStr (ContentType.name (type c)));
   ("category", json_of_option JStr (category c));
   ("tags", json_of_option (λ l, JArr (tag_json <$> l)) (tags c));
   ("status", json_of_option (λ x, JStr (Status.name x)) (status c));
   ("featuredImage", json_of_option JStr (featuredImage c));
   ("videoUrl", json_of_option JStr (videoUrl c));
   ("readTime", json_of_option JNum (readTime c));
   ("views", json_of_option JNum (views c));
   ("publisherId", JNum (publisherId c));
   ("createdAt", JNum (createdAt c))].

(** [include: [{ model: User, attributes: ['id', 'username', 'profile'] }]] *)
Definition toJSON_with_publisher (users : gmap Z User.t) (r : Z * t) : json :=
  JObj (toJSON r.1 r.2 ++
        [("User", json_of_option (Users.identity (publisherId r.2))
                    (users !! publisherId r.2))])%list.
End Contents.

(** ** JavaScript helpers used by the handlers *)

(** [s.split(sep)] for a one-character separator. *)
Fixpoint split (sep : ascii) (s : string) : list string :=
  match s with
  | EmptyString => [EmptyString]
  | String c rest =>
      match split sep rest with
      | w :: ws =>
          if Ascii.eqb c sep then EmptyString :: w :: ws else String c w :: ws
      | [] => []
      end
  end.

(** [v || d] *)
Definition js_or (v : option json) (d : json) : json :=
  if truthy v then default d v else d.

(** [if (s)] on a query parameter: absent and empty are both false. *)
Definition given (s : option string) : option string :=
  match s with
  | Some x => if String.eqb x "" then None else Some x
  | None => None
  end.

Inductive Route :=
  | GET_root
  | POST_register
  | POST_login
  | GET_contents
  | GET_contents_id
  | GET_publisher_contents
  | POST_publisher_contents
  | PUT_publisher_contents_id
  | PUT_publisher_contents_id_publish
  | GET_profile.

#[global] Instance Route_eq_dec : EqDecision Route.
Proof. solve_decision. Defined.

(** ** The server *)

Section Server.
Context `{Platform}.

(** [process.env.JWT_SECRET || 'your-secret-key'] (line 27) *)
Definition JWT_SECRET : string :=
  match given env_JWT_SECRET with
  | Some s => s
  | None => "your-secret-key"
  end.

(** A handler sees the environment, the database, the request and
    [req.user]; it answers with the new database and the response. *)
Definition Handler : Type :=
  Env → Store → Request → option Claims → Store * Response.

Definition respond (code : Z) (j : json) : Response := mkResponse code j.

(** [try { ... } catch (error) { res.status(500).json({ error: error.message }) }].
    In every handler the steps that can throw come before the first write,
    so the database at the [catch] is the one the handler started with. *)
Definition caught (s : Store) (r : result (Store * Response)) : Store * Response :=
  match r with
  | Ok x => x
  | Err m => (s, respond 500 (error_body m))
  end.

(** [req.user.…] when no middleware has set [req.user] *)
Definition req_user (user : option Claims) : result Claims :=
  match user with
  | Some u => Ok u
  | None => Err "Cannot read properties of undefined"
  end.

(** [bcrypt.hash(s, 10)] and [bcrypt.compare(s, digest)] reject a first
    argument that is not a string. *)
Definition hash (s : option json) (salt : string) : result string :=
  match s with
  | Some (JStr p) => Ok (bcrypt_hash p salt)
  | _ => Err ("Illegal arguments: " +:+ typeof s +:+ ", number")
  end.

Definition compare (s : option json) (digest : string) : result bool :=
  match s with
  | Some (JStr p) => Ok (bcrypt_compare p digest)
  | _ => Err ("Illegal arguments: " +:+ typeof s +:+ ", string")
  end.

(** *** Middleware (lines 123-145) *)

(** [authHeader && authHeader.split(' ')[1]], kept when it is truthy *)
Definition bearer_token (req : Request) : option string :=
  let authHeader := authorization req in
  let token :=
    match authHeader with
    | None => None
    | Some h => if String.eqb h "" then Some "" else split " " h !! 1%nat
    end in
  given token.

Definition authenticateToken (next : Handler) : Handler := λ env s req _,
  match bearer_token req with
  | None => (s, respond 401 (error_body "Access token required"))
  | Some token =>
      match jwt_verify token JWT_SECRET (now env) with
      | None => (s, respond 403 (error_body "Invalid token"))
      | Some user => next env s req (Some user)
      end
  end.

(** The claims that [authenticateToken] attaches to a request, if any. *)
Definition verified_claims (env : Env) (req : Request) : option Claims :=
  token ← bearer_token req; jwt_verify token JWT_SECRET (now env).

Definition requirePublisher (next : Handler) : Handler := λ env s req user,
  match user with
  | None => (s, respond 500 (JStr "TypeError"))
  | Some u =>
      if bool_decide (claim_role u = Some "publisher")
      then next env s req user
      else (s, respond 403 (error_body "Publisher access required"))
  end.

(** *** Bootstrap (lines 162-182) *)

Definition syncDatabase (env : Env) (s : Store) : Store :=
  match Users.findOne (users s)
          (λ u, bool_decide (User.role u = Some Role.publisher)) with
  | Some _ => s
  | None =>
      let hashedPassword := bcrypt_hash "publisher123" (salt env) in
      match Users.create (users s) (users_id_seq s) (now env)
              (Some (JStr "admin")) (Some (JStr "admin@news.com"))
              hashedPassword (Some (JStr "publisher")) with
      | Ok (id, user) => with_users (<[id := user]> (users s)) (id + 1) s
      | Err _ => s
      end
  end.

(** *** Routes (lines 195-416) *)

Definition home : Handler := λ env s req _,
  (s, respond 200 (JObj
    [("message", JStr "News Publishing Platform API is running!");
     ("features", JArr [JStr "User Registration"; JStr "Publisher Dashboard";
                        JStr "Multiple Content Types"; JStr "JWT Authentication"]);
     ("status", JStr "Active")])).

Definition session (message : string) (env : Env) (id : Z) (user : User.t) : json :=
  JObj [("message", JStr message);
        ("token", JStr (jwt_sign (Users.claims id user) JWT_SECRET (now env)));
        ("user", Users.public_fields id user)].

Definition register : Handler := λ env s req _,
  let username := body req !! "username" in
  let email := body req !! "email" in
  let password := body req !! "password" in
  let role := default (JStr "user") (body req !! "role") in
  caught s (
    same_email ← where_string email;
    match Users.findOne (users s) (λ u, same_email (User.email u)) with
    | Some _ => Ok (s, respond 400 (error_body "User already exists"))
    | None =>
        hashedPassword ← hash password (salt env);
        created ← Users.create (users s) (users_id_seq s) (now env)
                    username email hashedPassword (Some role);
        let '(id, user) := created in
        Ok (with_users (<[id := user]> (users s)) (id + 1) s,
            respond 201 (session "User registered successfully" env id user))
    end).

Definition login : Handler := λ env s req _,
  let email := body req !! "email" in
  let password := body req !! "password" in
  caught s (
    same_email ← where_string email;
    match Users.findOne (users s) (λ u, same_email (User.email u)) with
    | None => Ok (s, respond 400 (error_body "Invalid credentials"))
    | Some (id, user) =>
        validPassword ← compare password (User.password user);
        if validPassword : bool
        then Ok (s, respond 200 (session "Login successful" env id user))
        else Ok (s, respond 400 (error_body "Invalid credentials"))
    end).

(** The [where] object of [GET /api/contents]: [status] always, [type]
    and [category] when the parameter is truthy. *)
Definition listing_where (q : Query) : result (Content.t → bool) :=
  (* a type that holds a NUL character is no label of the enumeration,
     however the condition is written *)
  by_type ← match given (q_type q) with
            | Some t =>
                ty ← enum_value ContentType.parse (JStr t);
                Ok (λ c, bool_decide (Content.type c = ty))
            | None => Ok (λ _, true)
            end;
  by_category ← match given (q_category q) with
                | Some x =>
                    match sql_literal x with
                    | Some t => Ok (λ c, bool_decide (Content.category c = Some t))
                    | None => Err "invalid byte sequence for encoding UTF8: 0x00"
                    end
                | None => Ok (λ _, true)
                end;
  Ok (λ c, bool_decide (Content.status c = Some Status.published)
           && by_type c && by_category c).

(** [const { page = 1, limit = 10 } = req.query]: the numbers that
    [page - 1] and [... * limit] compute with. *)
Definition page_number (q : Query) : float :=
  match q_page q with Some x => js_Number x | None => 1%float end.
Definition limit_number (q : Query) : float :=
  match q_limit q with Some x => js_Number x | None => 10%float end.

(** [parseInt(x)] of a number reads the string of that number. *)
Definition parseInt_number (x : float) : float := js_parseInt (js_String x).

(** [const offset = (page - 1) * limit] *)
Definition offset (q : Query) : float :=
  ((page_number q - 1) * limit_number q)%float.

(** [limit: parseInt(limit), offset: parseInt(offset)] *)
Definition limit_int (q : Query) : float :=
  match q_limit q with
  | Some x => js_parseInt x
  | None => parseInt_number 10%float
  end.
Definition offset_int (q : Query) : float := parseInt_number (offset q).

Definition list_contents : Handler := λ env s req _,
  let q := query req in
  caught s (
    where_ ← listing_where q;
    rows ← Contents.findAll (contents s) where_ (Some (limit_int q, offset_int q));
    Ok (s, respond 200 (JArr (Contents.toJSON_with_publisher (users s) <$> rows)))).

Definition get_content : Handler := λ env s req _,
  caught s (
    found ← Contents.findOne (contents s) (params_id req)
              (λ c, bool_decide (Content.status c = Some Status.published));
    match found with
    | None => Ok (s, respond 404 (error_body "Content not found"))
    | Some (id, c) =>
        c' ← Contents.increment_views c;
        Ok (with_contents (<[id := c']> (contents s)) s,
            respond 200 (Contents.toJSON_with_publisher (users s) (id, c')))
    end).

Definition publisher_contents : Handler := λ env s req user,
  caught s (
    u ← req_user user;
    rows ← Contents.findAll (contents s)
             (λ c, bool_decide (Content.publisherId c = claim_id u)) None;
    Ok (s, respond 200 (JArr ((λ r, JObj (Contents.toJSON r.1 r.2)) <$> rows)))).

Definition create_content : Handler := λ env s req user,
  let b := body req in
  caught s (
    u ← req_user user;
    created ← Contents.create (users s) (contents s) (contents_id_seq s) (now env)
                (b !! "title") (b !! "content") (b !! "type") (b !! "category")
                (js_or (b !! "tags") (JArr []))
                (b !! "featuredImage") (b !! "videoUrl") (b !! "readTime")
                (claim_id u);
    let '(id, newContent) := created in
    Ok (with_new_content (<[id := newContent]> (contents s)) (id + 1) s,
        respond 201 (JObj (Contents.toJSON id newContent)))).

(** [findOne({ where: { id: req.params.id, publisherId: req.user.id } })] *)
Definition owned (s : Store) (id : string) (u : Claims)
    : result (option (Z * Content.t)) :=
  Contents.findOne (contents s) id
    (λ c, bool_decide (Content.publisherId c = claim_id u)).

Definition update_content : Handler := λ env s req user,
  caught s (
    u ← req_user user;
    found ← owned s (params_id req) u;
    match found with
    | None => Ok (s, respond 404 (error_body "Content not found"))
    | Some (id, c) =>
        c' ← Contents.update (users s) c (body req);
        Ok (with_contents (<[id := c']> (contents s)) s,
            respond 200 (JObj (Contents.toJSON id c')))
    end).

Definition publish_content : Handler := λ env s req user,
  caught s (
    u ← req_user user;
    found ← owned s (params_id req) u;
    match found with
    | None => Ok (s, respond 404 (error_body "Content not found"))
    | Some (id, c) =>
        c' ← Contents.update (users s) c {[ "status" := JStr "published" ]};
        Ok (with_contents (<[id := c']> (contents s)) s,
            respond 200 (JObj [("message", JStr "Content published successfully");
                               ("content", JObj (Contents.toJSON id c'))]))
    end).

Definition profile : Handler := λ env s req user,
  caught s (
    u ← req_user user;
    Ok (s, respond 200
             (json_of_option (Users.without_password (claim_id u))
                (Users.findByPk (users s) (claim_id u))))).

Definition route (r : Route) : Handler :=
  match r with
  | GET_root => home
  | POST_register => register
  | POST_login => login
  | GET_contents => list_contents
  | GET_contents_id => get_content
  | GET_publisher_contents => authenticateToken (requirePublisher publisher_contents)
  | POST_publisher_contents => authenticateToken (requirePublisher create_content)
  | PUT_publisher_contents_id => authenticateToken (requirePublisher update_content)
  | PUT_publisher_contents_id_publish =>
      authenticateToken (requirePublisher publish_content)
  | GET_profile => authenticateToken profile
  end.

(** The handler behind the middleware of a route. *)
Definition handler (r : Route) : Handler :=
  match r with
  | GET_root => home
  | POST_register => register
  | POST_login => login
  | GET_contents => list_contents
  | GET_contents_id => get_content
  | GET_publisher_contents => publisher_contents
  | POST_publisher_contents => create_content
  | PUT_publisher_contents_id => update_content
  | PUT_publisher_contents_id_publish => publish_content
  | GET_profile => profile
  end.

(** A request enters its route with [req.user] unset. *)
Definition app (r : Route) (env : Env) (s : Store) (req : Request) : Store * Response :=
  route r env s req None.

(** Requests served one after the other, each on the database the previous
    one left. *)
Fixpoint serve (trace : list (Route * Env * Request)) (s : Store)
    : Store * list Response :=
  match trace with
  | [] => (s, [])
  | (r, env, req) :: rest =>
      let step := app r env s req in
      let later := serve rest step.1 in
      (later.1, step.2 :: later.2)
  end.

End Server.

(** A string without a space character. *)
Fixpoint spaceless (s : string) : bool :=
  match s with
  | EmptyString => true
  | String c rest => negb (Ascii.eqb c " ") && spaceless rest
  end.

(** The routes behind [authenticateToken, requirePublisher]. *)
Definition publisher_only (r : Route) : Prop :=
  r = GET_publisher_contents ∨ r = POST_publisher_contents ∨
  r = PUT_publisher_contents_id ∨ r = PUT_publisher_contents_id_publish.

(** The two write routes of a publisher have one shape: look the row up
    by id and owner, answer 404 without it, otherwise write that row or
    fail with 500. *)
Definition owner_write `{Platform} (h : Handler) : Prop :=
  ∀ env s req u s' res,
    h env s req (Some u) = (s', res) →
    (∃ m, owned s (params_id req) u = Err m ∧ s' = s
          ∧ res = respond 500 (error_body m))
    ∨ (owned s (params_id req) u = Ok None ∧ s' = s
       ∧ res = respond 404 (error_body "Content not found"))
    ∨ (∃ id c, owned s (params_id req) u = Ok (Some (id, c)) ∧
         ((∃ m, s' = s ∧ res = respond 500 (error_body m))
          ∨ (∃ c' j, s' = with_contents (<[id := c']> (contents s)) s
                     ∧ res = respond 200 j))).

(** The keys of the body that the create route reads (line 346). *)
Definition accepted_keys : list string :=
  ["title"; "content"; "type"; "category"; "tags"; "featuredImage";
   "videoUrl"; "readTime"].

(** The rows that a listing query asks for: published, of the type that
    the query gives, of the category that it gives. *)
Definition asked_for `{Platform} (q : Query) (c : Content.t) : Prop :=
  Content.status c = Some Status.published
  ∧ (∀ t, given (q_type q) = Some t → ContentType.name (Content.type c) = t)
  ∧ (∀ x, given (q_category q) = Some x →
          ∃ t, sql_literal x = Some t ∧ Content.category c = Some t).







(** A handler that leaves the table of users as it is. *)
Definition keeps_users `{Platform} (h : Handler) : Prop :=
  ∀ env s req user, users (h env s req user).1 = users s.

(** The constraints that the schema declares, as a property of the
    database: the sequences are ahead of the keys in use, [email] is
    unique, and every [publisherId] names a user. *)
Definition consistent (s : Store) : Prop :=
  map_Forall (λ k _, k < users_id_seq s) (users s)
  ∧ map_Forall (λ k _, k < contents_id_seq s) (contents s)
  ∧ (∀ k1 k2 u1 u2,
       users s !! k1 = Some u1 → users s !! k2 = Some u2 →
       User.email u1 = User.email u2 → k1 = k2)
  ∧ map_Forall (λ _ c, is_Some (users s !! Content.publisherId c)) (contents s).

(** The four kinds of write that the server performs. *)
Inductive write (s : Store) : Store → Prop :=
  | write_nothing : write s s
  | write_user u :
      users s !! users_id_seq s = None →
      (∀ k u', users s !! k = Some u' → User.email u' ≠ User.email u) →
      write s (with_users (<[users_id_seq s := u]> (users s)) (users_id_seq s + 1) s)
  | write_new_content c :
      contents s !! contents_id_seq s = None →
      is_Some (users s !! Content.publisherId c) →
      write s (with_new_content (<[contents_id_seq s := c]> (contents s))
                 (contents_id_seq s + 1) s)
  | write_content k c c' :
      contents s !! k = Some c →
      Content.publisherId c' = Content.publisherId c
      ∨ is_Some (users s !! Content.publisherId c') →
      write s (with_contents (<[k := c']> (contents s)) s).

(** A handler all of whose effects are such writes. *)
Definition writes `{Platform} (h : Handler) : Prop :=
  ∀ env s req user, write s (h env s req user).1.

(** The status codes that the handler of a route sends (the [res.status]
    and [res.json] calls of its body and of its middleware). *)
Definition statuses (r : Route) : list Z :=
  match r with
  | GET_root => [200]
  | POST_register => [201; 400; 500]
  | POST_login => [200; 400; 500]
  | GET_contents => [200; 500]
  | GET_contents_id => [200; 404; 500]
  | GET_publisher_contents => [200; 401; 403; 500]
  | POST_publisher_contents => [201; 401; 403; 500]
  | PUT_publisher_contents_id => [200; 401; 403; 404; 500]
  | PUT_publisher_contents_id_publish => [200; 401; 403; 404; 500]
  | GET_profile => [200; 401; 403; 500]
  end.

(** The routes whose handler issues no INSERT, UPDATE or increment. *)
Definition read_only (r : Route) : Prop :=
  r = GET_root ∨ r = POST_login ∨ r = GET_contents
  ∨ r = GET_publisher_contents ∨ r = GET_profile.

(** The attributes of [Content] that [instance.update] can overwrite. *)
Definition updatable_keys : list string :=
  ["title"; "content"; "type"; "category"; "tags"; "status"; "featuredImage";
   "videoUrl"; "readTime"; "views"; "publisherId"].

(** An answer is a success, or an error object sent with the database as
    the request found it. *)
Definition answered `{Platform} (r : Route) (s : Store) (x : Store * Response) : Prop :=
  res_status x.2 ∈ statuses r
  ∧ (res_status x.2 = 200 ∨ res_status x.2 = 201
     ∨ x.1 = s ∧ ∃ m, res_body x.2 = error_body m).

(** A handler that keeps every row of [contents] under its id and with its
    [createdAt]. *)
Definition keeps_rows `{Platform} (h : Handler) : Prop :=
  ∀ env s req user k c,
    contents s !! k = Some c →
    ∃ c', contents (h env s req user).1 !! k = Some c'
          ∧ Content.createdAt c' = Content.createdAt c.

(** ** A concrete platform and concrete requests

    Stand-ins on which the model can be run.  The digest is the salt, a
    dollar sign and the plaintext, and three tokens are known, two of
    publishers and one of a plain user.  JavaScript reads a number from a
    plain decimal numeral, rounded to the nearest double, and writes an
    integer of absolute value at most [2^53] as its numeral; the database
    reads a row count from a plain decimal numeral within the range of
    [bigint].  On every other argument the stand-ins answer [NaN] or
    refuse; the examples below use none. *)

Module Sample.

(** The double nearest to an integer. *)
Definition float_of_Z (n : Z) : float :=
  SF2Prim (binary_normalize prec emax n 0 false).

(** The integer that a double is, if it is one. *)
Definition Z_of_float (x : float) : option Z :=
  match Prim2SF x with
  | S754_zero _ => Some 0
  | S754_finite negative m e =>
      let sign n := if negative then - n else n in
      if 0 <=? e then Some (sign (Z.pos m * 2 ^ e))
      else if Z.pos m mod 2 ^ (- e) =? 0 then Some (sign (Z.pos m / 2 ^ (- e)))
      else None
  | _ => None
  end.

Definition number (s : string) : float :=
  match decimal s with
  | Some n => float_of_Z n
  | None => (0 / 0)%float
  end.

Definition array_item (v : json) : result tag :=
  match v with
  | JNull => Ok Tnull
  | JStr s => Ttext <$> varchar s
  | JNum n => if Z.abs n <=? 2 ^ 53 then Ok (Ttext (decimal_text n))
              else Err "malformed array literal"
  | JBool b => Ok (Ttext (if b then "true" else "false"))
  | _ => Err "malformed array literal"
  end.

Definition platform : Platform := {|
  bcrypt_hash p sl := sl +:+ "$" +:+ p;
  bcrypt_compare p digest :=
    match split "$" digest with
    | [_; q] => String.eqb p q
    | _ => false
    end;
  jwt_sign c _ _ := "token-of-" +:+ claim_username c;
  jwt_verify token _ _ :=
    if String.eqb token "token-of-alice"
    then Some (mkClaims 1 "alice" (Some "publisher"))
    else if String.eqb token "token-of-bob"
    then Some (mkClaims 2 "bob" (Some "user"))
    else if String.eqb token "token-of-carol"
    then Some (mkClaims 3 "carol" (Some "publisher"))
    else None;
  env_JWT_SECRET := None;
  js_String x :=
    match Z_of_float x with
    | Some n => if Z.abs n <=? 2 ^ 53 then decimal_text n else "NaN"
    | None => "NaN"
    end;
  js_String_big _ := "NaN";
  js_Number s := if String.eqb s "" then 0%float else number s;
  js_parseInt s := number s;
  pg_int4_other _ := None;
  pg_literal_nul _ := None;
  pg_varchar_array items := mapM array_item items;
  pg_count t :=
    match decimal t with
    | Some n => if (- 2 ^ 63 <=? n) && (n <? 2 ^ 63) then Some n else None
    | None => None
    end
|}.

Definition env : Env := mkEnv 1000 "salt".

Definition request (auth : option string) (id : string) (b : gmap string json)
    : Request :=
  mkRequest auth id (mkQuery None None None None) b.

Definition alice : User.t :=
  User.mk "alice" "alice@news.com" "salt$pw1" (Some Role.publisher) (JObj [])
          800 800.
Definition bob : User.t :=
  User.mk "bob" "bob@news.com" "salt$pw2" (Some Role.user) (JObj []) 810 810.
Definition carol : User.t :=
  User.mk "carol" "carol@news.com" "salt$pw3" (Some Role.publisher) (JObj [])
          820 820.

Definition item (st : option Status.t) (vw : option Z) (owner : Z) : Content.t :=
  Content.mk "Title" "Text" ContentType.article (Some "sports") (Some [])
             st None None None vw owner 900.

(** The database before the first request. *)
Definition empty : Store := mkStore ∅ ∅ 1 1.

(** Three users; alice owns a draft (1) and a published item (2), carol
    owns a draft (3). *)
Definition store : Store :=
  mkStore {[ 1 := alice; 2 := bob; 3 := carol ]}
          {[ 1 := item (Some Status.draft) (Some 0) 1;
             2 := item (Some Status.published) (Some 5) 1;
             3 := item (Some Status.draft) (Some 0) 3 ]}
          4 4.

(** A published item of alice, created at the given time. *)
Definition dated (created : Z) : Content.t :=
  Content.mk "Title" "Text" ContentType.article (Some "sports") (Some [])
             (Some Status.published) None None None (Some 0) 1 created.

(** Three published items, created one after the other. *)
Definition library : Store :=
  mkStore {[ 1 := alice ]}
          {[ 1 := dated 100; 2 := dated 200; 3 := dated 300 ]}
          2 4.
End Sample.

(** Further requests on the sample database. *)
Module Run.

Definition alice_auth : option string := Some "Bearer token-of-alice".

Definition register_alice : Request :=
  Sample.request None ""
    {[ "username" := JStr "alice"; "email" := JStr "alice@news.com";
       "password" := JStr "pw1"; "role" := JStr "publisher" ]}.

Definition register_dave : Request :=
  Sample.request None ""
    {[ "username" := JStr "dave"; "email" := JStr "dave@news.com";
       "password" := JStr "pw4" ]}.

Definition login_dave (password : string) : Request :=
  Sample.request None ""
    {[ "email" := JStr "dave@news.com"; "password" := JStr password ]}.

Definition post_budget : Request :=
  Sample.request (Some "Bearer token-of-carol") ""
    {[ "title" := JStr "Budget"; "content" := JStr "Text";
       "type" := JStr "article" ]}.

End Run.

(** * Contracts of the routes *)

(** Inversion of a chain of binds that ended in [Ok]. *)
Ltac bind_inv H :=
  repeat match type of H with
         | (?m ≫= _) = Ok _ =>
             let E := fresh "E" in
             destruct m eqn:E; cbn [mbind result_bind] in H; [|discriminate H]
         end.


Section Middleware.
Context `{Platform}.

Lemma authenticateToken_unfold (next : Handler) env s req user :
  authenticateToken next env s req user =
  match bearer_token req with
  | None => (s, respond 401 (error_body "Access token required"))
  | Some _ =>
      match verified_claims env req with
      | None => (s, respond 403 (error_body "Invalid token"))
      | Some u => next env s req (Some u)
      end
  end.
Proof.
  unfold authenticateToken, verified_claims.
  destruct (bearer_token req) as [token|]; simpl; [|done].
  by destruct (jwt_verify token JWT_SECRET (now env)).
Qed.

Lemma verified_claims_token env req u :
  verified_claims env req = Some u →
  ∃ token, bearer_token req = Some token ∧
           jwt_verify token JWT_SECRET (now env) = Some u.
Proof.
  unfold verified_claims. destruct (bearer_token req) as [token|]; simpl; [|done].
  intros Hv. by exists token.
Qed.

Lemma split_step sep c rest :
  split sep (String c rest) =
  match split sep rest with
  | w :: ws => if Ascii.eqb c sep then EmptyString :: w :: ws else String c w :: ws
  | [] => []
  end.
Proof. reflexivity. Qed.

Lemma split_spaceless t : spaceless t = true → split " " t = [t].
Proof.
  induction t as [|c rest IH]; [done|]. simpl.
  intros [Hc Hrest]%andb_true_iff. rewrite (IH Hrest).
  by destruct (Ascii.eqb c " ").
Qed.

(** The header [Bearer <token>] carries that token; a request without the
    header carries none. *)
Lemma bearer_token_Bearer req t :
  authorization req = Some ("Bearer " +:+ t) → t ≠ "" → spaceless t = true →
  bearer_token req = Some t.
Proof.
  intros Hauth Ht Hspaceless. unfold bearer_token. rewrite Hauth.
  change ("Bearer " +:+ t)
    with (String "B" (String "e" (String "a" (String "r" (String "e"
            (String "r" (String " " t))))))).
  rewrite !split_step, (split_spaceless t Hspaceless).
  cbn. unfold given. by destruct (String.eqb_spec t "").
Qed.

Lemma bearer_token_absent req : authorization req = None → bearer_token req = None.
Proof. unfold bearer_token. by intros ->. Qed.

(** A route behind both middlewares, once the token has verified. *)
Lemma guarded_run (next : Handler) env s req u :
  verified_claims env req = Some u →
  authenticateToken (requirePublisher next) env s req None =
  if bool_decide (claim_role u = Some "publisher")
  then next env s req (Some u)
  else (s, respond 403 (error_body "Publisher access required")).
Proof.
  intros Hv. rewrite authenticateToken_unfold.
  destruct (verified_claims_token _ _ _ Hv) as (token & -> & _).
  by rewrite Hv.
Qed.

Lemma publisher_route r :
  publisher_only r →
  route r = authenticateToken (requirePublisher (handler r)).
Proof. by intros [->|[->|[->| ->]]]. Qed.

(** A publisher-only route called with verified publisher claims is its
    handler run with those claims. *)
Lemma publisher_route_run r env s req u :
  publisher_only r →
  verified_claims env req = Some u →
  claim_role u = Some "publisher" →
  app r env s req = handler r env s req (Some u).
Proof.
  intros Hr Hv Hrole. unfold app.
  rewrite (publisher_route r Hr), (guarded_run _ _ _ _ u Hv).
  by rewrite bool_decide_eq_true_2.
Qed.

(** C3. On each of the four publisher-only routes: without a token (no
    authorization header, or none with a second, non-empty word) the
    answer is 401 "Access token required"; with a token that does not
    verify it is 403 "Invalid token"; with verified claims whose role is
    not [publisher] it is 403 "Publisher access required"; in these three
    cases the database is left as it was.  With verified publisher claims
    the route is exactly its handler run with those claims. *)
Theorem C3_publisher_routes_guarded (r : Route) (env : Env) (s : Store) (req : Request) :
  publisher_only r →
  (bearer_token req = None →
     app r env s req = (s, respond 401 (error_body "Access token required")))
  ∧ (authorization req = None →
     app r env s req = (s, respond 401 (error_body "Access token required")))
  ∧ (∀ token, bearer_token req = Some token →
       jwt_verify token JWT_SECRET (now env) = None →
       app r env s req = (s, respond 403 (error_body "Invalid token")))
  ∧ (∀ u, verified_claims env req = Some u →
       claim_role u ≠ Some "publisher" →
       app r env s req = (s, respond 403 (error_body "Publisher access required")))
  ∧ (∀ u, verified_claims env req = Some u →
       claim_role u = Some "publisher" →
       app r env s req = handler r env s req (Some u)).
Proof.
  intros Hr. unfold app. rewrite (publisher_route r Hr).
  repeat split.
  - intros Hnone. unfold authenticateToken. by rewrite Hnone.
  - intros Hnone. unfold authenticateToken. by rewrite bearer_token_absent.
  - intros token Htok Hbad. unfold authenticateToken. by rewrite Htok, Hbad.
  - intros u Hv Hrole. rewrite (guarded_run _ _ _ _ u Hv).
    by rewrite bool_decide_eq_false_2.
  - intros u Hv Hrole. rewrite (guarded_run _ _ _ _ u Hv).
    by rewrite bool_decide_eq_true_2.
Qed.

End Middleware.

(** C3 at work: bob's token verifies, but his role is [user]. *)
Lemma C3_witness :
  publisher_only PUT_publisher_contents_id_publish ∧
  app (H := Sample.platform) PUT_publisher_contents_id_publish Sample.env Sample.store
      (Sample.request (Some "Bearer token-of-bob") "2" ∅)
  = (Sample.store, respond 403 (error_body "Publisher access required")).
Proof.
  assert (Hr : publisher_only PUT_publisher_contents_id_publish).
  { unfold publisher_only. auto. }
  split; [exact Hr|].
  destruct (C3_publisher_routes_guarded (H := Sample.platform) _ Sample.env Sample.store
              (Sample.request (Some "Bearer token-of-bob") "2" ∅) Hr)
    as (_ & _ & _ & Hrole & _).
  apply (Hrole (mkClaims 2 "bob" (Some "user"))).
  - vm_compute. reflexivity.
  - vm_compute. discriminate.
Defined.

Lemma content_type_parse_name ty : ContentType.parse (ContentType.name ty) = Some ty.
Proof. by destruct ty. Qed.

Lemma content_type_name_parse t ty :
  ContentType.parse t = Some ty → ContentType.name ty = t.
Proof.
  unfold ContentType.parse.
  repeat (destruct (String.eqb t _) eqn:E;
          [apply String.eqb_eq in E; subst t; by intros [= <-] | clear E]).
  done.
Qed.
Section Ownership.
Context `{Platform}.

Lemma findOne_Ok tbl id p k :
  where_id id = Some k →
  Contents.findOne tbl id p =
  Ok match tbl !! k with
     | Some c => if p c then Some (k, c) else None
     | None => None
     end.
Proof. unfold Contents.findOne. by intros ->. Qed.

Lemma findOne_Err tbl id p :
  where_id id = None →
  Contents.findOne tbl id p = Err "invalid input syntax for type integer".
Proof. unfold Contents.findOne. by intros ->. Qed.

Lemma findOne_Some tbl id p k c :
  Contents.findOne tbl id p = Ok (Some (k, c)) ↔
  where_id id = Some k ∧ tbl !! k = Some c ∧ p c = true.
Proof.
  unfold Contents.findOne. destruct (where_id id) as [k0|]; [|split; [done|by intros [? _]]].
  destruct (tbl !! k0) as [c0|] eqn:Hrow.
  - destruct (p c0) eqn:Hp; split.
    + intros [= <- <-]. done.
    + intros ([= <-] & Hc & _). rewrite Hrow in Hc. by simplify_eq.
    + done.
    + intros ([= <-] & Hc & Hpc). rewrite Hrow in Hc. simplify_eq. congruence.
  - split; [done|]. intros ([= <-] & Hc & _). by rewrite Hrow in Hc.
Qed.

Lemma findOne_None tbl id p :
  Contents.findOne tbl id p = Ok None ↔
  ∃ k, where_id id = Some k ∧ ∀ c, tbl !! k = Some c → p c = false.
Proof.
  unfold Contents.findOne. destruct (where_id id) as [k0|].
  - destruct (tbl !! k0) as [c0|] eqn:Hrow.
    + destruct (p c0) eqn:Hp; split.
      * done.
      * intros (k & [= <-] & Hno). specialize (Hno c0 Hrow). congruence.
      * intros _. exists k0. split; [done|]. intros c Hc.
        rewrite Hrow in Hc. by simplify_eq.
      * done.
    + split; [|done]. intros _. exists k0. split; [done|]. intros c Hc.
      by rewrite Hrow in Hc.
  - split; [done|]. by intros (k & ? & _).
Qed.

Lemma owned_Some s id u k c :
  owned s id u = Ok (Some (k, c)) ↔
  where_id id = Some k ∧ contents s !! k = Some c
  ∧ Content.publisherId c = claim_id u.
Proof. unfold owned. rewrite findOne_Some, bool_decide_eq_true. done. Qed.

Lemma owned_None s id u :
  owned s id u = Ok None ↔
  ∃ k, where_id id = Some k
       ∧ ∀ c, contents s !! k = Some c → Content.publisherId c ≠ claim_id u.
Proof.
  unfold owned. rewrite findOne_None. split; intros (k & Hk & Hno); exists k;
    (split; [done|]); intros c Hc; specialize (Hno c Hc).
  - by apply bool_decide_eq_false in Hno.
  - by apply bool_decide_eq_false.
Qed.

Lemma owned_Err s id u m : owned s id u = Err m → where_id id = None.
Proof. unfold owned, Contents.findOne. by destruct (where_id id). Qed.

(** [content.update({ status: 'published' })] only sets the status, and
    cannot fail. *)
Lemma update_status_published us c :
  Contents.update us c {[ "status" := JStr "published" ]}
  = Ok (Content.set_status (Some Status.published) c).
Proof.
  unfold Contents.update.
  rewrite lookup_singleton_eq.
  rewrite !lookup_singleton_ne by done.
  reflexivity.
Qed.

Lemma update_content_owner_write : owner_write update_content.
Proof.
  intros env s req u s' res. unfold update_content.
  cbn [req_user mbind result_bind].
  destruct (owned s (params_id req) u) as [[[id c]|]|m] eqn:Ho;
    cbn [mbind result_bind caught].
  - intros Hrun. right. right. exists id, c. split; [done|].
    destruct (Contents.update (users s) c (body req)) as [c'|m];
      cbn [mbind result_bind caught] in Hrun; inversion Hrun; subst; eauto.
  - intros Hrun. inversion Hrun; subst. right. by left.
  - intros Hrun. inversion Hrun; subst. left. by exists m.
Qed.

Lemma publish_content_run env s req u :
  publish_content env s req (Some u) =
  match owned s (params_id req) u with
  | Err m => (s, respond 500 (error_body m))
  | Ok None => (s, respond 404 (error_body "Content not found"))
  | Ok (Some (id, c)) =>
      let c' := Content.set_status (Some Status.published) c in
      (with_contents (<[id := c']> (contents s)) s,
       respond 200 (JObj [("message", JStr "Content published successfully");
                          ("content", JObj (Contents.toJSON id c'))]))
  end.
Proof.
  unfold publish_content. cbn [req_user mbind result_bind].
  destruct (owned s (params_id req) u) as [[[id c]|]|m];
    cbn [mbind result_bind caught]; [|done..].
  by rewrite update_status_published.
Qed.

Lemma publish_content_owner_write : owner_write publish_content.
Proof.
  intros env s req u s' res. rewrite publish_content_run.
  destruct (owned s (params_id req) u) as [[[id c]|]|m] eqn:Ho; simpl.
  - intros Hrun. inversion Hrun; subst. right. right. exists id, c. eauto 10.
  - intros Hrun. inversion Hrun; subst. right. by left.
  - intros Hrun. inversion Hrun; subst. left. by exists m.
Qed.

(** C1 (amended). On [PUT /api/publisher/contents/:id] and on
    [.../publish], called with verified publisher claims: every row whose
    [publisherId] differs from the caller's token id is left as it was, no
    row is created and the users are untouched.  When the database reads
    the [:id] of the path as the key of no row of the caller (absent, or
    owned by someone else) the answer is 404 and the database is
    unchanged; when it reads no [INTEGER] from the [:id] (a text that is
    not a number, a number beyond the range) the answer is 500 and the
    database is unchanged; a 200 answer implies that the requested row
    existed and was the caller's. *)
Theorem C1_only_owner_mutates (r : Route) (env : Env) (s : Store) (req : Request)
    (u : Claims) (s' : Store) (res : Response) :
  r = PUT_publisher_contents_id ∨ r = PUT_publisher_contents_id_publish →
  verified_claims env req = Some u →
  claim_role u = Some "publisher" →
  app r env s req = (s', res) →
  (∀ k c, contents s !! k = Some c → Content.publisherId c ≠ claim_id u →
          contents s' !! k = Some c)
  ∧ (∀ k, contents s !! k = None → contents s' !! k = None)
  ∧ users s' = users s
  ∧ (∀ k, where_id (params_id req) = Some k →
          (∀ c, contents s !! k = Some c → Content.publisherId c ≠ claim_id u) →
          s' = s ∧ res = respond 404 (error_body "Content not found"))
  ∧ (where_id (params_id req) = None →
     s' = s ∧ ∃ m, res = respond 500 (error_body m))
  ∧ (res_status res = 200 →
     ∃ k c, where_id (params_id req) = Some k ∧ contents s !! k = Some c ∧
            Content.publisherId c = claim_id u).
Proof.
  intros Hr Hv Hrole Hrun.
  assert (Hshape : owner_write (handler r)).
  { destruct Hr as [-> | ->];
      [apply update_content_owner_write | apply publish_content_owner_write]. }
  assert (Hpub : publisher_only r).
  { unfold publisher_only. destruct Hr as [-> | ->]; auto. }
  rewrite (publisher_route_run r env s req u Hpub Hv Hrole) in Hrun.
  destruct (Hshape _ _ _ _ _ _ Hrun)
    as [(m & Herr & -> & ->)
       | [(Hnone & -> & ->)
         | (id & c & Hsome & [(m & -> & ->) | (c' & j & -> & ->)])]].
  - apply owned_Err in Herr. split_and!; try done.
    + intros k Hk. congruence.
    + intros _. split; [done|]. by exists m.
  - apply owned_None in Hnone as (k0 & Hk0 & Hno).
    split_and!; try done. intros Hk. congruence.
  - apply owned_Some in Hsome as (Hid & Hc & Howner).
    split_and!; try done.
    + intros k Hk Hnot. assert (k = id) as -> by congruence.
      by destruct (Hnot c Hc).
    + intros Hk. congruence.
  - apply owned_Some in Hsome as (Hid & Hc & Howner).
    split_and!; simpl; try done.
    + intros k c0 Hk Hother. destruct (decide (k = id)) as [->|Hne].
      * rewrite Hc in Hk. by simplify_eq.
      * by rewrite lookup_insert_ne.
    + intros k Hk. destruct (decide (k = id)) as [->|Hne].
      * by rewrite Hc in Hk.
      * by rewrite lookup_insert_ne.
    + intros k Hk Hnot. assert (k = id) as -> by congruence.
      by destruct (Hnot c Hc).
    + intros Hk. congruence.
    + intros _. by exists id, c.
Qed.

(** C10. Publishing an owned item, named by a [:id] from which the
    database reads its key, answers 200 whatever its status was and leaves
    the row as it was except for [status = published]; publishing it a
    second time answers 200 again and leaves the database exactly as the
    first call left it. *)
Theorem C10_publish_idempotent (env1 env2 : Env) (s : Store) (req1 req2 : Request)
    (u : Claims) (k : Z) (c : Content.t) :
  verified_claims env1 req1 = Some u →
  verified_claims env2 req2 = Some u →
  claim_role u = Some "publisher" →
  params_id req2 = params_id req1 →
  where_id (params_id req1) = Some k →
  contents s !! k = Some c →
  Content.publisherId c = claim_id u →
  let once := app PUT_publisher_contents_id_publish env1 s req1 in
  let twice := app PUT_publisher_contents_id_publish env2 once.1 req2 in
  res_status once.2 = 200
  ∧ once.1 = with_contents
               (<[k := Content.set_status (Some Status.published) c]>
                  (contents s)) s
  ∧ res_status twice.2 = 200
  ∧ twice.1 = once.1.
Proof.
  intros Hv1 Hv2 Hrole Hid Hk Hc Howner once twice.
  assert (Hpub : publisher_only PUT_publisher_contents_id_publish).
  { unfold publisher_only. auto. }
  assert (Honce : once =
    (with_contents (<[k := Content.set_status (Some Status.published) c]>
                      (contents s)) s,
     respond 200 (JObj [("message", JStr "Content published successfully");
                        ("content", JObj (Contents.toJSON k
                           (Content.set_status (Some Status.published) c)))]))).
  { unfold once.
    rewrite (publisher_route_run _ env1 s req1 u Hpub Hv1 Hrole).
    simpl. rewrite publish_content_run.
    by rewrite (proj2 (owned_Some s _ u k c) (conj Hk (conj Hc Howner))). }
  unfold twice. rewrite Honce. cbn [fst snd].
  rewrite (publisher_route_run _ env2 _ req2 u Hpub Hv2 Hrole).
  simpl. rewrite publish_content_run, Hid.
  rewrite (proj2 (owned_Some _ _ u k (Content.set_status (Some Status.published) c))).
  - simpl. repeat split; try done.
    unfold with_contents. simpl. by rewrite insert_insert_eq.
  - split; [done|]. simpl. by rewrite lookup_insert_eq.
Qed.

End Ownership.

(** C1 at work: alice asks to publish item 3, which is carol's. *)
Lemma C1_witness :
  let req := Sample.request (Some "Bearer token-of-alice") "3" ∅ in
  let run := app (H := Sample.platform) PUT_publisher_contents_id_publish
               Sample.env Sample.store req in
  run.1 = Sample.store ∧ run.2 = respond 404 (error_body "Content not found").
Proof.
  intros req run.
  destruct (C1_only_owner_mutates (H := Sample.platform)
              PUT_publisher_contents_id_publish Sample.env Sample.store req
              (mkClaims 1 "alice" (Some "publisher")) run.1 run.2)
    as (_ & _ & _ & Hmissing & _).
  - right. reflexivity.
  - vm_compute. reflexivity.
  - reflexivity.
  - apply surjective_pairing.
  - apply (Hmissing 3); [vm_compute; reflexivity|].
    intros c Hc. vm_compute in Hc.
    injection Hc as <-. vm_compute. discriminate.
Defined.

(** C1, as first stated, fails: no row has the id 2147483648, and alice's
    update of it is answered 500, not 404. *)
Lemma C1_counterexample :
  let req := Sample.request (Some "Bearer token-of-alice") "2147483648" ∅ in
  let run := app (H := Sample.platform) PUT_publisher_contents_id
               Sample.env Sample.store req in
  decimal (params_id req) = Some 2147483648
  ∧ contents Sample.store !! 2147483648 = None
  ∧ run.1 = Sample.store
  ∧ res_status run.2 = 500.
Proof. vm_compute. done. Qed.

(** C10 at work: alice publishes her draft twice. *)
Lemma C10_witness :
  let req := Sample.request (Some "Bearer token-of-alice") "1" ∅ in
  let once := app (H := Sample.platform) PUT_publisher_contents_id_publish
                Sample.env Sample.store req in
  let twice := app (H := Sample.platform) PUT_publisher_contents_id_publish
                 Sample.env once.1 req in
  res_status once.2 = 200 ∧ res_status twice.2 = 200 ∧ twice.1 = once.1.
Proof.
  intros req once twice.
  destruct (C10_publish_idempotent (H := Sample.platform) Sample.env Sample.env
              Sample.store req req (mkClaims 1 "alice" (Some "publisher")) 1
              (Sample.item (Some Status.draft) (Some 0) 1))
    as (H1 & _ & H2 & H3).
  - vm_compute. reflexivity.
  - vm_compute. reflexivity.
  - reflexivity.
  - reflexivity.
  - vm_compute. reflexivity.
  - vm_compute. reflexivity.
  - reflexivity.
  - auto.
Defined.

Section PublicRead.
Context `{Platform}.

Lemma get_content_run env s req user :
  get_content env s req user =
  match where_id (params_id req) with
  | None => (s, respond 500 (error_body "invalid input syntax for type integer"))
  | Some k =>
      match contents s !! k with
      | Some c =>
          if bool_decide (Content.status c = Some Status.published)
          then match Contents.increment_views c with
               | Ok c' =>
                   (with_contents (<[k := c']> (contents s)) s,
                    respond 200 (Contents.toJSON_with_publisher (users s) (k, c')))
               | Err m => (s, respond 500 (error_body m))
               end
          else (s, respond 404 (error_body "Content not found"))
      | None => (s, respond 404 (error_body "Content not found"))
      end
  end.
Proof.
  unfold get_content, Contents.findOne.
  destruct (where_id (params_id req)) as [k|]; [|done].
  cbn [mbind result_bind].
  destruct (contents s !! k) as [c|]; [|done].
  destruct (bool_decide _); [|done].
  by destruct (Contents.increment_views c).
Qed.

(** C2 (amended). Whoever asks, and whatever headers the request carries,
    [GET /api/contents/:id] answers 404 "Content not found" and leaves the
    database as it was whenever the database reads the [:id] as the key of
    no row, or of a row whose status is not [published] (draft, archived
    or NULL); when the database reads no [INTEGER] from the [:id] the
    answer is 500, and the database is left as it was. *)
Theorem C2_unpublished_is_404 (env : Env) (s : Store) (req : Request) :
  (∀ k, where_id (params_id req) = Some k →
        (∀ c, contents s !! k = Some c →
              Content.status c ≠ Some Status.published) →
        app GET_contents_id env s req
        = (s, respond 404 (error_body "Content not found")))
  ∧ (where_id (params_id req) = None →
     ∃ m, app GET_contents_id env s req = (s, respond 500 (error_body m))).
Proof.
  unfold app. cbn [route]. rewrite get_content_run. split.
  - intros k Hk Hhidden. rewrite Hk.
    destruct (contents s !! k) as [c|] eqn:Hc; [|done].
    by rewrite bool_decide_eq_false_2 by (by apply Hhidden).
  - intros ->. eauto.
Qed.

Lemma set_views_same c : Content.set_views (Content.views c) c = c.
Proof. by destruct c. Qed.

Lemma with_contents_same s : with_contents (contents s) s = s.
Proof. by destruct s. Qed.

Lemma in_int4_spec n : in_int4 n = true ↔ -2147483648 ≤ n ≤ 2147483647.
Proof. unfold in_int4. rewrite andb_true_iff, !Z.leb_le. done. Qed.

(** One fetch of a published row that counts [v] views. *)
Lemma get_content_counts env s req k c v :
  where_id (params_id req) = Some k →
  contents s !! k = Some c →
  Content.status c = Some Status.published →
  Content.views c = Some v →
  -2147483648 ≤ v + 1 ≤ 2147483647 →
  ∃ j, app GET_contents_id env s req =
       (with_contents
          (<[k := Content.set_views (Some (v + 1)) c]> (contents s)) s,
        respond 200 j).
Proof.
  intros Hk Hc Hst Hv Hrange. unfold app. cbn [route].
  rewrite get_content_run, Hk, Hc.
  rewrite bool_decide_eq_true_2 by done.
  unfold Contents.increment_views. rewrite Hv.
  rewrite (proj2 (in_int4_spec (v + 1)) Hrange). eauto.
Qed.

(** C4. The fetch of a published row whose [views] column is NULL answers
    200 with that row and leaves the column NULL: this call is successful
    and increments nothing. *)
Theorem C4_null_views_stay_null (env : Env) (s : Store) (req : Request)
    (k : Z) (c : Content.t) :
  where_id (params_id req) = Some k →
  contents s !! k = Some c →
  Content.status c = Some Status.published →
  Content.views c = None →
  app GET_contents_id env s req
  = (s, respond 200 (Contents.toJSON_with_publisher (users s) (k, c))).
Proof.
  intros Hk Hc Hst Hv. unfold app. cbn [route].
  rewrite get_content_run, Hk, Hc.
  rewrite bool_decide_eq_true_2 by done.
  unfold Contents.increment_views. rewrite Hv.
  by rewrite insert_id, with_contents_same.
Qed.

End PublicRead.

(** C2 at work: alice's draft, fetched with alice's own token. *)
Lemma C2_witness :
  app (H := Sample.platform) GET_contents_id Sample.env Sample.store
      (Sample.request (Some "Bearer token-of-alice") "1" ∅)
  = (Sample.store, respond 404 (error_body "Content not found")).
Proof.
  destruct (C2_unpublished_is_404 (H := Sample.platform) Sample.env Sample.store
              (Sample.request (Some "Bearer token-of-alice") "1" ∅))
    as [Hhidden _].
  apply (Hhidden 1); [vm_compute; reflexivity|].
  intros c Hc. vm_compute in Hc. injection Hc as <-. vm_compute. discriminate.
Defined.

(** C2, as first stated, fails: no row has the id 2147483648, and its
    fetch is answered 500, not 404. *)
Lemma C2_counterexample :
  let req := Sample.request None "2147483648" ∅ in
  let run := app (H := Sample.platform) GET_contents_id Sample.env
               Sample.store req in
  decimal (params_id req) = Some 2147483648
  ∧ contents Sample.store !! 2147483648 = None
  ∧ run.1 = Sample.store
  ∧ res_status run.2 = 500.
Proof. vm_compute. done. Qed.

(** C4 at work, from the empty database: a publisher registers, creates
    an item, stores [views: null] through the update route and publishes
    it; the public fetch of that item then answers 200 with [views: null],
    and the stored counter is NULL before and after. *)
Lemma C4_witness :
  let auth := Some "Bearer token-of-alice" in
  let setup :=
    serve (H := Sample.platform)
      [(POST_register, Sample.env, Run.register_alice);
       (POST_publisher_contents, Sample.env,
        Sample.request auth ""
          {[ "title" := JStr "Title"; "content" := JStr "Text";
             "type" := JStr "article" ]});
       (PUT_publisher_contents_id, Sample.env,
        Sample.request auth "1" {[ "views" := JNull ]});
       (PUT_publisher_contents_id_publish, Sample.env,
        Sample.request auth "1" ∅)]
      Sample.empty in
  let fetch :=
    app (H := Sample.platform) GET_contents_id Sample.env setup.1
        (Sample.request None "1" ∅) in
  res_status <$> setup.2 = [201; 201; 200; 200]
  ∧ Content.views <$> contents setup.1 !! 1 = Some None
  ∧ res_status fetch.2 = 200
  ∧ Content.views <$> contents fetch.1 !! 1 = Some None.
Proof.
  intros auth setup fetch.
  assert (Hrow : contents setup.1 !! 1
                 = Some (Content.mk "Title" "Text" ContentType.article None
                           (Some []) (Some Status.published) None None None
                           None 1 1000)).
  { vm_compute. reflexivity. }
  assert (Hfetch : fetch = (setup.1, fetch.2)).
  { unfold fetch.
    rewrite (C4_null_views_stay_null (H := Sample.platform) Sample.env setup.1
               (Sample.request None "1" ∅) 1 _ eq_refl Hrow eq_refl eq_refl).
    reflexivity. }
  split_and!.
  - vm_compute. reflexivity.
  - by rewrite Hrow.
  - unfold fetch.
    by rewrite (C4_null_views_stay_null (H := Sample.platform) Sample.env setup.1
                  (Sample.request None "1" ∅) 1 _ eq_refl Hrow eq_refl eq_refl).
  - rewrite Hfetch. cbn [fst]. by rewrite Hrow.
Defined.

Section Accounts.
Context `{Platform}.

Lemma users_findOne_Some tbl p k u :
  Users.findOne tbl p = Some (k, u) → tbl !! k = Some u ∧ p u = true.
Proof.
  unfold Users.findOne. intros Hfind.
  apply find_some in Hfind as [Hin Hp].
  apply list_elem_of_In, elem_of_map_to_list in Hin. done.
Qed.

Lemma users_findOne_None tbl p :
  Users.findOne tbl p = None ↔ ∀ k u, tbl !! k = Some u → p u = false.
Proof.
  unfold Users.findOne. split.
  - intros Hfind k u Hk.
    apply (find_none _ _ Hfind (k, u)).
    by apply list_elem_of_In, elem_of_map_to_list.
  - intros Hall. destruct (List.find _ _) as [[k u]|] eqn:Hfind; [|done].
    apply users_findOne_Some in Hfind as [Hk Hp].
    rewrite (Hall k u Hk) in Hp. done.
Qed.

Lemma eqb_email_true e x : String.eqb e x = true ↔ x = e.
Proof. rewrite String.eqb_eq. naive_solver. Qed.

Lemma eqb_email_false e x : String.eqb e x = false ↔ x ≠ e.
Proof. rewrite String.eqb_neq. naive_solver. Qed.

(** No row of [tbl] has the email [e]. *)
Lemma email_free tbl e :
  (∀ k u, tbl !! k = Some u → User.email u ≠ e) →
  existsb (λ x : Z * User.t, String.eqb (User.email x.2) e) (map_to_list tbl) = false.
Proof.
  intros Hfree. destruct (existsb _ _) eqn:Hex; [|done].
  apply existsb_exists in Hex as ([k u] & Hin & Heq).
  apply list_elem_of_In, elem_of_map_to_list in Hin.
  apply String.eqb_eq in Heq. by destruct (Hfree k u Hin).
Qed.

(** A string without a NUL character is compared, and stored when it has
    at most 255 characters, as it is. *)
Lemma sql_literal_clean e : has_nul e = false → sql_literal e = Some e.
Proof. unfold sql_literal. by intros ->. Qed.


Lemma varchar_Ok s x : varchar s = Ok x → has_nul s = false.
Proof. unfold varchar. by destruct (has_nul s). Qed.





(** The login route once the text of the email condition is known. *)
Lemma login_run env s req e t :
  body req !! "email" = Some (JStr e) →
  sql_literal e = Some t →
  login env s req None =
  match Users.findOne (users s) (λ u, String.eqb t (User.email u)) with
  | None => (s, respond 400 (error_body "Invalid credentials"))
  | Some (id, user) =>
      match compare (body req !! "password") (User.password user) with
      | Ok true => (s, respond 200 (session "Login successful" env id user))
      | Ok false => (s, respond 400 (error_body "Invalid credentials"))
      | Err m => (s, respond 500 (error_body m))
      end
  end.
Proof.
  intros He Ht. unfold login. rewrite He.
  cbn [where_string]. rewrite Ht. cbn [mbind result_bind].
  destruct (Users.findOne _ _) as [[id user]|]; [|done].
  by destruct (compare _ _) as [[]|].
Qed.

(** The login of an email that the database refuses to compare with. *)
Lemma login_refused env s req e :
  body req !! "email" = Some (JStr e) →
  sql_literal e = None →
  ∃ m, login env s req None = (s, respond 500 (error_body m)).
Proof.
  intros He Ht. unfold login. rewrite He. cbn [where_string]. rewrite Ht.
  cbn. eauto.
Qed.

(** C6 (amended). A login for an email that no user has, and a login for
    an email that a user has with a password, a string, that does not
    match, get the same answer, 400 "Invalid credentials", and neither
    changes the database.  A login with the matching password is answered
    200 with a token signed over exactly the stored user's id, username
    and role.  A login whose password is not a string (it is missing, or a
    number, ...) is answered 400 "Invalid credentials" when no user has the
    email and 500 when a user has it: that answer tells the two apart.  The
    email of a user is the text [t] that the database compares the [email]
    column with, the string of the body itself when it has no NUL
    character. *)
Theorem C6_login :
  (∀ env1 env2 s1 s2 req1 req2 e t p,
     sql_literal e = Some t →
     body req1 !! "email" = Some (JStr e) →
     (∀ k u, users s1 !! k = Some u → User.email u ≠ t) →
     body req2 !! "email" = Some (JStr e) →
     body req2 !! "password" = Some (JStr p) →
     (∃ k u, users s2 !! k = Some u ∧ User.email u = t) →
     (∀ k u, users s2 !! k = Some u → User.email u = t →
             bcrypt_compare p (User.password u) = false) →
     app POST_login env1 s1 req1 = (s1, respond 400 (error_body "Invalid credentials"))
     ∧ app POST_login env2 s2 req2 = (s2, respond 400 (error_body "Invalid credentials"))
     ∧ (app POST_login env1 s1 req1).2 = (app POST_login env2 s2 req2).2)
  ∧ (∀ env s req e t p k u,
       sql_literal e = Some t →
       body req !! "email" = Some (JStr e) →
       body req !! "password" = Some (JStr p) →
       users s !! k = Some u →
       User.email u = t →
       (∀ k' u', users s !! k' = Some u' → User.email u' = t → k' = k) →
       bcrypt_compare p (User.password u) = true →
       app POST_login env s req =
       (s, respond 200
             (JObj [("message", JStr "Login successful");
                    ("token",
                     JStr (jwt_sign
                             (mkClaims k (User.username u) (Role.name <$> User.role u))
                             JWT_SECRET (now env)));
                    ("user", Users.public_fields k u)])))
  ∧ (∀ env s req e t,
       sql_literal e = Some t →
       body req !! "email" = Some (JStr e) →
       (∀ p, body req !! "password" ≠ Some (JStr p)) →
       ((∀ k u, users s !! k = Some u → User.email u ≠ t) →
        app POST_login env s req
        = (s, respond 400 (error_body "Invalid credentials")))
       ∧ ((∃ k u, users s !! k = Some u ∧ User.email u = t) →
          app POST_login env s req
          = (s, respond 500
                  (error_body ("Illegal arguments: "
                               +:+ typeof (body req !! "password") +:+ ", string")))))
  ∧ (∀ e, has_nul e = false → sql_literal e = Some e).
Proof.
  split_and!.
  - intros env1 env2 s1 s2 req1 req2 e t p Ht He1 Hfree He2 Hp2 (k & u & Hk & Hu) Hbad.
    assert (Hrun1 : app POST_login env1 s1 req1 =
                    (s1, respond 400 (error_body "Invalid credentials"))).
    { unfold app. cbn [route]. rewrite (login_run _ _ _ e t He1 Ht).
      assert (Hnone : Users.findOne (users s1) (λ u, String.eqb t (User.email u)) = None).
      { apply users_findOne_None. intros k0 u0 Hk0. apply eqb_email_false. eauto. }
      by rewrite Hnone. }
    assert (Hrun2 : app POST_login env2 s2 req2 =
                    (s2, respond 400 (error_body "Invalid credentials"))).
    { unfold app. cbn [route]. rewrite (login_run _ _ _ e t He2 Ht), Hp2.
      destruct (Users.findOne _ _) as [[k0 u0]|] eqn:Hfind; [|done].
      apply users_findOne_Some in Hfind as [Hk0 Hu0].
      apply eqb_email_true in Hu0.
      cbn [compare]. by rewrite (Hbad k0 u0 Hk0 Hu0). }
    rewrite Hrun1, Hrun2. done.
  - intros env s req e t p k u Ht He Hp Hk Hu Huniq Hgood.
    unfold app. cbn [route]. rewrite (login_run _ _ _ e t He Ht), Hp.
    destruct (Users.findOne _ _) as [[k0 u0]|] eqn:Hfind.
    + apply users_findOne_Some in Hfind as [Hk0 Hu0].
      apply eqb_email_true in Hu0.
      assert (k0 = k) as -> by eauto.
      assert (u0 = u) as -> by congruence.
      cbn [compare]. by rewrite Hgood.
    + rewrite users_findOne_None in Hfind.
      specialize (Hfind k u Hk). simpl in Hfind.
      apply eqb_email_false in Hfind. done.
  - intros env s req e t Ht He Hp. unfold app. cbn [route].
    rewrite (login_run _ _ _ e t He Ht). split.
    + intros Hfree.
      assert (Hnone : Users.findOne (users s) (λ u, String.eqb t (User.email u)) = None).
      { apply users_findOne_None. intros k u Hk. apply eqb_email_false. eauto. }
      by rewrite Hnone.
    + intros (k & u & Hk & Hu).
      destruct (Users.findOne _ _) as [[k0 u0]|] eqn:Hfind.
      * destruct (body req !! "password") as [[]|] eqn:Hpw; try done.
        by destruct (Hp s0).
      * rewrite users_findOne_None in Hfind. specialize (Hfind k u Hk).
        simpl in Hfind. apply eqb_email_false in Hfind. done.
  - apply sql_literal_clean.
Qed.

(** X22: Login without a password.  A login whose body has no [password] is
    answered 400 when the email is unknown and 500 when it is known,
    [bcrypt.compare] rejecting its argument once the user is found.  The
    email of a user is the text [t] that the database compares the [email]
    column with, the string of the body itself when it has no NUL
    character. *)
Lemma login_without_password env s req e t :
  sql_literal e = Some t →
  body req !! "email" = Some (JStr e) →
  body req !! "password" = None →
  ((∀ k u, users s !! k = Some u → User.email u ≠ t) →
   app POST_login env s req = (s, respond 400 (error_body "Invalid credentials")))
  ∧ ((∃ k u, users s !! k = Some u ∧ User.email u = t) →
     app POST_login env s req =
     (s, respond 500 (error_body "Illegal arguments: undefined, string"))).
Proof.
  intros Ht He Hp. unfold app. cbn [route].
  rewrite (login_run _ _ _ e t He Ht), Hp. split.
  - intros Hfree.
    assert (Hnone : Users.findOne (users s) (λ u, String.eqb t (User.email u)) = None).
    { apply users_findOne_None. intros k u Hk. apply eqb_email_false. eauto. }
    by rewrite Hnone.
  - intros (k & u & Hk & Hu).
    destruct (Users.findOne _ _) as [[k0 u0]|] eqn:Hfind; [done|].
    rewrite users_findOne_None in Hfind. specialize (Hfind k u Hk).
    simpl in Hfind. apply eqb_email_false in Hfind. done.
Qed.

End Accounts.



(** C6 at work: the same login against a database without alice and,
    with a wrong password, against one with her. *)
Lemma C6_witness :
  let unknown := Sample.request None ""
                   {[ "email" := JStr "alice@news.com"; "password" := JStr "pw1" ]} in
  let mismatch := Sample.request None ""
                    {[ "email" := JStr "alice@news.com"; "password" := JStr "guess" ]} in
  (app (H := Sample.platform) POST_login Sample.env Sample.empty unknown).2
  = (app (H := Sample.platform) POST_login Sample.env Sample.store mismatch).2.
Proof.
  intros unknown mismatch.
  destruct (C6_login (H := Sample.platform)) as [Hsame _].
  apply (Hsame Sample.env Sample.env Sample.empty Sample.store unknown mismatch
           "alice@news.com" "alice@news.com" "guess").
  - reflexivity.
  - vm_compute. reflexivity.
  - apply (bool_decide_unpack
             (map_Forall (λ _ u, User.email u ≠ "alice@news.com") (users Sample.empty))).
    vm_compute. exact I.
  - vm_compute. reflexivity.
  - vm_compute. reflexivity.
  - exists 1, Sample.alice. split; vm_compute; reflexivity.
  - apply (bool_decide_unpack
             (map_Forall (λ _ u, User.email u = "alice@news.com" →
                                 bcrypt_compare "guess" (User.password u) = false)
                (users Sample.store))).
    vm_compute. exact I.
Defined.

(** C6, as first stated, fails: the same login without a password is
    answered 400 for an email that no user has and 500 for alice's, so the
    answer tells whether the email is registered. *)
Lemma C6_counterexample :
  let login (e : string) :=
    app (H := Sample.platform) POST_login Sample.env Sample.store
      (Sample.request None "" {[ "email" := JStr e ]}) in
  map_Forall (λ _ u, User.email u ≠ "nobody@news.com") (users Sample.store)
  ∧ users Sample.store !! 1 = Some Sample.alice
  ∧ (login "nobody@news.com").2 = respond 400 (error_body "Invalid credentials")
  ∧ (login "alice@news.com").2
    = respond 500 (error_body "Illegal arguments: undefined, string")
  ∧ (login "alice@news.com").2 ≠ (login "nobody@news.com").2.
Proof.
  split; [|by vm_compute].
  apply (bool_decide_unpack _). vm_compute. exact I.
Qed.

Section Creation.
Context `{Platform}.

(** Behind the two middlewares a request either is turned away with the
    database untouched, or reaches the handler with verified publisher
    claims. *)
Lemma guarded_cases r env s req s' res :
  publisher_only r →
  app r env s req = (s', res) →
  (s' = s ∧ (res_status res = 401 ∨ res_status res = 403))
  ∨ (∃ u, verified_claims env req = Some u ∧ claim_role u = Some "publisher"
          ∧ handler r env s req (Some u) = (s', res)).
Proof.
  intros Hr. unfold app. rewrite (publisher_route r Hr), authenticateToken_unfold.
  destruct (bearer_token req) as [token|]; [|intros [= <- <-]; left; auto].
  destruct (verified_claims env req) as [u|]; [|intros [= <- <-]; left; auto].
  unfold requirePublisher.
  destruct (bool_decide (claim_role u = Some "publisher")) eqn:Hrole.
  - apply bool_decide_eq_true in Hrole. intros Hrun. right. by exists u.
  - intros [= <- <-]. left. auto.
Qed.

(** What [Content.create] stores when it succeeds. *)
Lemma contents_create_Ok us tbl seq t0 ti co ty ca ta fi vi rt pu id c :
  Contents.create us tbl seq t0 ti co ty ca ta fi vi rt pu = Ok (id, c) →
  id = seq ∧ tbl !! seq = None
  ∧ Content.status c = Some Status.draft
  ∧ Content.views c = Some 0
  ∧ Content.publisherId c = pu
  ∧ Content.createdAt c = t0.
Proof.
  unfold Contents.create. intros Hc. bind_inv Hc.
  destruct (tbl !! seq) eqn:Hseq; [discriminate|].
  injection Hc as <- <-. cbn [Content.status Content.views Content.publisherId Content.createdAt].
  split_and!; try done.
  match goal with E : Contents.references us _ = Ok ?z |- _ =>
    unfold Contents.references, integer_value in E;
    destruct (in_int4 pu); cbn [mbind result_bind] in E; [|discriminate E];
    destruct (us !! pu); by simplify_eq
  end.
Qed.

Lemma create_content_run env s req u s' res :
  create_content env s req (Some u) = (s', res) →
  (s' = s ∧ res_status res = 500)
  ∨ (∃ c, contents s !! contents_id_seq s = None
          ∧ s' = with_new_content (<[contents_id_seq s := c]> (contents s))
                   (contents_id_seq s + 1) s
          ∧ res = respond 201 (JObj (Contents.toJSON (contents_id_seq s) c))
          ∧ Content.status c = Some Status.draft
          ∧ Content.publisherId c = claim_id u).
Proof.
  unfold create_content. cbn [req_user mbind result_bind].
  destruct (Contents.create _ _ _ _ _ _ _ _ _ _ _ _ _) as [[id c]|m] eqn:Hc;
    cbn [mbind result_bind caught]; intros [= <- <-].
  - apply contents_create_Ok in Hc as (-> & Hseq & Hst & _ & Hpu & _).
    right. exists c. split_and!; done.
  - left. done.
Qed.

(** [tags || []] is never [null], so the column gets the array itself. *)
Lemma tags_value v ta :
  string_array_value (js_or v (JArr [])) = Ok ta →
  with_default [] string_array_value (Some (js_or v (JArr []))) = Ok (Some ta).
Proof.
  unfold js_or. intros Hta. destruct (truthy v) eqn:Htruthy.
  - destruct v as [j|]; [|done].
    destruct j; cbn [default from_option id with_default] in *; try done;
      by rewrite Hta.
  - cbn [with_default] in *. by rewrite Hta.
Qed.

Lemma bearer_token_ext req req' :
  authorization req' = authorization req → bearer_token req' = bearer_token req.
Proof. unfold bearer_token. by intros ->. Qed.

(** C7. Whatever the body of [POST /api/publisher/contents] holds, a row
    that the request adds has status [draft] and the [publisherId] of the
    verified token, and no existing row is changed; the outcome depends on
    the body only through [title], [content], [type], [category], [tags],
    [featuredImage], [videoUrl] and [readTime], so a [status] or a
    [publisherId] in the body is ignored.  When the columns take the
    [title] and the [content], [type] is one of the four content types,
    the optional fields are accepted for their columns and the id of the
    token is a stored user's, the row is created under the next id, with
    [views = 0] and the time of the request, and the answer is 201 with
    that row. *)
Theorem C7_created_content (env : Env) (s : Store) (req : Request) :
  (∀ s' res k c,
     app POST_publisher_contents env s req = (s', res) →
     contents s' !! k = Some c →
     contents s !! k ≠ Some c →
     contents s !! k = None
     ∧ Content.status c = Some Status.draft
     ∧ ∃ u, verified_claims env req = Some u ∧ Content.publisherId c = claim_id u)
  ∧ (∀ s' res k c,
       app POST_publisher_contents env s req = (s', res) →
       contents s !! k = Some c → contents s' !! k = Some c)
  ∧ (∀ req',
       authorization req' = authorization req →
       (∀ key, key ∈ accepted_keys → body req' !! key = body req !! key) →
       app POST_publisher_contents env s req' = app POST_publisher_contents env s req)
  ∧ (∀ u ti co ty ca ta fi vi rt,
       verified_claims env req = Some u →
       claim_role u = Some "publisher" →
       is_Some (users s !! claim_id u) →
       in_int4 (claim_id u) = true →
       contents s !! contents_id_seq s = None →
       required "Content.title" string_value (body req !! "title") = Ok ti →
       required "Content.content" text_value (body req !! "content") = Ok co →
       body req !! "type" = Some (JStr (ContentType.name ty)) →
       nullable string_value (body req !! "category") = Ok ca →
       string_array_value (js_or (body req !! "tags") (JArr [])) = Ok ta →
       nullable string_value (body req !! "featuredImage") = Ok fi →
       nullable string_value (body req !! "videoUrl") = Ok vi →
       nullable integer_value (body req !! "readTime") = Ok rt →
       let id := contents_id_seq s in
       let c := Content.mk ti co ty ca (Some ta) (Some Status.draft) fi vi rt
                  (Some 0) (claim_id u) (now env) in
       app POST_publisher_contents env s req =
       (with_new_content (<[id := c]> (contents s)) (id + 1) s,
        respond 201 (JObj (Contents.toJSON id c)))).
Proof.
  assert (Hpub : publisher_only POST_publisher_contents).
  { unfold publisher_only. auto. }
  split_and!.
  - intros s' res k c Hrun Hnew Hold.
    destruct (guarded_cases _ _ _ _ _ _ Hpub Hrun)
      as [[-> _] | (u & Hv & Hrole & Hh)]; [done|].
    simpl in Hh. apply create_content_run in Hh
      as [[-> _] | (c0 & Hseq & -> & _ & Hst & Hpu)]; [done|].
    simpl in Hnew.
    destruct (decide (k = contents_id_seq s)) as [->|Hne].
    + rewrite lookup_insert_eq in Hnew. simplify_eq. eauto.
    + rewrite lookup_insert_ne in Hnew by done. done.
  - intros s' res k c Hrun Hold.
    destruct (guarded_cases _ _ _ _ _ _ Hpub Hrun)
      as [[-> _] | (u & Hv & Hrole & Hh)]; [done|].
    simpl in Hh. apply create_content_run in Hh
      as [[-> _] | (c0 & Hseq & -> & _ & Hst & Hpu)]; [done|].
    simpl. rewrite lookup_insert_ne; [done|]. intros <-. congruence.
  - intros req' Hauth Hbody. unfold app. simpl.
    rewrite !authenticateToken_unfold.
    unfold verified_claims. rewrite (bearer_token_ext _ _ Hauth).
    destruct (bearer_token req) as [token|]; [|done]. simpl.
    destruct (jwt_verify _ _ _) as [u|]; [|done].
    unfold requirePublisher. destruct (bool_decide _); [|done].
    unfold create_content, accepted_keys in *.
    rewrite !Hbody by set_solver. done.
  - intros u ti co ty ca ta fi vi rt Hv Hrole [pu Hpu] Hrange Hseq
           Hti Hco Hty Hca Hta Hfi Hvi Hrt.
    rewrite (publisher_route_run _ env s req u Hpub Hv Hrole). cbn [handler]. unfold create_content.
    cbn [req_user mbind result_bind]. unfold Contents.create.
    rewrite Hti, Hco, Hty, Hca, Hfi, Hvi, Hrt.
    cbn [required enum_value mbind result_bind].
    rewrite content_type_parse_name. cbn [mbind result_bind].
    rewrite (tags_value _ _ Hta). cbn [mbind result_bind].
    unfold Contents.references. cbn [integer_value]. rewrite Hrange.
    cbn [mbind result_bind].
    rewrite Hpu, Hseq. done.
Qed.

End Creation.

(** C7 at work: carol posts an item whose body asks for
    [status: published] and for alice as the publisher, and gives the
    reading time as a string and the tags as numbers. *)
Lemma C7_witness :
  let req := Sample.request (Some "Bearer token-of-carol") ""
               {[ "title" := JStr "Budget"; "content" := JStr "Text";
                  "type" := JStr "article"; "status" := JStr "published";
                  "publisherId" := JNum 1; "readTime" := JStr "5";
                  "tags" := JArr [JNum 1; JNum 2] ]} in
  let run := app (H := Sample.platform) POST_publisher_contents
               Sample.env Sample.store req in
  res_status run.2 = 201
  ∧ Content.status <$> contents run.1 !! 4 = Some (Some Status.draft)
  ∧ Content.publisherId <$> contents run.1 !! 4 = Some 3
  ∧ Content.readTime <$> contents run.1 !! 4 = Some (Some 5)
  ∧ Content.tags <$> contents run.1 !! 4 = Some (Some [Ttext "1"; Ttext "2"]).
Proof.
  intros req run.
  destruct (C7_created_content (H := Sample.platform) Sample.env Sample.store req)
    as (_ & _ & _ & Hcreated).
  unfold run.
  rewrite (Hcreated (mkClaims 3 "carol" (Some "publisher")) "Budget" "Text"
             ContentType.article None [Ttext "1"; Ttext "2"] None None (Some 5)).
  - vm_compute. repeat split.
  - vm_compute. reflexivity.
  - reflexivity.
  - vm_compute. eauto.
  - reflexivity.
  - vm_compute. reflexivity.
  - vm_compute. reflexivity.
  - vm_compute. reflexivity.
  - vm_compute. reflexivity.
  - vm_compute. reflexivity.
  - vm_compute. reflexivity.
  - vm_compute. reflexivity.
  - vm_compute. reflexivity.
  - vm_compute. reflexivity.
Defined.

Section Listing.
Context `{Platform}.

#[local] Instance newest_first_transitive : Transitive Contents.newest_first.
Proof. unfold Contents.newest_first. intros x y z. lia. Qed.

#[local] Instance newest_first_total : Total Contents.newest_first.
Proof. unfold Contents.newest_first. intros x y. lia. Qed.

Lemma listing_where_Ok q p c :
  listing_where q = Ok p → p c = true ↔ asked_for q c.
Proof.
  unfold listing_where, asked_for. intros Hp.
  destruct (given (q_type q)) as [t|]; cbn [mbind result_bind enum_value] in Hp.
  - destruct (ContentType.parse t) as [ty|] eqn:Hty;
      cbn [mbind result_bind] in Hp; [|done].
    apply content_type_name_parse in Hty.
    destruct (given (q_category q)) as [x|].
    + destruct (sql_literal x) as [lit|] eqn:Hlit;
        cbn [mbind result_bind] in Hp; [|done].
      injection Hp as <-.
      rewrite !andb_true_iff, !bool_decide_eq_true. split.
      * intros [[Hst Htype] Hcat]. split_and!; [done| |].
        -- intros t' [= <-]. by rewrite Htype.
        -- intros x' [= <-]. by exists lit.
      * intros (Hst & Htype & Hcat). split_and!; [done| |].
        -- specialize (Htype t eq_refl). subst t.
           by destruct (Content.type c), ty.
        -- destruct (Hcat x eq_refl) as (lit' & Hlit' & Hc). congruence.
    + cbn [mbind result_bind] in Hp. injection Hp as <-.
      rewrite !andb_true_iff, !bool_decide_eq_true. split.
      * intros [[Hst Htype] _]. split_and!; [done| |done].
        intros t' [= <-]. by rewrite Htype.
      * intros (Hst & Htype & _). split_and!; [done| |done].
        specialize (Htype t eq_refl). subst t.
        by destruct (Content.type c), ty.
  - cbn [mbind result_bind] in Hp.
    destruct (given (q_category q)) as [x|].
    + destruct (sql_literal x) as [lit|] eqn:Hlit;
        cbn [mbind result_bind] in Hp; [|done].
      injection Hp as <-.
      rewrite !andb_true_iff, !bool_decide_eq_true. split.
      * intros [[Hst _] Hcat]. split_and!; [done|done|].
        intros x' [= <-]. by exists lit.
      * intros (Hst & _ & Hcat). split_and!; [done|done|].
        destruct (Hcat x eq_refl) as (lit' & Hlit' & Hc). congruence.
    + cbn [mbind result_bind] in Hp. injection Hp as <-.
      rewrite !andb_true_iff, !bool_decide_eq_true.
      split; [intros [[Hst _] _]|intros (Hst & _ & _)]; by split_and!.
Qed.

Lemma listing_where_valid q :
  (∀ t, given (q_type q) = Some t → ∃ ty, ContentType.name ty = t) →
  (∀ x, given (q_category q) = Some x → is_Some (sql_literal x)) →
  ∃ p, listing_where q = Ok p.
Proof.
  unfold listing_where. intros Hvalid Hcat.
  assert (Hby :
    ∃ f, match given (q_category q) with
         | Some x =>
             match sql_literal x with
             | Some t => Ok (λ c, bool_decide (Content.category c = Some t))
             | None => Err "invalid byte sequence for encoding UTF8: 0x00"
             end
         | None => Ok (λ _ : Content.t, true)
         end = Ok f).
  { destruct (given (q_category q)) as [x|]; [|eauto].
    destruct (Hcat x eq_refl) as [lit ->]. eauto. }
  destruct Hby as [f Hf].
  destruct (given (q_type q)) as [t|]; cbn [mbind result_bind enum_value].
  - destruct (Hvalid t eq_refl) as [ty <-].
    rewrite content_type_parse_name. cbn [mbind result_bind].
    rewrite Hf. cbn [mbind result_bind]. eauto.
  - rewrite Hf. cbn [mbind result_bind]. eauto.
Qed.


(** All the rows that satisfy [p], newest first. *)
Lemma matching_spec tbl p :
  StronglySorted Contents.newest_first (Contents.matching tbl p)
  ∧ NoDup (Contents.matching tbl p)
  ∧ ∀ r, r ∈ Contents.matching tbl p ↔ tbl !! r.1 = Some r.2 ∧ p r.2 = true.
Proof.
  unfold Contents.matching. split_and!.
  - apply StronglySorted_merge_sort; apply _.
  - rewrite merge_sort_Permutation.
    apply NoDup_ListNoDup, List.NoDup_filter, NoDup_ListNoDup, NoDup_map_to_list.
  - intros [k c]. rewrite merge_sort_Permutation.
    rewrite list_elem_of_In, filter_In, <- list_elem_of_In, elem_of_map_to_list.
    done.
Qed.


Lemma window_elem_of (rows : list (Z * Content.t)) n m r :
  r ∈ take n (drop m rows) → r ∈ rows.
Proof.
  intros Hr. eapply elem_of_sublist; [exact Hr|].
  etrans; [apply sublist_take | apply sublist_drop].
Qed.


(** The public listing, step by step. *)
Lemma list_contents_run env s req user :
  list_contents env s req user =
  let q := query req in
  match listing_where q with
  | Err m => (s, respond 500 (error_body m))
  | Ok p =>
      match Contents.row_count (limit_int q), Contents.row_count (offset_int q) with
      | Some l, Some o =>
          (s, respond 200
                (JArr (Contents.toJSON_with_publisher (users s) <$>
                         take (Z.to_nat l)
                           (drop (Z.to_nat o) (Contents.matching (contents s) p)))))
      | None, _ => (s, respond 500 (error_body "LIMIT is not a row count"))
      | _, None => (s, respond 500 (error_body "OFFSET is not a row count"))
      end
  end.
Proof.
  unfold list_contents. cbn zeta.
  destruct (listing_where (query req)) as [p|m]; cbn [mbind result_bind caught];
    [|done].
  unfold Contents.findAll.
  destruct (Contents.row_count (limit_int (query req))) as [l|]; [|done].
  by destruct (Contents.row_count (offset_int (query req))) as [o|].
Qed.


End Listing.



Section Passwords.
Context `{Platform}.

























End Passwords.

Section Secrecy.
Context `{Platform}.

Lemma caught_users s (r : result (Store * Response)) :
  (∀ x, r = Ok x → users x.1 = users s) → users (caught s r).1 = users s.
Proof. destruct r as [x|m]; simpl; auto. Qed.

Lemma keeps_users_authenticateToken next :
  keeps_users next → keeps_users (authenticateToken next).
Proof.
  intros Hk env s req user. unfold authenticateToken.
  destruct (bearer_token req); [|done].
  destruct (jwt_verify _ _ _); [|done]. apply Hk.
Qed.

Lemma keeps_users_requirePublisher next :
  keeps_users next → keeps_users (requirePublisher next).
Proof.
  intros Hk env s req user. unfold requirePublisher.
  destruct user as [u|]; [|done].
  destruct (bool_decide _); [|done]. apply Hk.
Qed.

Lemma keeps_users_login : keeps_users login.
Proof.
  intros env s req user. unfold login. apply caught_users.
  intros x. destruct (where_string _) as [same|]; cbn [mbind result_bind]; [|done].
  destruct (Users.findOne _ _) as [[id u]|]; [|by intros [= <-]].
  destruct (compare _ _) as [[]|]; cbn [mbind result_bind]; [| |done];
    by intros [= <-].
Qed.

Lemma keeps_users_list_contents : keeps_users list_contents.
Proof.
  intros env s req user. unfold list_contents. apply caught_users.
  intros x. destruct (listing_where _); cbn [mbind result_bind]; [|done].
  destruct (Contents.findAll _ _ _); cbn [mbind result_bind]; [|done].
  by intros [= <-].
Qed.

Lemma keeps_users_get_content : keeps_users get_content.
Proof.
  intros env s req user. unfold get_content. apply caught_users.
  intros x. destruct (Contents.findOne _ _ _) as [[[id c]|]|];
    cbn [mbind result_bind]; [|by intros [= <-]|done].
  destruct (Contents.increment_views c); cbn [mbind result_bind]; [|done].
  by intros [= <-].
Qed.

Lemma keeps_users_publisher_contents : keeps_users publisher_contents.
Proof.
  intros env s req user. unfold publisher_contents. apply caught_users.
  intros x. destruct (req_user user); cbn [mbind result_bind]; [|done].
  destruct (Contents.findAll _ _ _); cbn [mbind result_bind]; [|done].
  by intros [= <-].
Qed.

Lemma keeps_users_create_content : keeps_users create_content.
Proof.
  intros env s req user. unfold create_content. apply caught_users.
  intros x. destruct (req_user user); cbn [mbind result_bind]; [|done].
  destruct (Contents.create _ _ _ _ _ _ _ _ _ _ _ _ _) as [[id c]|];
    cbn [mbind result_bind]; [|done].
  by intros [= <-].
Qed.

Lemma keeps_users_update_content : keeps_users update_content.
Proof.
  intros env s req user. unfold update_content. apply caught_users.
  intros x. destruct (req_user user); cbn [mbind result_bind]; [|done].
  destruct (owned _ _ _) as [[[id c]|]|]; cbn [mbind result_bind];
    [|by intros [= <-]|done].
  destruct (Contents.update _ _ _); cbn [mbind result_bind]; [|done].
  by intros [= <-].
Qed.

Lemma keeps_users_publish_content : keeps_users publish_content.
Proof.
  intros env s req user. unfold publish_content. apply caught_users.
  intros x. destruct (req_user user); cbn [mbind result_bind]; [|done].
  destruct (owned _ _ _) as [[[id c]|]|]; cbn [mbind result_bind];
    [|by intros [= <-]|done].
  destruct (Contents.update _ _ _); cbn [mbind result_bind]; [|done].
  by intros [= <-].
Qed.

Lemma keeps_users_profile : keeps_users profile.
Proof.
  intros env s req user. unfold profile. apply caught_users.
  intros x. destruct (req_user user); cbn [mbind result_bind]; [|done].
  by intros [= <-].
Qed.

(** Every route but registration leaves the users as they are. *)
Lemma keeps_users_route r : r ≠ POST_register → keeps_users (route r).
Proof.
  intros Hr. destruct r; cbn [route]; try done;
    repeat (apply keeps_users_authenticateToken || apply keeps_users_requirePublisher);
    auto using keeps_users_login, keeps_users_list_contents, keeps_users_get_content,
      keeps_users_publisher_contents, keeps_users_create_content,
      keeps_users_update_content, keeps_users_publish_content, keeps_users_profile.
Qed.

(** What [User.create] stores when it is handed a digest and succeeds. *)
Lemma users_create_Ok tbl seq t0 un em digest ro id u :
  Users.create tbl seq t0 un em digest ro = Ok (id, u) →
  id = seq ∧ tbl !! seq = None
  ∧ User.password u = digest ∧ User.profile u = JObj [].
Proof.
  unfold Users.create. intros Hc.
  destruct (required "User.username" _ _) as [n|]; cbn [mbind result_bind] in Hc; [|done].
  destruct (required "User.email" _ _) as [e|]; cbn [mbind result_bind] in Hc; [|done].
  destruct (with_default _ _ _) as [r|]; cbn [mbind result_bind] in Hc; [|done].
  destruct (existsb _ _); [done|].
  destruct (tbl !! seq) eqn:Hseq; [done|].
  by injection Hc as <- <-.
Qed.

(** Registration either leaves the users as they are or adds one user,
    whose password is the digest of the plaintext in the body. *)
Lemma register_users env s req user :
  users (register env s req user).1 = users s
  ∨ ∃ p u, body req !! "password" = Some (JStr p)
         ∧ users s !! users_id_seq s = None
         ∧ User.password u = bcrypt_hash p (salt env)
         ∧ User.profile u = JObj []
         ∧ users (register env s req user).1 = <[users_id_seq s := u]> (users s).
Proof.
  unfold register.
  destruct (where_string _) as [same|]; cbn [mbind result_bind caught]; [|by left].
  destruct (Users.findOne _ _); [by left|].
  unfold hash.
  destruct (body req !! "password") as [[| | | |p| |]|] eqn:Hp;
    cbn [mbind result_bind caught]; try by left.
  destruct (Users.create _ _ _ _ _ _ _) as [[id u]|] eqn:Hc;
    cbn [mbind result_bind caught]; [|by left].
  apply users_create_Ok in Hc as (-> & Hseq & Hpw & Hprofile).
  right. exists p, u. done.
Qed.




(** *** The answers do not depend on the stored passwords *)

























End Secrecy.


(** * The database stays consistent *)

Section Consistency.
Context `{Platform}.

Lemma caught_write s (r : result (Store * Response)) :
  (∀ x, r = Ok x → write s x.1) → write s (caught s r).1.
Proof. destruct r as [x|m]; simpl; [auto|constructor]. Qed.

Lemma writes_authenticateToken next : writes next → writes (authenticateToken next).
Proof.
  intros Hw env s req user. unfold authenticateToken.
  destruct (bearer_token req); [|constructor].
  destruct (jwt_verify _ _ _); [|constructor]. apply Hw.
Qed.

Lemma writes_requirePublisher next : writes next → writes (requirePublisher next).
Proof.
  intros Hw env s req user. unfold requirePublisher.
  destruct user as [u|]; [|constructor].
  destruct (bool_decide _); [|constructor]. apply Hw.
Qed.

(** A route that leaves the whole database as it is. *)
Lemma read_only_writes (h : Handler) :
  (∀ env s req user, (h env s req user).1 = s) → writes h.
Proof. intros Hread env s req user. rewrite Hread. constructor. Qed.

Lemma login_read_only env s req user : (login env s req user).1 = s.
Proof.
  unfold login.
  destruct (where_string _) as [same|]; cbn [mbind result_bind caught]; [|done].
  destruct (Users.findOne _ _) as [[id u]|]; [|done].
  by destruct (compare _ _) as [[]|].
Qed.

Lemma list_contents_read_only env s req user : (list_contents env s req user).1 = s.
Proof.
  unfold list_contents.
  destruct (listing_where _); cbn [mbind result_bind caught]; [|done].
  by destruct (Contents.findAll _ _ _).
Qed.

Lemma publisher_contents_read_only env s req user :
  (publisher_contents env s req user).1 = s.
Proof.
  unfold publisher_contents.
  destruct (req_user user); cbn [mbind result_bind caught]; [|done].
  by destruct (Contents.findAll _ _ _).
Qed.

Lemma profile_read_only env s req user : (profile env s req user).1 = s.
Proof. unfold profile. by destruct (req_user user). Qed.

Lemma users_create_free tbl seq t0 un em pw ro id u :
  Users.create tbl seq t0 un em pw ro = Ok (id, u) →
  id = seq ∧ tbl !! seq = None
  ∧ ∀ k u', tbl !! k = Some u' → User.email u' ≠ User.email u.
Proof.
  unfold Users.create. intros Hc.
  destruct (required "User.username" _ _) as [n|]; cbn [mbind result_bind] in Hc; [|done].
  destruct (required "User.email" _ _) as [e|]; cbn [mbind result_bind] in Hc; [|done].
  destruct (with_default _ _ _) as [r|]; cbn [mbind result_bind] in Hc; [|done].
  destruct (existsb _ _) eqn:Hex; [done|].
  destruct (tbl !! seq) eqn:Hseq; [done|].
  injection Hc as <- <-. split_and!; [done..|].
  intros k u' Hk Heq. cbn [User.email] in Heq.
  assert (Hin : existsb (λ x : Z * User.t, String.eqb (User.email x.2) e)
                  (map_to_list tbl) = true); [|congruence].
  apply existsb_exists. exists (k, u'). split.
  - by apply list_elem_of_In, elem_of_map_to_list.
  - by apply String.eqb_eq.
Qed.

Lemma register_writes : writes register.
Proof.
  intros env s req user. unfold register. apply caught_write. intros x.
  destruct (where_string _) as [same|]; cbn [mbind result_bind]; [|done].
  destruct (Users.findOne _ _); [intros [= <-]; constructor|].
  destruct (hash _ _); cbn [mbind result_bind]; [|done].
  destruct (Users.create _ _ _ _ _ _ _) as [[id u]|] eqn:Hc;
    cbn [mbind result_bind]; [|done].
  intros [= <-]. apply users_create_free in Hc as (-> & Hseq & Hfree).
  by constructor.
Qed.

Lemma syncDatabase_write env s : write s (syncDatabase env s).
Proof.
  unfold syncDatabase. destruct (Users.findOne _ _); [constructor|].
  destruct (Users.create _ _ _ _ _ _ _) as [[id u]|] eqn:Hc; [|constructor].
  apply users_create_free in Hc as (-> & Hseq & Hfree). by constructor.
Qed.

Lemma increment_views_Ok c c' :
  Contents.increment_views c = Ok c' →
  Content.publisherId c' = Content.publisherId c
  ∧ Content.createdAt c' = Content.createdAt c
  ∧ Content.status c' = Content.status c.
Proof.
  unfold Contents.increment_views. destruct (Content.views c) as [v|].
  - destruct (in_int4 (v + 1)); [|done]. by intros [= <-].
  - by intros [= <-].
Qed.

Lemma get_content_writes : writes get_content.
Proof.
  intros env s req user. unfold get_content. apply caught_write. intros x.
  destruct (Contents.findOne _ _ _) as [[[id c]|]|] eqn:Hc;
    cbn [mbind result_bind]; [|intros [= <-]; constructor|done].
  destruct (Contents.increment_views c) as [c'|] eqn:Hinc;
    cbn [mbind result_bind]; [|done].
  intros [= <-]. apply findOne_Some in Hc as (_ & Hc & _).
  apply increment_views_Ok in Hinc as (Hpu & _).
  apply (write_content s _ c); [done|by left].
Qed.

(** A value that [publisherId] takes names a user. *)
Lemma references_Ok (us : gmap Z User.t) v n :
  Contents.references us v = Ok n → is_Some (us !! n).
Proof.
  unfold Contents.references.
  destruct (integer_value v) as [m|]; cbn [mbind result_bind]; [|done].
  destruct (us !! m) eqn:Hm; [|done]. intros [= <-]. eauto.
Qed.

Lemma contents_create_references us tbl seq t0 ti co ty ca ta fi vi rt pu id c :
  Contents.create us tbl seq t0 ti co ty ca ta fi vi rt pu = Ok (id, c) →
  is_Some (us !! Content.publisherId c).
Proof.
  unfold Contents.create. intros Hc. bind_inv Hc.
  destruct (tbl !! seq); [discriminate|]. injection Hc as <- <-.
  cbn [Content.publisherId]. by eapply references_Ok.
Qed.

Lemma create_content_writes : writes create_content.
Proof.
  intros env s req user. unfold create_content. apply caught_write. intros x.
  destruct (req_user user); cbn [mbind result_bind]; [|done].
  destruct (Contents.create _ _ _ _ _ _ _ _ _ _ _ _ _) as [[id c]|] eqn:Hc;
    cbn [mbind result_bind]; [|done].
  intros [= <-].
  pose proof (contents_create_references _ _ _ _ _ _ _ _ _ _ _ _ _ _ _ Hc) as Hfk.
  apply contents_create_Ok in Hc as (-> & Hseq & _).
  by constructor.
Qed.

Lemma contents_update_references us c values c' :
  Contents.update us c values = Ok c' →
  Content.publisherId c' = Content.publisherId c
  ∨ is_Some (us !! Content.publisherId c').
Proof.
  unfold Contents.update. intros Hu. bind_inv Hu. injection Hu as <-. simpl.
  match goal with
  | E : Contents.assign (values !! "publisherId") _ _ = Ok _ |- _ => rename E into Hpu
  end.
  unfold Contents.assign in Hpu.
  destruct (values !! "publisherId") as [j|]; [|left; congruence].
  right. unfold required in Hpu.
  destruct j; try done; by eapply references_Ok.
Qed.

Lemma update_content_writes : writes update_content.
Proof.
  intros env s req user. unfold update_content. apply caught_write. intros x.
  destruct (req_user user) as [u|]; cbn [mbind result_bind]; [|done].
  destruct (owned _ _ _) as [[[id c]|]|] eqn:Ho; cbn [mbind result_bind];
    [|intros [= <-]; constructor|done].
  destruct (Contents.update _ _ _) as [c'|] eqn:Hu; cbn [mbind result_bind]; [|done].
  intros [= <-]. apply owned_Some in Ho as (_ & Hc & _).
  apply (write_content s _ c); [done|]. by eapply contents_update_references.
Qed.

Lemma publish_content_writes : writes publish_content.
Proof.
  intros env s req user. destruct user as [u|]; [|constructor].
  rewrite publish_content_run.
  destruct (owned _ _ _) as [[[id c]|]|] eqn:Ho; [|constructor..].
  apply owned_Some in Ho as (_ & Hc & _).
  apply (write_content s _ c); [done|by left].
Qed.

Lemma route_writes r : writes (route r).
Proof.
  destruct r; cbn [route];
    repeat (apply writes_authenticateToken || apply writes_requirePublisher);
    auto using register_writes, get_content_writes, create_content_writes,
      update_content_writes, publish_content_writes, read_only_writes,
      login_read_only, list_contents_read_only, publisher_contents_read_only,
      profile_read_only.
Qed.

Lemma write_consistent s s' : consistent s → write s s' → consistent s'.
Proof.
  intros (Hus & Hcs & Hemail & Hfk) Hw.
  destruct Hw as [|u Hseq Hfree|c Hseq Hpu|k c c' Hc Hpu]; [done|..].
  - split_and!; simpl.
    + intros k u'. destruct (decide (k = users_id_seq s)) as [->|Hne].
      * rewrite lookup_insert_eq. intros _. lia.
      * rewrite lookup_insert_ne by done. intros Hk. specialize (Hus k u' Hk).
        simpl in Hus. lia.
    + done.
    + intros k1 k2 u1 u2.
      destruct (decide (k1 = users_id_seq s)) as [->|Hne1];
        destruct (decide (k2 = users_id_seq s)) as [->|Hne2];
        rewrite ?lookup_insert_eq, ?lookup_insert_ne by done; try done.
      * intros [= <-] Hk2 Heq. by destruct (Hfree k2 u2 Hk2).
      * intros Hk1 [= <-] Heq. by destruct (Hfree k1 u1 Hk1).
      * apply Hemail.
    + intros k c Hk. destruct (Hfk k c Hk) as [owner Howner].
      rewrite lookup_insert_ne; [eauto|].
      intros Heq. rewrite <- Heq in Howner. congruence.
  - split_and!; simpl; [done| |done|].
    + intros k c0. destruct (decide (k = contents_id_seq s)) as [->|Hne].
      * rewrite lookup_insert_eq. intros _. lia.
      * rewrite lookup_insert_ne by done. intros Hk. specialize (Hcs k c0 Hk).
        simpl in Hcs. lia.
    + intros k c0. destruct (decide (k = contents_id_seq s)) as [->|Hne].
      * rewrite lookup_insert_eq. by intros [= <-].
      * rewrite lookup_insert_ne by done. apply Hfk.
  - split_and!; simpl; [done| |done|].
    + intros k0 c0. destruct (decide (k0 = k)) as [->|Hne].
      * rewrite lookup_insert_eq. intros _. apply (Hcs k c Hc).
      * rewrite lookup_insert_ne by done. apply Hcs.
    + intros k0 c0. destruct (decide (k0 = k)) as [->|Hne].
      * rewrite lookup_insert_eq. intros [= <-].
        destruct Hpu as [-> | Hpu]; [|done]. apply (Hfk k c Hc).
      * rewrite lookup_insert_ne by done. apply Hfk.
Qed.

(** X1: The database is always consistent.  The empty database is
    consistent, and the bootstrap and every request
    keep the database consistent: the hypotheses of the contracts above on
    the sequences and on the uniqueness of emails hold at every request the
    server ever serves. *)
Theorem consistent_always (env : Env) (trace : list (Route * Env * Request)) :
  consistent Sample.empty
  ∧ ∀ s, consistent s →
         consistent (syncDatabase env s) ∧ consistent (serve trace s).1.
Proof.
  split.
  - by split_and!.
  - intros s Hs. split.
    + eapply write_consistent; [done|apply syncDatabase_write].
    + revert s Hs. induction trace as [|[[r e] req] rest IH]; intros s Hs; [done|].
      cbn [serve fst]. apply IH.
      eapply write_consistent; [done|apply route_writes].
Qed.

End Consistency.

(** * Further properties of the server *)

Ltac answer_error :=
  split; [cbn; set_solver | right; right; split; [done | cbn; eauto]].
Ltac answer_success :=
  split; [cbn; set_solver | cbn; auto].

Section Answers.
Context `{Platform}.

Lemma register_answered env s req user :
  answered POST_register s (register env s req user).
Proof.
  unfold register.
  destruct (where_string _) as [same|]; cbn [mbind result_bind caught];
    [|answer_error].
  destruct (Users.findOne _ _); [answer_error|].
  destruct (hash _ _); cbn [mbind result_bind caught]; [|answer_error].
  destruct (Users.create _ _ _ _ _ _ _) as [[id u]|];
    cbn [mbind result_bind caught]; [answer_success|answer_error].
Qed.

Lemma login_answered env s req user : answered POST_login s (login env s req user).
Proof.
  unfold login.
  destruct (where_string _) as [same|]; cbn [mbind result_bind caught];
    [|answer_error].
  destruct (Users.findOne _ _) as [[id u]|]; [|answer_error].
  destruct (compare _ _) as [[]|]; cbn [mbind result_bind caught];
    [answer_success|answer_error|answer_error].
Qed.

Lemma list_contents_answered env s req user :
  answered GET_contents s (list_contents env s req user).
Proof.
  unfold list_contents.
  destruct (listing_where _); cbn [mbind result_bind caught]; [|answer_error].
  destruct (Contents.findAll _ _ _); cbn [mbind result_bind caught];
    [answer_success|answer_error].
Qed.

Lemma get_content_answered env s req user :
  answered GET_contents_id s (get_content env s req user).
Proof.
  unfold get_content.
  destruct (Contents.findOne _ _ _) as [[[id c]|]|];
    cbn [mbind result_bind caught]; [|answer_error..].
  destruct (Contents.increment_views c); cbn [mbind result_bind caught];
    [answer_success|answer_error].
Qed.

Lemma publisher_contents_answered env s req user :
  answered GET_publisher_contents s (publisher_contents env s req user).
Proof.
  unfold publisher_contents.
  destruct (req_user user); cbn [mbind result_bind caught]; [|answer_error].
  destruct (Contents.findAll _ _ _); cbn [mbind result_bind caught];
    [answer_success|answer_error].
Qed.

Lemma create_content_answered env s req user :
  answered POST_publisher_contents s (create_content env s req user).
Proof.
  unfold create_content.
  destruct (req_user user); cbn [mbind result_bind caught]; [|answer_error].
  destruct (Contents.create _ _ _ _ _ _ _ _ _ _ _ _ _) as [[id c]|];
    cbn [mbind result_bind caught]; [answer_success|answer_error].
Qed.

Lemma update_content_answered env s req user :
  answered PUT_publisher_contents_id s (update_content env s req user).
Proof.
  unfold update_content.
  destruct (req_user user); cbn [mbind result_bind caught]; [|answer_error].
  destruct (owned _ _ _) as [[[id c]|]|]; cbn [mbind result_bind caught];
    [|answer_error..].
  destruct (Contents.update _ _ _); cbn [mbind result_bind caught];
    [answer_success|answer_error].
Qed.

Lemma publish_content_answered env s req user :
  answered PUT_publisher_contents_id_publish s (publish_content env s req user).
Proof.
  unfold publish_content.
  destruct (req_user user); cbn [mbind result_bind caught]; [|answer_error].
  destruct (owned _ _ _) as [[[id c]|]|]; cbn [mbind result_bind caught];
    [|answer_error..].
  destruct (Contents.update _ _ _); cbn [mbind result_bind caught];
    [answer_success|answer_error].
Qed.

Lemma profile_answered env s req user : answered GET_profile s (profile env s req user).
Proof.
  unfold profile.
  destruct (req_user user); cbn [mbind result_bind caught];
    [answer_success|answer_error].
Qed.

(** A publisher-only route is answered by a middleware or by its handler
    run with the verified claims. *)
Lemma publisher_route_cases r env s req :
  publisher_only r →
  app r env s req = (s, respond 401 (error_body "Access token required"))
  ∨ app r env s req = (s, respond 403 (error_body "Invalid token"))
  ∨ app r env s req = (s, respond 403 (error_body "Publisher access required"))
  ∨ ∃ u, verified_claims env req = Some u ∧ claim_role u = Some "publisher"
       ∧ app r env s req = handler r env s req (Some u).
Proof.
  intros Hr. unfold app. rewrite (publisher_route r Hr), authenticateToken_unfold.
  destruct (bearer_token req); [|by left].
  destruct (verified_claims env req) as [u|]; [|by right; left].
  unfold requirePublisher.
  destruct (bool_decide (claim_role u = Some "publisher")) eqn:Hrole.
  - apply bool_decide_eq_true in Hrole. right. right. right. by exists u.
  - right. right. by left.
Qed.

Lemma profile_route_cases env s req :
  app GET_profile env s req = (s, respond 401 (error_body "Access token required"))
  ∨ app GET_profile env s req = (s, respond 403 (error_body "Invalid token"))
  ∨ ∃ u, verified_claims env req = Some u
       ∧ app GET_profile env s req = profile env s req (Some u).
Proof.
  unfold app. cbn [route]. rewrite authenticateToken_unfold.
  destruct (bearer_token req); [|by left].
  destruct (verified_claims env req) as [u|]; [|by right; left].
  right. right. by exists u.
Qed.

Lemma app_answered r env s req : answered r s (app r env s req).
Proof.
  destruct (decide (publisher_only r)) as [Hr|Hr].
  - destruct (publisher_route_cases r env s req Hr)
      as [-> | [-> | [-> | (u & _ & _ & ->)]]].
    + destruct Hr as [->|[->|[->| ->]]]; answer_error.
    + destruct Hr as [->|[->|[->| ->]]]; answer_error.
    + destruct Hr as [->|[->|[->| ->]]]; answer_error.
    + destruct Hr as [->|[->|[->| ->]]]; cbn [handler];
        auto using publisher_contents_answered, create_content_answered,
          update_content_answered, publish_content_answered.
  - destruct r; try (exfalso; apply Hr; unfold publisher_only; by auto).
    + answer_success.
    + apply register_answered.
    + apply login_answered.
    + apply list_contents_answered.
    + apply get_content_answered.
    + destruct (profile_route_cases env s req) as [-> | [-> | (u & _ & ->)]];
        [answer_error|answer_error|apply profile_answered].
Qed.

(** X3: Status codes.  Every answer of a route carries one of the status
    codes that the route's handler and middleware send. *)
Theorem status_codes (r : Route) (env : Env) (s : Store) (req : Request) :
  res_status (app r env s req).2 ∈ statuses r.
Proof. apply app_answered. Qed.

(** X4: Errors.  An answer whose status is 400 or above is an object
    [{ error: message }], and the request that got it has left every row of
    both tables as it was. *)
Theorem errors_change_nothing (r : Route) (env : Env) (s : Store) (req : Request) :
  400 ≤ res_status (app r env s req).2 →
  users (app r env s req).1 = users s
  ∧ contents (app r env s req).1 = contents s
  ∧ ∃ message, res_body (app r env s req).2 = error_body message.
Proof.
  intros Herr. destruct (app_answered r env s req) as [_ [H200|[H201|Hfail]]].
  - rewrite H200 in Herr. lia.
  - rewrite H201 in Herr. lia.
  - destruct Hfail as [Hsame Hbody]. by rewrite Hsame.
Qed.

(** X5: Read-only routes.  [GET /], [POST /api/login], [GET /api/contents],
    [GET /api/publisher/contents] and [GET /api/profile] leave the database
    as it was, whatever the request and whatever they answer. *)
Theorem read_only_routes (r : Route) (env : Env) (s : Store) (req : Request) :
  read_only r → (app r env s req).1 = s.
Proof.
  intros [->|[->|[->|[->| ->]]]]; unfold app; cbn [route].
  - done.
  - apply login_read_only.
  - apply list_contents_read_only.
  - rewrite authenticateToken_unfold.
    destruct (bearer_token req); [|done].
    destruct (verified_claims env req) as [u|]; [|done].
    unfold requirePublisher. destruct (bool_decide _); [|done].
    apply publisher_contents_read_only.
  - rewrite authenticateToken_unfold.
    destruct (bearer_token req); [|done].
    destruct (verified_claims env req) as [u|]; [|done].
    apply profile_read_only.
Qed.

End Answers.

Section Persistence.
Context `{Platform}.

Lemma caught_rows s (r : result (Store * Response)) k c :
  contents s !! k = Some c →
  (∀ x, r = Ok x →
        ∃ c', contents x.1 !! k = Some c'
              ∧ Content.createdAt c' = Content.createdAt c) →
  ∃ c', contents (caught s r).1 !! k = Some c'
        ∧ Content.createdAt c' = Content.createdAt c.
Proof. intros Hk Hr. destruct r as [x|m]; simpl; eauto. Qed.

Lemma keeps_rows_authenticateToken next :
  keeps_rows next → keeps_rows (authenticateToken next).
Proof.
  intros Hk env s req user k c Hc. unfold authenticateToken.
  destruct (bearer_token req); [|eauto].
  destruct (jwt_verify _ _ _); [|eauto]. by apply Hk.
Qed.

Lemma keeps_rows_requirePublisher next :
  keeps_rows next → keeps_rows (requirePublisher next).
Proof.
  intros Hk env s req user k c Hc. unfold requirePublisher.
  destruct user as [u|]; [|eauto].
  destruct (bool_decide _); [|eauto]. by apply Hk.
Qed.

Lemma keeps_rows_unchanged (h : Handler) :
  (∀ env s req user, contents (h env s req user).1 = contents s) → keeps_rows h.
Proof. intros Hsame env s req user k c Hc. rewrite Hsame. eauto. Qed.

Lemma register_contents env s req user :
  contents (register env s req user).1 = contents s.
Proof.
  unfold register.
  destruct (where_string _) as [same|]; cbn [mbind result_bind caught]; [|done].
  destruct (Users.findOne _ _); [done|].
  destruct (hash _ _); cbn [mbind result_bind caught]; [|done].
  by destruct (Users.create _ _ _ _ _ _ _) as [[id u]|].
Qed.

Lemma read_only_contents (h : Handler) :
  (∀ env s req user, (h env s req user).1 = s) →
  ∀ env s req user, contents (h env s req user).1 = contents s.
Proof. intros Hread env s req user. by rewrite Hread. Qed.

Lemma contents_update_createdAt us c values c' :
  Contents.update us c values = Ok c' →
  Content.createdAt c' = Content.createdAt c.
Proof. unfold Contents.update. intros Hu. bind_inv Hu. by injection Hu as <-. Qed.

Lemma insert_keeps_row (tbl : gmap Z Content.t) id c0 c1 k c :
  tbl !! id = Some c0 →
  Content.createdAt c1 = Content.createdAt c0 →
  tbl !! k = Some c →
  ∃ c', <[id := c1]> tbl !! k = Some c'
        ∧ Content.createdAt c' = Content.createdAt c.
Proof.
  intros Hid Hcreated Hk. destruct (decide (k = id)) as [->|Hne].
  - rewrite lookup_insert_eq. exists c1. split; [done|]. congruence.
  - rewrite lookup_insert_ne by done. eauto.
Qed.

Lemma keeps_rows_get_content : keeps_rows get_content.
Proof.
  intros env s req user k c Hc. unfold get_content.
  apply caught_rows; [done|]. intros x.
  destruct (Contents.findOne _ _ _) as [[[id c0]|]|] eqn:Hfind;
    cbn [mbind result_bind]; [|intros [= <-]; eauto|done].
  destruct (Contents.increment_views c0) as [c1|] eqn:Hinc;
    cbn [mbind result_bind]; [|done].
  intros [= <-]. apply findOne_Some in Hfind as (_ & Hc0 & _).
  apply increment_views_Ok in Hinc as (_ & Hcreated & _). simpl.
  by eapply insert_keeps_row.
Qed.

Lemma keeps_rows_create_content : keeps_rows create_content.
Proof.
  intros env s req user k c Hc. unfold create_content.
  apply caught_rows; [done|]. intros x.
  destruct (req_user user); cbn [mbind result_bind]; [|done].
  destruct (Contents.create _ _ _ _ _ _ _ _ _ _ _ _ _) as [[id c0]|] eqn:Hcreate;
    cbn [mbind result_bind]; [|done].
  intros [= <-]. apply contents_create_Ok in Hcreate as (-> & Hseq & _).
  simpl. rewrite lookup_insert_ne; [eauto|]. intros <-. congruence.
Qed.

Lemma keeps_rows_update_content : keeps_rows update_content.
Proof.
  intros env s req user k c Hc. unfold update_content.
  apply caught_rows; [done|]. intros x.
  destruct (req_user user) as [u|]; cbn [mbind result_bind]; [|done].
  destruct (owned _ _ _) as [[[id c0]|]|] eqn:Ho; cbn [mbind result_bind];
    [|intros [= <-]; eauto|done].
  destruct (Contents.update _ _ _) as [c1|] eqn:Hu; cbn [mbind result_bind]; [|done].
  intros [= <-]. apply owned_Some in Ho as (_ & Hc0 & _). simpl.
  eapply insert_keeps_row; [done| |done].
  by eapply contents_update_createdAt.
Qed.

Lemma keeps_rows_publish_content : keeps_rows publish_content.
Proof.
  intros env s req user k c Hc. unfold publish_content.
  apply caught_rows; [done|]. intros x.
  destruct (req_user user) as [u|]; cbn [mbind result_bind]; [|done].
  destruct (owned _ _ _) as [[[id c0]|]|] eqn:Ho; cbn [mbind result_bind];
    [|intros [= <-]; eauto|done].
  destruct (Contents.update _ _ _) as [c1|] eqn:Hu; cbn [mbind result_bind]; [|done].
  intros [= <-]. apply owned_Some in Ho as (_ & Hc0 & _). simpl.
  eapply insert_keeps_row; [done| |done].
  by eapply contents_update_createdAt.
Qed.

Lemma keeps_rows_route r : keeps_rows (route r).
Proof.
  destruct r; cbn [route];
    repeat (apply keeps_rows_authenticateToken || apply keeps_rows_requirePublisher);
    auto using keeps_rows_get_content, keeps_rows_create_content,
      keeps_rows_update_content, keeps_rows_publish_content;
    apply keeps_rows_unchanged;
    auto using register_contents, read_only_contents, login_read_only,
      list_contents_read_only, publisher_contents_read_only, profile_read_only.
Qed.

(** A user that is stored stays stored, unchanged, through any request. *)
Lemma app_keeps_user r env s req k u :
  users s !! k = Some u → users (app r env s req).1 !! k = Some u.
Proof.
  intros Hk. unfold app. destruct (decide (r = POST_register)) as [->|Hr].
  - cbn [route].
    destruct (register_users env s req None)
      as [-> | (p & u0 & _ & Hseq & _ & _ & ->)]; [done|].
    rewrite lookup_insert_ne; [done|]. intros <-. congruence.
  - by rewrite (keeps_users_route r Hr).
Qed.

(** X2: Nothing is deleted.  Through any sequence of requests a stored user
    stays stored under its id with every column as it was, and a stored
    content row stays stored under its id with the [createdAt] it was
    inserted with: no route deletes a row, renumbers it, or rewrites a
    user. *)
Theorem rows_persist (trace : list (Route * Env * Request)) (s : Store) :
  (∀ k u, users s !! k = Some u → users (serve trace s).1 !! k = Some u)
  ∧ (∀ k c, contents s !! k = Some c →
       ∃ c', contents (serve trace s).1 !! k = Some c'
             ∧ Content.createdAt c' = Content.createdAt c).
Proof.
  revert s. induction trace as [|[[r env] req] rest IH]; intros s.
  - split; eauto.
  - cbn [serve fst]. destruct (IH (app r env s req).1) as [IHu IHc]. split.
    + intros k u Hk. apply IHu. by apply app_keeps_user.
    + intros k c Hk.
      destruct (keeps_rows_route r env s req None k c Hk) as (c1 & Hc1 & Hcreated1).
      destruct (IHc k c1 Hc1) as (c2 & Hc2 & Hcreated2).
      exists c2. split; [done|]. congruence.
Qed.

End Persistence.

Section Tokens.
Context `{Platform}.

Lemma split_nonempty sep h : split sep h ≠ [].
Proof.
  induction h as [|c rest IH]; [done|]. rewrite split_step.
  destruct (split sep rest); [done|]. by destruct (Ascii.eqb c sep).
Qed.

(** No piece of [h.split(' ')] has a space in it. *)
Lemma split_pieces_spaceless h :
  Forall (λ w, spaceless w = true) (split " " h).
Proof.
  induction h as [|c rest IH]; [by repeat constructor|]. rewrite split_step.
  destruct (split " " rest) as [|w ws]; [constructor|].
  apply Forall_cons in IH as [Hw Hws].
  destruct (Ascii.eqb c " ") eqn:Hc.
  - by repeat constructor.
  - constructor; [|done]. simpl. by rewrite Hc, Hw.
Qed.

(** The first word ends at the first space. *)
Lemma split_first_word w rest :
  spaceless w = true → split " " (w +:+ String " " rest) = w :: split " " rest.
Proof.
  induction w as [|c w IH]; intros Hw.
  - change ("" +:+ String " " rest) with (String " " rest). rewrite split_step.
    pose proof (split_nonempty " " rest). by destruct (split " " rest).
  - simpl in Hw. apply andb_true_iff in Hw as [Hc Hw].
    change (String c w +:+ String " " rest) with (String c (w +:+ String " " rest)).
    rewrite split_step, (IH Hw).
    by destruct (Ascii.eqb c " ").
Qed.

Lemma given_Some (x : option string) t : given x = Some t ↔ x = Some t ∧ t ≠ "".
Proof.
  unfold given. destruct x as [y|]; [|split; [done|by intros [? _]]].
  destruct (String.eqb_spec y "") as [Hy|Hy]; split.
  - done.
  - intros [[= <-] Hne]. done.
  - intros [= <-]. done.
  - intros [[= <-] _]. done.
Qed.

(** X6: Token extraction.  The token that [authenticateToken] hands to
    [jwt.verify] is the second space-separated word of the authorization
    header; it is never empty and never contains a space. *)
Theorem token_is_second_word (req : Request) (token : string) :
  bearer_token req = Some token →
  token ≠ "" ∧ spaceless token = true
  ∧ ∃ h, authorization req = Some h ∧ split " " h !! 1%nat = Some token.
Proof.
  unfold bearer_token. intros [Hword Hne]%given_Some. split; [done|].
  destruct (authorization req) as [h|]; [|done].
  destruct (String.eqb_spec h "") as [Hh|Hh]; [by simplify_eq|].
  split; [|by exists h].
  pose proof (split_pieces_spaceless h) as Hall.
  rewrite Forall_lookup in Hall. by apply (Hall 1%nat).
Qed.

(** X7: The scheme is not checked.  Whatever the first word of the header is
    ([Bearer], [Basic] or nothing at all), and whatever follows the second
    word, the second word is taken as the token when it is not empty. *)
Theorem any_scheme_is_accepted (req : Request) (scheme token : string) :
  spaceless scheme = true →
  spaceless token = true →
  token ≠ "" →
  (authorization req = Some (scheme +:+ String " " token) →
   bearer_token req = Some token)
  ∧ (∀ more, authorization req
             = Some (scheme +:+ String " " (token +:+ String " " more)) →
             bearer_token req = Some token).
Proof.
  intros Hscheme Htoken Hne.
  assert (Hnonempty : ∀ x, (scheme +:+ String " " x =? "")%string = false).
  { intros x. by destruct scheme. }
  split.
  - intros Hauth. unfold bearer_token. rewrite Hauth, Hnonempty.
    rewrite (split_first_word _ _ Hscheme), (split_spaceless _ Htoken).
    apply given_Some. done.
  - intros more Hauth. unfold bearer_token. rewrite Hauth, Hnonempty.
    rewrite (split_first_word _ _ Hscheme), (split_first_word _ _ Htoken).
    apply given_Some. done.
Qed.

(** X8: The profile route asks for a token, not for a role.  Without a
    token [GET /api/profile] answers 401, with a token that does not verify
    403; with verified claims of any role it answers 200 with the stored
    user whose id the token carries, less its password, or with [null] when
    no user has that id; the database is left as it was. *)
Theorem profile_of_any_role (env : Env) (s : Store) (req : Request) :
  (bearer_token req = None →
   app GET_profile env s req = (s, respond 401 (error_body "Access token required")))
  ∧ (bearer_token req ≠ None → verified_claims env req = None →
     app GET_profile env s req = (s, respond 403 (error_body "Invalid token")))
  ∧ (∀ u, verified_claims env req = Some u →
       app GET_profile env s req =
       (s, respond 200
             match users s !! claim_id u with
             | Some x => Users.without_password (claim_id u) x
             | None => JNull
             end)).
Proof.
  unfold app. cbn [route]. rewrite authenticateToken_unfold. split_and!.
  - by intros ->.
  - intros Htoken Hclaims. destruct (bearer_token req); [|done]. by rewrite Hclaims.
  - intros u Hclaims.
    destruct (verified_claims_token _ _ _ Hclaims) as (token & -> & _).
    by rewrite Hclaims.
Qed.

End Tokens.

Section Listings.
Context `{Platform}.

(** X9: A publisher's own listing.  With verified publisher claims
    [GET /api/publisher/contents] answers 200 with every row whose
    [publisherId] is the token's id, whatever its status, each once and
    newest first, and with no row of anybody else. *)
Theorem own_listing (env : Env) (s : Store) (req : Request) (u : Claims) :
  verified_claims env req = Some u →
  claim_role u = Some "publisher" →
  ∃ rows,
    app GET_publisher_contents env s req =
    (s, respond 200 (JArr ((λ r, JObj (Contents.toJSON r.1 r.2)) <$> rows)))
    ∧ StronglySorted Contents.newest_first rows
    ∧ NoDup rows
    ∧ ∀ r, r ∈ rows ↔
           contents s !! r.1 = Some r.2 ∧ Content.publisherId r.2 = claim_id u.
Proof.
  intros Hclaims Hrole.
  set (p := λ c : Content.t, bool_decide (Content.publisherId c = claim_id u)).
  destruct (matching_spec (contents s) p) as (Hsorted & Hnodup & Hin).
  exists (Contents.matching (contents s) p). split_and!; [|done|done|].
  - rewrite (publisher_route_run GET_publisher_contents env s req u);
      [|unfold publisher_only; auto|done|done].
    cbn [handler]. unfold publisher_contents. cbn [req_user mbind result_bind].
    fold p. done.
  - intros r. rewrite Hin. unfold p. by rewrite bool_decide_eq_true.
Qed.

(** The rows behind a listing that was answered 200. *)
Lemma listed_rows env s req :
  res_status (app GET_contents env s req).2 = 200 →
  ∃ rows,
    res_body (app GET_contents env s req).2
    = JArr (Contents.toJSON_with_publisher (users s) <$> rows)
    ∧ ∀ r, r ∈ rows → contents s !! r.1 = Some r.2 ∧ asked_for (query req) r.2.
Proof.
  unfold app. cbn [route]. rewrite list_contents_run. cbn zeta.
  destruct (listing_where (query req)) as [p|m] eqn:Hp; [|done].
  destruct (Contents.row_count (limit_int _)) as [l|]; [|done].
  destruct (Contents.row_count (offset_int _)) as [o|]; [|done]. intros _.
  eexists. split; [done|]. intros r Hr.
  destruct (matching_spec (contents s) p) as (_ & _ & Hin).
  apply window_elem_of, Hin in Hr as [Hrow Hpr].
  split; [done|]. by apply (listing_where_Ok (query req) p).
Qed.

(** X10: What is listed can be fetched, while its counter has room.  Every
    row that a 200 answer of [GET /api/contents] lists is answered 200 by
    [GET /api/contents/:id] on the same database, whoever fetches it under
    an id that the database reads as the row's, when its [views] is NULL or
    an [INTEGER] below 2147483647; a listed row whose [views] is 2147483647
    is answered 500, and the database stays as it was. *)
Theorem listed_is_fetchable (env : Env) (s : Store) (req : Request) :
  res_status (app GET_contents env s req).2 = 200 →
  ∃ rows,
    res_body (app GET_contents env s req).2
    = JArr (Contents.toJSON_with_publisher (users s) <$> rows)
    ∧ (∀ r env' req',
         r ∈ rows → where_id (params_id req') = Some r.1 →
         (∀ v, Content.views r.2 = Some v → -2147483648 ≤ v < 2147483647) →
         res_status (app GET_contents_id env' s req').2 = 200)
    ∧ (∀ r env' req',
         r ∈ rows → where_id (params_id req') = Some r.1 →
         Content.views r.2 = Some 2147483647 →
         app GET_contents_id env' s req'
         = (s, respond 500 (error_body "integer out of range"))).
Proof.
  intros H200. destruct (listed_rows env s req H200) as (rows & Hbody & Hrows).
  exists rows. split_and!; [done| |].
  - intros r env' req' Hr Hid Hviews.
    destruct (Hrows r Hr) as (Hrow & Hpublished & _).
    unfold app. cbn [route]. rewrite get_content_run, Hid, Hrow.
    rewrite bool_decide_eq_true_2 by done.
    unfold Contents.increment_views.
    destruct (Content.views r.2) as [v|]; [|done].
    specialize (Hviews v eq_refl).
    rewrite (proj2 (in_int4_spec (v + 1))) by lia. done.
  - intros r env' req' Hr Hid Hviews.
    destruct (Hrows r Hr) as (Hrow & Hpublished & _).
    unfold app. cbn [route]. rewrite get_content_run, Hid, Hrow.
    rewrite bool_decide_eq_true_2 by done.
    unfold Contents.increment_views. by rewrite Hviews.
Qed.

(** X11: An unknown type is an error, not an empty page.  A listing whose
    [type] parameter is not empty and is none of [newspaper], [journal],
    [article] and [video_script] is answered 500, whatever the other
    parameters are, and the database stays as it was. *)
Theorem unknown_type_is_500 (env : Env) (s : Store) (req : Request) (t : string) :
  q_type (query req) = Some t →
  t ≠ "" →
  ContentType.parse t = None →
  (app GET_contents env s req).1 = s
  ∧ res_status (app GET_contents env s req).2 = 500.
Proof.
  intros Ht Hne Hparse. unfold app. cbn [route]. rewrite list_contents_run.
  cbn zeta. unfold listing_where. rewrite Ht.
  assert (given (Some t) = Some t) as -> by (by apply given_Some).
  cbn [enum_value mbind result_bind]. rewrite Hparse. done.
Qed.

(** The rows of a window, by their position in the whole list. *)
Lemma window_lookup {A} (l : list A) (n m j : nat) x :
  take n (drop m l) !! j = Some x ↔ (j < n)%nat ∧ l !! (m + j)%nat = Some x.
Proof.
  destruct (decide (j < n)%nat) as [Hj|Hj].
  - rewrite lookup_take_lt by done. rewrite lookup_drop.
    split; [by intros ?|by intros [_ ?]].
  - rewrite lookup_take_ge by lia. split; [done|by intros [? _]].
Qed.

(** A list that is sorted newest first and whose rows all differ in
    [createdAt] is sorted strictly. *)
Lemma newest_first_strict (rows : list (Z * Content.t)) :
  StronglySorted Contents.newest_first rows →
  NoDup rows →
  (∀ a b, a ∈ rows → b ∈ rows →
          Content.createdAt a.2 = Content.createdAt b.2 → a = b) →
  StronglySorted (λ a b, Content.createdAt b.2 < Content.createdAt a.2) rows.
Proof.
  induction 1 as [|a rows Hsorted IH Hall]; intros Hnodup Hdistinct.
  - constructor.
  - apply NoDup_cons in Hnodup as [Hnotin Hnodup]. constructor.
    + apply IH; [done|]. intros x y Hx Hy. apply Hdistinct; by right.
    + rewrite Forall_forall in Hall |- *. intros b Hb.
      specialize (Hall b Hb). unfold Contents.newest_first in Hall.
      destruct (decide (Content.createdAt a.2 = Content.createdAt b.2)) as [Heq|Hne];
        [|lia].
      assert (a = b) as -> by (apply Hdistinct; [by left|by right|done]).
      done.
Qed.

(** X12: Pages partition the listing.  Fix a type, a category and a [limit]
    parameter from which the database reads a row count [size] above zero,
    and let no two of the rows asked for be created at the same time (the
    order of such rows is left to the database).  Then there is one list of
    all the rows asked for, strictly newest first, such that a request for
    a [page] from whose offset the database reads the row count
    [(n - 1) * size] is answered 200 with the [size] rows from that
    position: page [n].  The row at position [i] of the list is on page
    [i / size + 1], and no row is on two pages. *)
Theorem pages_partition (env : Env) (s : Store) (ty cat : option string)
    (limit : string) (size : Z) :
  let q page := mkQuery ty cat page (Some limit) in
  Contents.row_count (limit_int (q None)) = Some size →
  0 < size →
  (∀ t, given ty = Some t → ∃ x, ContentType.name x = t) →
  (∀ x, given cat = Some x → is_Some (sql_literal x)) →
  (∀ k k' c c',
     contents s !! k = Some c → contents s !! k' = Some c' →
     asked_for (q None) c → asked_for (q None) c' →
     Content.createdAt c = Content.createdAt c' → k = k') →
  ∃ all,
    StronglySorted (λ a b, Content.createdAt b.2 < Content.createdAt a.2) all
    ∧ (∀ r, r ∈ all ↔ contents s !! r.1 = Some r.2 ∧ asked_for (q None) r.2)
    ∧ let page_rows (n : Z) :=
        take (Z.to_nat size) (drop (Z.to_nat ((n - 1) * size)) all) in
      (∀ page n auth id b,
         Contents.row_count (offset_int (q (Some page))) = Some ((n - 1) * size) →
         app GET_contents env s (mkRequest auth id (q (Some page)) b)
         = (s, respond 200
                 (JArr (Contents.toJSON_with_publisher (users s) <$> page_rows n))))
      ∧ (∀ (i : nat) r,
           all !! i = Some r →
           page_rows (Z.of_nat i / size + 1) !! Z.to_nat (Z.of_nat i mod size)
           = Some r)
      ∧ (∀ n n' r,
           1 ≤ n → 1 ≤ n' → r ∈ page_rows n → r ∈ page_rows n' → n = n').
Proof.
  intros q Hsize Hpos Hvalid Hcat Hdistinct.
  destruct (listing_where_valid (q None) Hvalid Hcat) as [pr Hpr].
  destruct (matching_spec (contents s) pr) as (Hsorted & Hnodup & Hin).
  assert (Hrows : ∀ r, r ∈ Contents.matching (contents s) pr ↔
                       contents s !! r.1 = Some r.2 ∧ asked_for (q None) r.2).
  { intros r. rewrite Hin. by rewrite (listing_where_Ok (q None) pr). }
  exists (Contents.matching (contents s) pr). split_and!; [|done|].
  { apply newest_first_strict; [done|done|].
    intros [k c] [k' c'] [Hk Hc]%Hrows [Hk' Hc']%Hrows Hsame. simpl in *.
    assert (k = k') as -> by eauto. congruence. }
  intros page_rows. split_and!.
  - intros page n auth id b Hoffset. unfold app. cbn [route].
    rewrite list_contents_run. cbn [query]. cbn zeta.
    replace (listing_where (q (Some page))) with (listing_where (q None)) by done.
    replace (limit_int (q (Some page))) with (limit_int (q None)) by done.
    by rewrite Hpr, Hsize, Hoffset.
  - intros i r Hi. unfold page_rows. apply window_lookup.
    pose proof (Z.mod_pos_bound (Z.of_nat i) size Hpos) as Hmod.
    pose proof (Z.div_mod (Z.of_nat i) size) as Hdiv.
    pose proof (Z.div_pos (Z.of_nat i) size) as Hquot.
    split; [lia|].
    replace (Z.to_nat ((Z.of_nat i / size + 1 - 1) * size)
             + Z.to_nat (Z.of_nat i mod size))%nat with i; [done|].
    nia.
  - intros n n' r Hn Hn' Hr Hr'. unfold page_rows in *.
    apply list_elem_of_lookup in Hr as [j Hj], Hr' as [j' Hj'].
    apply window_lookup in Hj as [Hj Hat], Hj' as [Hj' Hat'].
    pose proof (NoDup_lookup _ _ _ _ Hnodup Hat Hat') as Hsame.
    nia.
Qed.

End Listings.
Section Counting.
Context `{Platform}.

(** X24: Views are counted while the counter has room.  On a published row
    whose stored [views] is an [INTEGER] [v], fetches of that row, served
    one after the other, all answer 200 and leave [views = v + n] for [n]
    fetches, every other column, row and table being as before, as long as
    [v + n] does not exceed 2147483647.  Every fetch answered 200 of a row
    whose [views] is an integer adds exactly 1 to it; a fetch answered 404
    leaves the database as it was; and the fetch of a published row whose
    [views] is 2147483647 is answered 500 and leaves the counter as it
    is. *)
Theorem views_counted (s : Store) (id : Z) (c : Content.t) (v : Z)
    (trace : list (Route * Env * Request)) :
  contents s !! id = Some c →
  Content.status c = Some Status.published →
  Content.views c = Some v →
  -2147483648 ≤ v →
  v + Z.of_nat (List.length trace) ≤ 2147483647 →
  Forall (λ x, x.1.1 = GET_contents_id ∧ where_id (params_id x.2) = Some id) trace →
  (Forall (λ res, res_status res = 200) (serve trace s).2
   ∧ List.length (serve trace s).2 = List.length trace
   ∧ (serve trace s).1 =
       with_contents
         (<[id := Content.set_views (Some (v + Z.of_nat (List.length trace))) c]>
            (contents s)) s)
  ∧ (∀ env req k c0 v0,
       res_status (app GET_contents_id env s req).2 = 200 →
       where_id (params_id req) = Some k →
       contents s !! k = Some c0 →
       Content.views c0 = Some v0 →
       contents (app GET_contents_id env s req).1 !! k
       = Some (Content.set_views (Some (v0 + 1)) c0))
  ∧ (∀ env req,
       res_status (app GET_contents_id env s req).2 = 404 →
       (app GET_contents_id env s req).1 = s)
  ∧ (∀ env req k c0,
       where_id (params_id req) = Some k →
       contents s !! k = Some c0 →
       Content.status c0 = Some Status.published →
       Content.views c0 = Some 2147483647 →
       app GET_contents_id env s req
       = (s, respond 500 (error_body "integer out of range"))).
Proof.
  intros Hc Hst Hv Hlow Hhigh Htrace. split; [|split_and!].
  - revert s c v Hc Hst Hv Hlow Hhigh.
    induction Htrace as [|[[r env] req] rest [Hr Hid] _ IH];
      intros s c v Hc Hst Hv Hlow Hhigh.
    + simpl. split_and!; [constructor|done|].
      rewrite Z.add_0_r, <- Hv, set_views_same.
      by rewrite insert_id, with_contents_same.
    + simpl in Hr, Hid. subst r. cbn [List.length] in Hhigh.
      destruct (get_content_counts env s req id c v Hid Hc Hst Hv) as (j & Hstep);
        [lia|].
      cbn [serve]. rewrite Hstep. cbn [fst snd].
      set (c1 := Content.set_views (Some (v + 1)) c).
      set (s1 := with_contents (<[id := c1]> (contents s)) s).
      destruct (IH s1 c1 (v + 1)) as (Hall & Hlen & Hfinal).
      * unfold s1. simpl. by rewrite lookup_insert_eq.
      * done.
      * done.
      * lia.
      * lia.
      * split_and!.
        -- by constructor.
        -- simpl. by rewrite Hlen.
        -- rewrite Hfinal.
           assert (Hrow :
             Content.set_views (Some (v + 1 + Z.of_nat (List.length rest))) c1 =
             Content.set_views
               (Some (v + Z.of_nat (List.length ((GET_contents_id, env, req) :: rest)))) c).
           { unfold c1, Content.set_views. simpl. do 2 f_equal. lia. }
           rewrite Hrow. unfold s1, with_contents. simpl.
           by rewrite insert_insert_eq.
  - intros env req k c0 v0. unfold app. cbn [route]. rewrite get_content_run.
    intros H200 Hk Hc0 Hv0. rewrite Hk, Hc0 in *.
    destruct (bool_decide _); [|done].
    unfold Contents.increment_views in *. rewrite Hv0 in *.
    destruct (in_int4 (v0 + 1)); [|done].
    cbn [fst with_contents contents]. by rewrite lookup_insert_eq.
  - intros env req. unfold app. cbn [route]. rewrite get_content_run.
    destruct (where_id (params_id req)) as [k|]; [|done].
    destruct (contents s !! k) as [c0|]; [|done].
    destruct (bool_decide _); [|done].
    by destruct (Contents.increment_views c0).
  - intros env req k c0 Hk Hc0 Hst0 Hv0. unfold app. cbn [route].
    rewrite get_content_run, Hk, Hc0.
    rewrite bool_decide_eq_true_2 by done.
    unfold Contents.increment_views. by rewrite Hv0.
Qed.

End Counting.

(** Two readers fetch the published item of the sample database, which
    counted 5 views: it counts 7. *)
Lemma views_witness :
  Content.views <$>
    contents (serve (H := Sample.platform)
                [(GET_contents_id, Sample.env, Sample.request None "2" ∅);
                 (GET_contents_id, Sample.env,
                  Sample.request (Some "Bearer token-of-bob") "2" ∅)]
                Sample.store).1 !! 2
  = Some (Some 7).
Proof.
  destruct (views_counted (H := Sample.platform) Sample.store 2
              (Sample.item (Some Status.published) (Some 5) 1) 5
              [(GET_contents_id, Sample.env, Sample.request None "2" ∅);
               (GET_contents_id, Sample.env,
                Sample.request (Some "Bearer token-of-bob") "2" ∅)])
    as ((_ & _ & ->) & _).
  - vm_compute. reflexivity.
  - reflexivity.
  - reflexivity.
  - lia.
  - cbn. lia.
  - repeat constructor.
  - vm_compute. reflexivity.
Defined.
Section Lifecycle.
Context `{Platform}.

Lemma status_parse_name st : Status.parse (Status.name st) = Some st.
Proof. by destruct st. Qed.

(** [content.update({ status })] with the name of a status. *)
Lemma update_status us c st :
  Contents.update us c {[ "status" := JStr (Status.name st) ]}
  = Ok (Content.set_status (Some st) c).
Proof.
  unfold Contents.update.
  rewrite lookup_singleton_eq.
  rewrite !lookup_singleton_ne by done.
  cbn [Contents.assign nullable enum_value mbind result_bind fmap result_fmap].
  rewrite status_parse_name. reflexivity.
Qed.

(** [content.update(values)] when [values] names no attribute that can be
    overwritten. *)
Lemma update_nothing us c (values : gmap string json) :
  (∀ key, key ∈ updatable_keys → values !! key = None) →
  Contents.update us c values = Ok c.
Proof.
  intros Hnone. unfold Contents.update, updatable_keys in *.
  rewrite !Hnone by set_solver. by destruct c.
Qed.

Lemma update_publisherId us c b :
  in_int4 b = true →
  is_Some (us !! b) →
  Contents.update us c {[ "publisherId" := JNum b ]}
  = Ok (Content.mk (Content.title c) (Content.content c) (Content.type c)
          (Content.category c) (Content.tags c) (Content.status c)
          (Content.featuredImage c) (Content.videoUrl c) (Content.readTime c)
          (Content.views c) b (Content.createdAt c)).
Proof.
  intros Hrange [x Hx]. unfold Contents.update.
  rewrite lookup_singleton_eq.
  rewrite !lookup_singleton_ne by done.
  cbn [Contents.assign required Contents.references integer_value mbind result_bind].
  rewrite Hrange. cbn [mbind result_bind]. by rewrite Hx.
Qed.

(** The update route on a row of the caller, given what the ORM makes of
    the body. *)
Lemma update_content_owned env s req u k c c' :
  verified_claims env req = Some u →
  claim_role u = Some "publisher" →
  where_id (params_id req) = Some k →
  contents s !! k = Some c →
  Content.publisherId c = claim_id u →
  Contents.update (users s) c (body req) = Ok c' →
  app PUT_publisher_contents_id env s req =
  (with_contents (<[k := c']> (contents s)) s,
   respond 200 (JObj (Contents.toJSON k c'))).
Proof.
  intros Hclaims Hrole Hk Hc Howner Hupdate.
  rewrite (publisher_route_run _ env s req u); [|unfold publisher_only; auto|done..].
  cbn [handler]. unfold update_content. cbn [req_user mbind result_bind].
  rewrite (proj2 (owned_Some s _ u k c) (conj Hk (conj Hc Howner))).
  cbn [mbind result_bind]. by rewrite Hupdate.
Qed.

Lemma publish_content_owned env s req u k c :
  verified_claims env req = Some u →
  claim_role u = Some "publisher" →
  where_id (params_id req) = Some k →
  contents s !! k = Some c →
  Content.publisherId c = claim_id u →
  app PUT_publisher_contents_id_publish env s req =
  (with_contents
     (<[k := Content.set_status (Some Status.published) c]> (contents s)) s,
   respond 200
     (JObj [("message", JStr "Content published successfully");
            ("content", JObj (Contents.toJSON k
                                (Content.set_status (Some Status.published) c)))])).
Proof.
  intros Hclaims Hrole Hk Hc Howner.
  rewrite (publisher_route_run _ env s req u); [|unfold publisher_only; auto|done..].
  cbn [handler]. rewrite publish_content_run.
  by rewrite (proj2 (owned_Some s _ u k c) (conj Hk (conj Hc Howner))).
Qed.

(** Both write routes on a row that is not the caller's. *)
Lemma not_owned_404 r env s req u k :
  r = PUT_publisher_contents_id ∨ r = PUT_publisher_contents_id_publish →
  verified_claims env req = Some u →
  claim_role u = Some "publisher" →
  where_id (params_id req) = Some k →
  (∀ c, contents s !! k = Some c → Content.publisherId c ≠ claim_id u) →
  app r env s req = (s, respond 404 (error_body "Content not found")).
Proof.
  intros Hr Hclaims Hrole Hk Hother.
  assert (Hnone : owned s (params_id req) u = Ok None).
  { apply owned_None. by exists k. }
  rewrite (publisher_route_run r env s req u);
    [|unfold publisher_only; destruct Hr as [-> | ->]; auto|done..].
  destruct Hr as [-> | ->]; cbn [handler].
  - unfold update_content. cbn [req_user mbind result_bind]. by rewrite Hnone.
  - rewrite publish_content_run. by rewrite Hnone.
Qed.

(** A create that was answered 201. *)
Lemma create_201 env s req :
  res_status (app POST_publisher_contents env s req).2 = 201 →
  ∃ u c,
    verified_claims env req = Some u
    ∧ claim_role u = Some "publisher"
    ∧ contents s !! contents_id_seq s = None
    ∧ (app POST_publisher_contents env s req).1
      = with_new_content (<[contents_id_seq s := c]> (contents s))
          (contents_id_seq s + 1) s
    ∧ Content.status c = Some Status.draft
    ∧ Content.views c = Some 0
    ∧ Content.publisherId c = claim_id u.
Proof.
  assert (Hpub : publisher_only POST_publisher_contents).
  { unfold publisher_only. auto. }
  destruct (publisher_route_cases _ env s req Hpub)
    as [-> | [-> | [-> | (u & Hclaims & Hrole & ->)]]]; [done..|].
  cbn [handler]. unfold create_content. cbn [req_user mbind result_bind].
  destruct (Contents.create _ _ _ _ _ _ _ _ _ _ _ _ _) as [[id c]|m] eqn:Hcreate;
    cbn [mbind result_bind caught]; [|done].
  intros _. apply contents_create_Ok in Hcreate
    as (-> & Hseq & Hstatus & Hviews & Howner & _).
  exists u, c. done.
Qed.

(** X13: From draft to published.  An item that [POST /api/publisher/contents]
    has just created (201) is answered 404 by the public fetch and is on no
    public listing; once its creator has published it, the public fetch
    answers 200 and its first fetch leaves [views = 1].  A request names
    the item by a [:id] from which the database reads the item's key. *)
Theorem draft_until_published (env : Env) (s : Store) (req : Request) :
  res_status (app POST_publisher_contents env s req).2 = 201 →
  let id := contents_id_seq s in
  let s1 := (app POST_publisher_contents env s req).1 in
  ∃ u,
    verified_claims env req = Some u
    ∧ (∀ env' req',
         where_id (params_id req') = Some id →
         app GET_contents_id env' s1 req'
         = (s1, respond 404 (error_body "Content not found")))
    ∧ (∀ env' req',
         res_status (app GET_contents env' s1 req').2 = 200 →
         ∃ rows,
           res_body (app GET_contents env' s1 req').2
           = JArr (Contents.toJSON_with_publisher (users s1) <$> rows)
           ∧ ∀ r, r ∈ rows → r.1 ≠ id)
    ∧ (∀ env2 req2 env3 req3,
         verified_claims env2 req2 = Some u →
         where_id (params_id req2) = Some id →
         where_id (params_id req3) = Some id →
         let published := app PUT_publisher_contents_id_publish env2 s1 req2 in
         let fetched := app GET_contents_id env3 published.1 req3 in
         res_status published.2 = 200
         ∧ res_status fetched.2 = 200
         ∧ Content.views <$> contents fetched.1 !! id = Some (Some 1)).
Proof.
  intros H201 id s1.
  destruct (create_201 env s req H201)
    as (u & c & Hclaims & Hrole & Hseq & Hs1 & Hstatus & Hviews & Howner).
  assert (Hrow : contents s1 !! id = Some c).
  { unfold s1. rewrite Hs1. simpl. by rewrite lookup_insert_eq. }
  exists u. split_and!; [done|..].
  - intros env' req' Hid. unfold app. cbn [route].
    rewrite get_content_run, Hid, Hrow.
    rewrite bool_decide_eq_false_2; [done|]. by rewrite Hstatus.
  - intros env' req' H200.
    destruct (listed_rows env' s1 req' H200) as (rows & Hbody & Hrows).
    exists rows. split; [done|]. intros r Hr Hid.
    destruct (Hrows r Hr) as (Hr_row & Hpublished & _).
    rewrite Hid, Hrow in Hr_row. injection Hr_row as Heq.
    rewrite <- Heq in Hpublished. congruence.
  - intros env2 req2 env3 req3 Hclaims2 Hid2 Hid3 published fetched.
    assert (Hpublished : published =
      (with_contents
         (<[id := Content.set_status (Some Status.published) c]> (contents s1)) s1,
       respond 200
         (JObj [("message", JStr "Content published successfully");
                ("content", JObj (Contents.toJSON id
                   (Content.set_status (Some Status.published) c)))]))).
    { unfold published.
      by apply (publish_content_owned env2 s1 req2 u id c). }
    unfold fetched. rewrite Hpublished. cbn [fst snd].
    unfold app. cbn [route]. rewrite get_content_run, Hid3.
    cbn [with_contents contents]. rewrite lookup_insert_eq.
    rewrite bool_decide_eq_true_2 by done.
    cbn [fst snd with_contents contents res_status respond].
    unfold Contents.increment_views.
    cbn [Content.views Content.set_status]. rewrite Hviews.
    change (in_int4 (0 + 1)) with true. cbn [fst snd with_contents contents res_status respond].
    rewrite lookup_insert_eq. done.
Qed.

(** X14: The status is an ordinary attribute.  Through the update route the
    owner can store any of the three statuses; an item that the owner sets
    back to [draft] or to [archived] is answered 404 by the public fetch
    from then on.  A request names the item by a [:id] from which the
    database reads the item's key. *)
Theorem status_is_writable (env : Env) (s : Store) (req : Request) (u : Claims)
    (k : Z) (c : Content.t) (st : Status.t) :
  verified_claims env req = Some u →
  claim_role u = Some "publisher" →
  where_id (params_id req) = Some k →
  contents s !! k = Some c →
  Content.publisherId c = claim_id u →
  body req = {[ "status" := JStr (Status.name st) ]} →
  let s1 := (app PUT_publisher_contents_id env s req).1 in
  res_status (app PUT_publisher_contents_id env s req).2 = 200
  ∧ s1 = with_contents (<[k := Content.set_status (Some st) c]> (contents s)) s
  ∧ (st ≠ Status.published →
     ∀ env' req',
       where_id (params_id req') = Some k →
       app GET_contents_id env' s1 req'
       = (s1, respond 404 (error_body "Content not found"))).
Proof.
  intros Hclaims Hrole Hk Hc Howner Hbody s1.
  assert (Hrun := update_content_owned env s req u k c
                    (Content.set_status (Some st) c) Hclaims Hrole Hk Hc Howner).
  rewrite Hbody, update_status in Hrun. specialize (Hrun eq_refl).
  unfold s1. rewrite Hrun. split_and!; [done|done|].
  intros Hst env' req' Hid. unfold app. cbn [route fst].
  rewrite get_content_run, Hid. cbn [with_contents contents].
  rewrite lookup_insert_eq. rewrite bool_decide_eq_false_2; [done|].
  cbn. congruence.
Qed.

(** X15: Keys that are not attributes are dropped.  An update of an owned
    row, named by a [:id] from which the database reads its key, whose body
    names none of the eleven attributes that can be overwritten (an empty
    body, an [id], a [createdAt], any unknown key) is answered 200 with the
    row as it is and changes nothing. *)
Theorem update_ignores_other_keys (env : Env) (s : Store) (req : Request)
    (u : Claims) (k : Z) (c : Content.t) :
  verified_claims env req = Some u →
  claim_role u = Some "publisher" →
  where_id (params_id req) = Some k →
  contents s !! k = Some c →
  Content.publisherId c = claim_id u →
  (∀ key, key ∈ updatable_keys → body req !! key = None) →
  app PUT_publisher_contents_id env s req
  = (s, respond 200 (JObj (Contents.toJSON k c))).
Proof.
  intros Hclaims Hrole Hk Hc Howner Hkeys.
  rewrite (update_content_owned env s req u k c c); try done.
  - by rewrite insert_id, with_contents_same.
  - by apply update_nothing.
Qed.

(** X16: Ownership can be given away.  The owner's update with
    [{ publisherId: b }], [b] being another user's id within the range of
    [INTEGER], is answered 200; from then on the former owner's update and
    publish of that row are answered 404, and a publisher whose token
    carries [b] can publish it.  A request names the row by a [:id] from
    which the database reads the row's key. *)
Theorem ownership_transfer (env : Env) (s : Store) (req : Request)
    (u : Claims) (k : Z) (c : Content.t) (b : Z) :
  verified_claims env req = Some u →
  claim_role u = Some "publisher" →
  where_id (params_id req) = Some k →
  contents s !! k = Some c →
  Content.publisherId c = claim_id u →
  body req = {[ "publisherId" := JNum b ]} →
  in_int4 b = true →
  is_Some (users s !! b) →
  b ≠ claim_id u →
  let s1 := (app PUT_publisher_contents_id env s req).1 in
  res_status (app PUT_publisher_contents_id env s req).2 = 200
  ∧ Content.publisherId <$> contents s1 !! k = Some b
  ∧ (∀ r env' req',
       r = PUT_publisher_contents_id ∨ r = PUT_publisher_contents_id_publish →
       verified_claims env' req' = Some u →
       where_id (params_id req') = Some k →
       app r env' s1 req' = (s1, respond 404 (error_body "Content not found")))
  ∧ (∀ env' req' v,
       verified_claims env' req' = Some v →
       claim_role v = Some "publisher" →
       claim_id v = b →
       where_id (params_id req') = Some k →
       res_status (app PUT_publisher_contents_id_publish env' s1 req').2 = 200).
Proof.
  intros Hclaims Hrole Hk Hc Howner Hbody Hrange Hb Hne s1.
  set (c1 := Content.mk (Content.title c) (Content.content c) (Content.type c)
               (Content.category c) (Content.tags c) (Content.status c)
               (Content.featuredImage c) (Content.videoUrl c) (Content.readTime c)
               (Content.views c) b (Content.createdAt c)).
  assert (Hrun := update_content_owned env s req u k c c1 Hclaims Hrole Hk Hc Howner).
  rewrite Hbody in Hrun. specialize (Hrun (update_publisherId _ c b Hrange Hb)).
  assert (Hrow : contents s1 !! k = Some c1).
  { unfold s1. rewrite Hrun. simpl. by rewrite lookup_insert_eq. }
  split_and!.
  - by rewrite Hrun.
  - by rewrite Hrow.
  - intros r env' req' Hr Hclaims' Hid.
    apply (not_owned_404 r env' s1 req' u k Hr Hclaims' Hrole Hid).
    intros c' Hc'. rewrite Hrow in Hc'. injection Hc' as <-. done.
  - intros env' req' v Hclaims' Hrole' Hv Hid.
    by rewrite (publish_content_owned env' s1 req' v k c1).
Qed.

(** X17: A token without a user cannot create.  When no stored user has the
    id that a verified publisher token carries, [POST
    /api/publisher/contents] is answered 500 whatever the body is, and no
    row is stored: [publisherId] references [users]. *)
Theorem create_needs_stored_publisher (env : Env) (s : Store) (req : Request)
    (u : Claims) :
  verified_claims env req = Some u →
  claim_role u = Some "publisher" →
  users s !! claim_id u = None →
  users (app POST_publisher_contents env s req).1 = users s
  ∧ contents (app POST_publisher_contents env s req).1 = contents s
  ∧ res_status (app POST_publisher_contents env s req).2 = 500.
Proof.
  intros Hclaims Hrole Hnone.
  rewrite (publisher_route_run _ env s req u); [|unfold publisher_only; auto|done..].
  cbn [handler]. unfold create_content. cbn [req_user mbind result_bind].
  destruct (Contents.create _ _ _ _ _ _ _ _ _ _ _ _ _) as [[id c]|m] eqn:Hcreate;
    cbn [mbind result_bind caught]; [|done].
  pose proof (contents_create_references _ _ _ _ _ _ _ _ _ _ _ _ _ _ _ Hcreate) as Hfk.
  apply contents_create_Ok in Hcreate as (_ & _ & _ & _ & Howner & _).
  rewrite Howner, Hnone in Hfk. by destruct Hfk.
Qed.

End Lifecycle.

Section Sessions.
Context `{Platform}.

Lemma users_create_email tbl seq t0 un em pw ro id u :
  Users.create tbl seq t0 un em pw ro = Ok (id, u) →
  required "User.email" string_value em = Ok (User.email u).
Proof.
  unfold Users.create. intros Hc.
  destruct (required "User.username" _ _) as [n|]; cbn [mbind result_bind] in Hc; [|done].
  destruct (required "User.email" _ _) as [e|]; cbn [mbind result_bind] in Hc; [|done].
  destruct (with_default _ _ _) as [r|]; cbn [mbind result_bind] in Hc; [|done].
  destruct (existsb _ _); [done|]. destruct (tbl !! seq); [done|].
  by injection Hc as <- <-.
Qed.

(** A registration that was answered 201: the email is a string that the
    column takes, cut to 255 characters when blanks follow. *)
Lemma register_201 env s req :
  res_status (app POST_register env s req).2 = 201 →
  ∃ e p u,
    body req !! "email" = Some (JStr e)
    ∧ varchar e = Ok (User.email u)
    ∧ body req !! "password" = Some (JStr p)
    ∧ (∀ k x, users s !! k = Some x → User.email x ≠ e)
    ∧ (∀ k x, users s !! k = Some x → User.email x ≠ User.email u)
    ∧ users s !! users_id_seq s = None
    ∧ User.password u = bcrypt_hash p (salt env)
    ∧ app POST_register env s req =
      (with_users (<[users_id_seq s := u]> (users s)) (users_id_seq s + 1) s,
       respond 201 (session "User registered successfully" env (users_id_seq s) u)).
Proof.
  unfold app. cbn [route]. unfold register.
  destruct (where_string _) as [same|] eqn:Hwhere;
    cbn [mbind result_bind caught]; [|done].
  destruct (Users.findOne _ _) eqn:Hfind; [done|].
  unfold hash.
  destruct (body req !! "password") as [[| | | |p| |]|] eqn:Hp;
    cbn [mbind result_bind caught]; try done.
  destruct (Users.create _ _ _ _ _ _ _) as [[id u]|] eqn:Hcreate;
    cbn [mbind result_bind caught]; [|done].
  intros _.
  pose proof (users_create_email _ _ _ _ _ _ _ _ _ Hcreate) as Hemail.
  pose proof (users_create_Ok _ _ _ _ _ _ _ _ _ Hcreate) as (_ & _ & Hpw & _).
  apply users_create_free in Hcreate as (-> & Hseq & Hfree).
  destruct (body req !! "email") as [[| | | |e| |]|]; try done.
  cbn [required string_value scalar_text] in Hemail.
  pose proof (varchar_Ok _ _ Hemail) as Hclean.
  cbn [where_string] in Hwhere. rewrite (sql_literal_clean e Hclean) in Hwhere.
  injection Hwhere as <-.
  exists e, p, u. split_and!; try done.
  intros k x Hk. rewrite users_findOne_None in Hfind.
  specialize (Hfind k x Hk). cbn beta in Hfind. by apply eqb_email_false in Hfind.
Qed.

(** The login of the only user that has an email. *)
Lemma login_of env s req k u p :
  body req !! "email" = Some (JStr (User.email u)) →
  has_nul (User.email u) = false →
  body req !! "password" = Some (JStr p) →
  users s !! k = Some u →
  (∀ k' x, users s !! k' = Some x → User.email x = User.email u → k' = k) →
  app POST_login env s req =
  (s, if bcrypt_compare p (User.password u)
      then respond 200 (session "Login successful" env k u)
      else respond 400 (error_body "Invalid credentials")).
Proof.
  intros Hemail Hclean Hp Hk Hunique. unfold app. cbn [route].
  rewrite (login_run env s req _ _ Hemail (sql_literal_clean _ Hclean)).
  destruct (Users.findOne _ _) as [[k0 u0]|] eqn:Hfind.
  - apply users_findOne_Some in Hfind as [Hk0 Hu0].
    apply eqb_email_true in Hu0.
    assert (k0 = k) as -> by eauto.
    assert (u0 = u) as -> by congruence.
    rewrite Hp. cbn [compare]. by destruct (bcrypt_compare _ _).
  - rewrite users_findOne_None in Hfind. specialize (Hfind k u Hk).
    simpl in Hfind. apply eqb_email_false in Hfind. done.
Qed.

Lemma substring_length_le m s : (String.length (substring 0 m s) ≤ m)%nat.
Proof.
  revert s. induction m as [|m IH]; intros [|c s]; cbn [substring String.length];
    try lia.
  specialize (IH s). lia.
Qed.

(** What the column stores of an email is the email itself when it has at
    most 255 characters, and a shorter text otherwise. *)
Lemma varchar_stored e x :
  varchar e = Ok x →
  ((String.length e ≤ 255)%nat → x = e)
  ∧ ((255 < String.length e)%nat → x ≠ e).
Proof.
  unfold varchar. destruct (has_nul e); [done|].
  destruct (Nat.leb_spec (String.length e) 255) as [Hle|Hgt].
  - intros [= <-]. split; [done|lia].
  - destruct (blank _); [|done]. intros [= <-]. split; [lia|].
    intros _ Heq. pose proof (substring_length_le 255 e) as Hcut.
    rewrite Heq in Hcut. lia.
Qed.

(** X18: Register, then log in.  After a registration that was answered 201
    with an email of at most 255 characters, a login with the same email
    and password is answered 200 with a token signed over the same id,
    username and role as the token of the registration, provided
    [bcrypt.compare] accepts the digest that [bcrypt.hash] made of that
    password; with a password that [bcrypt.compare] refuses it is answered
    400.  A longer email was cut to 255 characters when it was stored, and
    a login with the email as it was registered is answered 400 whatever
    the password is. *)
Theorem register_then_login (env env' : Env) (s : Store) (req req' : Request) :
  res_status (app POST_register env s req).2 = 201 →
  body req' !! "email" = body req !! "email" →
  let s1 := (app POST_register env s req).1 in
  ∃ id u e p,
    users s1 !! id = Some u
    ∧ body req !! "email" = Some (JStr e)
    ∧ body req !! "password" = Some (JStr p)
    ∧ res_body (app POST_register env s req).2
      = session "User registered successfully" env id u
    ∧ ((String.length e ≤ 255)%nat →
       User.email u = e
       ∧ (body req' !! "password" = Some (JStr p) →
          bcrypt_compare p (bcrypt_hash p (salt env)) = true →
          app POST_login env' s1 req'
          = (s1, respond 200 (session "Login successful" env' id u)))
       ∧ (∀ q, body req' !! "password" = Some (JStr q) →
               bcrypt_compare q (bcrypt_hash p (salt env)) = false →
               app POST_login env' s1 req'
               = (s1, respond 400 (error_body "Invalid credentials"))))
    ∧ ((255 < String.length e)%nat →
       app POST_login env' s1 req'
       = (s1, respond 400 (error_body "Invalid credentials"))).
Proof.
  intros H201 Hsame s1.
  destruct (register_201 env s req H201)
    as (e & p & u & Hemail & Hstored & Hp & Hnew & Hfree & Hseq & Hpw & Hrun).
  pose proof (varchar_Ok _ _ Hstored) as Hclean.
  destruct (varchar_stored _ _ Hstored) as [Hshort Hlong].
  assert (Hrow : users s1 !! users_id_seq s = Some u).
  { unfold s1. rewrite Hrun. simpl. by rewrite lookup_insert_eq. }
  assert (Hunique : ∀ k' x, users s1 !! k' = Some x →
                            User.email x = User.email u → k' = users_id_seq s).
  { intros k' x Hk' Hx. unfold s1 in Hk'. rewrite Hrun in Hk'. simpl in Hk'.
    destruct (decide (k' = users_id_seq s)) as [->|Hne]; [done|].
    rewrite lookup_insert_ne in Hk' by done. by destruct (Hfree k' x Hk'). }
  exists (users_id_seq s), u, e, p.
  split_and!; [done|done|done|by rewrite Hrun|..].
  - intros Hlen. specialize (Hshort Hlen). split_and!; [done|..].
    + intros Hp' Hgood.
      rewrite (login_of env' s1 req' (users_id_seq s) u p);
        [|congruence|congruence|done..].
      by rewrite Hpw, Hgood.
    + intros q Hq Hbad.
      rewrite (login_of env' s1 req' (users_id_seq s) u q);
        [|congruence|congruence|done..].
      by rewrite Hpw, Hbad.
  - intros Hlen. specialize (Hlong Hlen). unfold app. cbn [route].
    rewrite (login_run env' s1 req' e e); [|congruence|by apply sql_literal_clean].
    destruct (Users.findOne _ _) as [[k0 u0]|] eqn:Hfind; [|done].
    apply users_findOne_Some in Hfind as [Hk0 Hu0].
    apply eqb_email_true in Hu0.
    unfold s1 in Hk0. rewrite Hrun in Hk0. simpl in Hk0.
    destruct (decide (k0 = users_id_seq s)) as [->|Hne].
    + rewrite lookup_insert_eq in Hk0. by simplify_eq.
    + rewrite lookup_insert_ne in Hk0 by done. by destruct (Hnew k0 u0 Hk0).
Qed.

(** [User.create] of the default publisher succeeds or fails whatever the
    digest is. *)
Lemma create_admin tbl seq t0 digest :
  Users.create tbl seq t0 (Some (JStr "admin")) (Some (JStr "admin@news.com"))
    digest (Some (JStr "publisher"))
  = if existsb (λ x : Z * User.t, String.eqb (User.email x.2) "admin@news.com")
         (map_to_list tbl)
    then Err "Validation error"
    else match tbl !! seq with
         | Some _ => Err "duplicate key value violates unique constraint"
         | None =>
             Ok (seq, User.mk "admin" "admin@news.com" digest
                        (Some Role.publisher) (JObj []) t0 t0)
         end.
Proof. reflexivity. Qed.

Lemma email_taken tbl e :
  (∃ k u, tbl !! k = Some u ∧ User.email u = e) →
  existsb (λ x : Z * User.t, String.eqb (User.email x.2) e) (map_to_list tbl) = true.
Proof.
  intros (k & u & Hk & Hu). apply existsb_exists. exists (k, u). split.
  - by apply list_elem_of_In, elem_of_map_to_list.
  - by apply String.eqb_eq.
Qed.

Lemma no_publisher s :
  (∀ k u, users s !! k = Some u → User.role u ≠ Some Role.publisher) →
  Users.findOne (users s) (λ u, bool_decide (User.role u = Some Role.publisher)) = None.
Proof.
  intros Hnone. apply users_findOne_None. intros k u Hk.
  apply bool_decide_eq_false. eauto.
Qed.

Lemma some_publisher s :
  (∃ k u, users s !! k = Some u ∧ User.role u = Some Role.publisher) →
  is_Some (Users.findOne (users s)
             (λ u, bool_decide (User.role u = Some Role.publisher))).
Proof.
  intros (k & u & Hk & Hu).
  destruct (Users.findOne _ _) as [found|] eqn:Hfind; [eauto|].
  rewrite users_findOne_None in Hfind. specialize (Hfind k u Hk).
  apply bool_decide_eq_false in Hfind. done.
Qed.

(** X19: What the bootstrap seeds.  With a publisher already stored the
    bootstrap changes nothing.  Without one it stores the user [admin],
    [admin@news.com], role [publisher], with the digest of [publisher123],
    under the next id, when that email is free; when the email is held by
    a user who is not a publisher it stores no row and the database still
    has no publisher. *)
Theorem bootstrap_outcome (env : Env) (s : Store) :
  ((∃ k u, users s !! k = Some u ∧ User.role u = Some Role.publisher) →
   syncDatabase env s = s)
  ∧ ((∀ k u, users s !! k = Some u → User.role u ≠ Some Role.publisher) →
     (∀ k u, users s !! k = Some u → User.email u ≠ "admin@news.com") →
     users s !! users_id_seq s = None →
     syncDatabase env s =
     with_users
       (<[users_id_seq s :=
            User.mk "admin" "admin@news.com" (bcrypt_hash "publisher123" (salt env))
              (Some Role.publisher) (JObj []) (now env) (now env)]> (users s))
       (users_id_seq s + 1) s)
  ∧ ((∀ k u, users s !! k = Some u → User.role u ≠ Some Role.publisher) →
     (∃ k u, users s !! k = Some u ∧ User.email u = "admin@news.com") →
     users (syncDatabase env s) = users s
     ∧ contents (syncDatabase env s) = contents s).
Proof.
  split_and!.
  - intros Hsome. unfold syncDatabase.
    by destruct (some_publisher s Hsome) as [found ->].
  - intros Hnone Hfree Hseq. unfold syncDatabase.
    rewrite (no_publisher s Hnone), create_admin, (email_free _ _ Hfree), Hseq.
    done.
  - intros Hnone Htaken.
    assert (syncDatabase env s = s) as ->; [|done].
    unfold syncDatabase.
    by rewrite (no_publisher s Hnone), create_admin, (email_taken _ _ Htaken).
Qed.

(** X20: The bootstrap is idempotent.  On a database whose user sequence
    is ahead of the ids in use, the bootstrap run again, at another time
    and with another salt, on the database that it left, stores no further
    row: a server that is restarted seeds at most one default publisher. *)
Theorem bootstrap_idempotent (env1 env2 : Env) (s : Store) :
  map_Forall (λ k _, k < users_id_seq s) (users s) →
  users (syncDatabase env2 (syncDatabase env1 s)) = users (syncDatabase env1 s)
  ∧ contents (syncDatabase env2 (syncDatabase env1 s))
    = contents (syncDatabase env1 s).
Proof.
  intros Hahead.
  assert (Hfree : users s !! users_id_seq s = None).
  { destruct (users s !! users_id_seq s) as [u|] eqn:Hseq; [|done].
    specialize (Hahead _ _ Hseq). simpl in Hahead. lia. }
  assert (syncDatabase env2 (syncDatabase env1 s) = syncDatabase env1 s) as ->;
    [|done].
  unfold syncDatabase at 2 3.
  destruct (Users.findOne (users s) _) as [found|] eqn:Hfind.
  - unfold syncDatabase. by rewrite Hfind.
  - rewrite create_admin, Hfree.
    destruct (existsb _ _) eqn:Htaken.
    + unfold syncDatabase. by rewrite Hfind, create_admin, Htaken.
    + unfold syncDatabase.
      destruct (some_publisher
                  (with_users
                     (<[users_id_seq s :=
                          User.mk "admin" "admin@news.com"
                            (bcrypt_hash "publisher123" (salt env1))
                            (Some Role.publisher) (JObj [])
                            (now env1) (now env1)]> (users s))
                     (users_id_seq s + 1) s)) as [found Hfound].
      { eexists _, _. simpl. by rewrite lookup_insert_eq. }
      by rewrite Hfound.
Qed.

(** X21: The seeded publisher can log in.  On the database that the bootstrap
    leaves when it seeds the default publisher, a login with
    [admin@news.com] and [publisher123] is answered 200 with a token whose
    role is [publisher], provided [bcrypt.compare] accepts the digest that
    [bcrypt.hash] made of that password. *)
Theorem seeded_publisher_logs_in (env env' : Env) (s : Store) (req : Request) :
  (∀ k u, users s !! k = Some u → User.role u ≠ Some Role.publisher) →
  (∀ k u, users s !! k = Some u → User.email u ≠ "admin@news.com") →
  users s !! users_id_seq s = None →
  bcrypt_compare "publisher123" (bcrypt_hash "publisher123" (salt env)) = true →
  body req !! "email" = Some (JStr "admin@news.com") →
  body req !! "password" = Some (JStr "publisher123") →
  app POST_login env' (syncDatabase env s) req =
  (syncDatabase env s,
   respond 200
     (JObj [("message", JStr "Login successful");
            ("token", JStr (jwt_sign (mkClaims (users_id_seq s) "admin" (Some "publisher"))
                              JWT_SECRET (now env')));
            ("user", JObj [("id", JNum (users_id_seq s)); ("username", JStr "admin");
                           ("email", JStr "admin@news.com");
                           ("role", JStr "publisher")])])).
Proof.
  intros Hnone Hfree Hseq Hgood Hemail Hp.
  set (admin := User.mk "admin" "admin@news.com"
                  (bcrypt_hash "publisher123" (salt env))
                  (Some Role.publisher) (JObj []) (now env) (now env)).
  assert (Hsync : syncDatabase env s =
                  with_users (<[users_id_seq s := admin]> (users s))
                    (users_id_seq s + 1) s).
  { unfold syncDatabase.
    by rewrite (no_publisher s Hnone), create_admin, (email_free _ _ Hfree), Hseq. }
  rewrite Hsync.
  rewrite (login_of env' _ req (users_id_seq s) admin "publisher123");
    [|done|done|done|simpl; by rewrite lookup_insert_eq|].
  - cbn [User.password admin]. by rewrite Hgood.
  - intros k' x Hk' Hx. simpl in Hk'.
    destruct (decide (k' = users_id_seq s)) as [->|Hne]; [done|].
    rewrite lookup_insert_ne in Hk' by done. by destruct (Hfree k' x Hk').
Qed.

End Sessions.

Section Authorisation.
Context `{Platform}.

Lemma users_create_role tbl seq t0 un em pw ro id u :
  Users.create tbl seq t0 un em pw ro = Ok (id, u) →
  with_default Role.user (enum_value Role.parse) ro = Ok (User.role u).
Proof.
  unfold Users.create. intros Hc.
  destruct (required "User.username" _ _) as [n|]; cbn [mbind result_bind] in Hc; [|done].
  destruct (required "User.email" _ _) as [e|]; cbn [mbind result_bind] in Hc; [|done].
  destruct (with_default _ _ _) as [r|]; cbn [mbind result_bind] in Hc; [|done].
  destruct (existsb _ _); [done|]. destruct (tbl !! seq); [done|].
  by injection Hc as <- <-.
Qed.

Lemma claims_role_publisher id u :
  claim_role (Users.claims id u) = Some "publisher" ↔
  User.role u = Some Role.publisher.
Proof.
  unfold Users.claims. cbn [claim_role].
  destruct (User.role u) as [[]|]; cbn; split; intros Heq; by simplify_eq.
Qed.

(** X23: The token of a registration.  After a registration that was
    answered 201, a request that carries [Bearer <token>] with the token of
    that answer, and whose token [jwt.verify] accepts with the claims that
    were signed, is served as the registered user: the profile route
    answers with that user's record less the password; the publisher-only
    routes run their handler when the registration asked for the role
    [publisher], and answer 403 when it asked for no role. *)
Theorem registered_token_authorises (env env2 : Env) (s : Store) (req req2 : Request) :
  res_status (app POST_register env s req).2 = 201 →
  let s1 := (app POST_register env s req).1 in
  ∃ id u token,
    users s1 !! id = Some u
    ∧ res_body (app POST_register env s req).2
      = JObj [("message", JStr "User registered successfully");
              ("token", JStr token); ("user", Users.public_fields id u)]
    ∧ (body req !! "role" = Some (JStr "publisher") →
       User.role u = Some Role.publisher)
    ∧ (body req !! "role" = None → User.role u = Some Role.user)
    ∧ (authorization req2 = Some ("Bearer " +:+ token) →
       token ≠ "" → spaceless token = true →
       jwt_verify token JWT_SECRET (now env2) = Some (Users.claims id u) →
       app GET_profile env2 s1 req2 = (s1, respond 200 (Users.without_password id u))
       ∧ (∀ r, publisher_only r → User.role u = Some Role.publisher →
               app r env2 s1 req2 = handler r env2 s1 req2 (Some (Users.claims id u)))
       ∧ (∀ r, publisher_only r → User.role u ≠ Some Role.publisher →
               app r env2 s1 req2
               = (s1, respond 403 (error_body "Publisher access required")))).
Proof.
  intros H201 s1.
  assert (Hrole : ∃ p u,
    app POST_register env s req =
      (with_users (<[users_id_seq s := u]> (users s)) (users_id_seq s + 1) s,
       respond 201 (session "User registered successfully" env (users_id_seq s) u))
    ∧ body req !! "password" = Some (JStr p)
    ∧ with_default Role.user (enum_value Role.parse)
        (Some (default (JStr "user") (body req !! "role"))) = Ok (User.role u)).
  { revert H201. unfold app. cbn [route]. unfold register.
    destruct (where_string _) as [same|]; cbn [mbind result_bind caught]; [|done].
    destruct (Users.findOne _ _); [done|].
    unfold hash.
    destruct (body req !! "password") as [[| | | |p| |]|] eqn:Hp;
      cbn [mbind result_bind caught]; try done.
    destruct (Users.create _ _ _ _ _ _ _) as [[id u]|] eqn:Hcreate;
      cbn [mbind result_bind caught]; [|done].
    intros _. pose proof (users_create_role _ _ _ _ _ _ _ _ _ Hcreate) as Hr.
    apply users_create_free in Hcreate as (-> & _ & _). eauto. }
  destruct Hrole as (p & u & Hrun & Hp & Hr).
  set (id := users_id_seq s) in *.
  assert (Hrow : users s1 !! id = Some u).
  { unfold s1. rewrite Hrun. simpl. by rewrite lookup_insert_eq. }
  exists id, u, (jwt_sign (Users.claims id u) JWT_SECRET (now env)).
  split_and!; [done|by rewrite Hrun| | |].
  - intros Hbody. rewrite Hbody in Hr. cbn in Hr. by injection Hr as <-.
  - intros Hbody. rewrite Hbody in Hr. cbn in Hr. by injection Hr as <-.
  - intros Hauth Hne Hspaceless Hverify.
    assert (Hclaims : verified_claims env2 req2 = Some (Users.claims id u)).
    { unfold verified_claims.
      by rewrite (bearer_token_Bearer req2 _ Hauth Hne Hspaceless). }
    split_and!.
    + unfold app. cbn [route]. rewrite authenticateToken_unfold.
      rewrite (bearer_token_Bearer req2 _ Hauth Hne Hspaceless), Hclaims.
      unfold profile. cbn [req_user mbind result_bind caught].
      unfold Users.findByPk. cbn [claim_id Users.claims]. by rewrite Hrow.
    + intros r Hr' Hpublisher.
      apply publisher_route_run; [done|done|]. by apply claims_role_publisher.
    + intros r Hr' Hother. unfold app.
      rewrite (publisher_route r Hr'), (guarded_run _ _ _ _ _ Hclaims).
      rewrite bool_decide_eq_false_2; [done|]. by rewrite claims_role_publisher.
Qed.

End Authorisation.
(** * The further properties at work on the sample database *)

(** The database stays consistent through a registration and a post. *)
Lemma consistent_witness :
  consistent
    (serve (H := Sample.platform)
       [(POST_register, Sample.env, Run.register_alice);
        (POST_publisher_contents, Sample.env,
         Sample.request Run.alice_auth ""
           {[ "title" := JStr "Title"; "content" := JStr "Text";
              "type" := JStr "article" ]})]
       Sample.empty).1.
Proof.
  apply (consistent_always (H := Sample.platform) Sample.env).
  by split_and!.
Defined.

(** Bob is still stored after alice has published and a reader has read. *)
Lemma rows_persist_witness :
  users (serve (H := Sample.platform)
           [(PUT_publisher_contents_id_publish, Sample.env,
             Sample.request Run.alice_auth "1" ∅);
            (GET_contents_id, Sample.env, Sample.request None "2" ∅)]
           Sample.store).1 !! 2
  = Some Sample.bob.
Proof.
  apply (rows_persist (H := Sample.platform)). vm_compute. reflexivity.
Defined.

(** The fetch of a draft is an error and changes nothing. *)
Lemma errors_witness :
  contents (app (H := Sample.platform) GET_contents_id Sample.env Sample.store
              (Sample.request None "1" ∅)).1
  = contents Sample.store.
Proof.
  destruct (errors_change_nothing (H := Sample.platform) GET_contents_id
              Sample.env Sample.store (Sample.request None "1" ∅))
    as (_ & Hcontents & _); [|exact Hcontents].
  vm_compute. discriminate.
Defined.

Lemma read_only_witness :
  (app (H := Sample.platform) POST_login Sample.env Sample.store
     (Run.login_dave "pw4")).1 = Sample.store.
Proof.
  apply (read_only_routes (H := Sample.platform)). unfold read_only. auto.
Defined.

Lemma token_witness :
  spaceless "token-of-alice" = true.
Proof.
  destruct (token_is_second_word (Sample.request Run.alice_auth "" ∅)
              "token-of-alice") as (_ & Hspaceless & _); [|exact Hspaceless].
  vm_compute. reflexivity.
Defined.

Lemma any_scheme_witness :
  bearer_token (Sample.request (Some "Basic token-of-alice") "" ∅)
  = Some "token-of-alice".
Proof.
  destruct (any_scheme_is_accepted
              (Sample.request (Some "Basic token-of-alice") "" ∅)
              "Basic" "token-of-alice") as [Hshort _];
    [reflexivity|reflexivity|discriminate|].
  apply Hshort. reflexivity.
Defined.

(** Bob, a plain user, reads his own profile. *)
Lemma profile_witness :
  app (H := Sample.platform) GET_profile Sample.env Sample.store
    (Sample.request (Some "Bearer token-of-bob") "" ∅)
  = (Sample.store, respond 200 (Users.without_password 2 Sample.bob)).
Proof.
  destruct (profile_of_any_role (H := Sample.platform) Sample.env Sample.store
              (Sample.request (Some "Bearer token-of-bob") "" ∅)) as (_ & _ & Hany).
  rewrite (Hany (mkClaims 2 "bob" (Some "user"))); [|vm_compute; reflexivity]. vm_compute. reflexivity.
Defined.

(** Alice lists her own two rows. *)
Lemma own_listing_witness :
  res_status (app (H := Sample.platform) GET_publisher_contents Sample.env
                Sample.store (Sample.request Run.alice_auth "" ∅)).2 = 200.
Proof.
  destruct (own_listing (H := Sample.platform) Sample.env Sample.store
              (Sample.request Run.alice_auth "" ∅)
              (mkClaims 1 "alice" (Some "publisher")))
    as (rows & -> & _); [vm_compute; reflexivity|reflexivity|reflexivity].
Defined.

(** Every row of the default listing of the sample database can be
    fetched while its counter has room. *)
Lemma listed_witness :
  ∃ rows,
    res_body (app (H := Sample.platform) GET_contents Sample.env Sample.store
                (Sample.request None "" ∅)).2
    = JArr (Contents.toJSON_with_publisher (users Sample.store) <$> rows)
    ∧ (∀ r env' req',
         r ∈ rows → where_id (H := Sample.platform) (params_id req') = Some r.1 →
         (∀ v, Content.views r.2 = Some v → -2147483648 ≤ v < 2147483647) →
         res_status (app (H := Sample.platform) GET_contents_id env'
                       Sample.store req').2 = 200)
    ∧ (∀ r env' req',
         r ∈ rows → where_id (H := Sample.platform) (params_id req') = Some r.1 →
         Content.views r.2 = Some 2147483647 →
         app (H := Sample.platform) GET_contents_id env' Sample.store req'
         = (Sample.store, respond 500 (error_body "integer out of range"))).
Proof.
  apply (listed_is_fetchable (H := Sample.platform)). vm_compute. reflexivity.
Defined.

Lemma unknown_type_witness :
  res_status
    (app (H := Sample.platform) GET_contents Sample.env Sample.store
       (mkRequest None "" (mkQuery (Some "podcast") None None None) ∅)).2 = 500.
Proof.
  apply (unknown_type_is_500 (H := Sample.platform) Sample.env Sample.store
           (mkRequest None "" (mkQuery (Some "podcast") None None None) ∅)
           "podcast"); [reflexivity|discriminate|reflexivity].
Defined.

(** Two rows a page, the three published items of the library fill two
    pages: the first page has the first two rows of the list, the second
    page the third, and no row is on both. *)
Lemma pages_witness :
  let q page := mkQuery None None page (Some "2") in
  let run page :=
    app (H := Sample.platform) GET_contents Sample.env Sample.library
      (mkRequest None "" (q (Some page)) ∅) in
  ∃ all,
    (∀ r, r ∈ all ↔
          contents Sample.library !! r.1 = Some r.2
          ∧ asked_for (H := Sample.platform) (q None) r.2)
    ∧ run "1"
      = (Sample.library,
         respond 200
           (JArr (Contents.toJSON_with_publisher (users Sample.library) <$>
                    take 2 all)))
    ∧ run "2"
      = (Sample.library,
         respond 200
           (JArr (Contents.toJSON_with_publisher (users Sample.library) <$>
                    take 2 (drop 2 all))))
    ∧ all !! 2%nat = take 2 (drop 2 all) !! 0%nat
    ∧ ∀ r, r ∈ take 2 all → r ∉ take 2 (drop 2 all).
Proof.
  intros q run.
  destruct (pages_partition (H := Sample.platform) Sample.env Sample.library
              None None "2" 2)
    as (all & _ & Hin & Hpages & Hposition & Hdisjoint).
  - vm_compute. reflexivity.
  - lia.
  - intros t Ht. vm_compute in Ht. discriminate Ht.
  - intros x Hx. vm_compute in Hx. discriminate Hx.
  - assert (Hdated : map_Forall (λ k c, Content.createdAt c = 100 * k)
                       (contents Sample.library))
      by (apply (bool_decide_unpack
                   (map_Forall (λ k c, Content.createdAt c = 100 * k)
                      (contents Sample.library))); vm_compute; exact I).
    intros k k' c c' Hk Hk' _ _ Hsame.
    pose proof (Hdated k c Hk) as Hc. pose proof (Hdated k' c' Hk') as Hc'.
    cbn beta in Hc, Hc'. lia.
  - exists all. split_and!.
    + exact Hin.
    + apply (Hpages "1" 1 None "" ∅). vm_compute. reflexivity.
    + apply (Hpages "2" 2 None "" ∅). vm_compute. reflexivity.
    + destruct (all !! 2%nat) as [r|] eqn:Hr.
      * symmetry. exact (Hposition 2%nat r Hr).
      * symmetry. apply lookup_ge_None_2. apply lookup_ge_None_1 in Hr.
        rewrite length_take, length_drop. lia.
    + intros r Hfirst Hsecond.
      pose proof (Hdisjoint 1 2 r ltac:(lia) ltac:(lia) Hfirst Hsecond). lia.
Defined.

(** Carol's new item is hidden from the public until she publishes it. *)
Lemma draft_witness :
  app (H := Sample.platform) GET_contents_id Sample.env
    (app (H := Sample.platform) POST_publisher_contents Sample.env Sample.store
       Run.post_budget).1
    (Sample.request None "4" ∅)
  = ((app (H := Sample.platform) POST_publisher_contents Sample.env Sample.store
        Run.post_budget).1,
     respond 404 (error_body "Content not found")).
Proof.
  destruct (draft_until_published (H := Sample.platform) Sample.env Sample.store
              Run.post_budget) as (u & _ & Hhidden & _).
  - vm_compute. reflexivity.
  - apply Hhidden. vm_compute. reflexivity.
Defined.

(** Alice archives her published item; the public fetch then fails. *)
Lemma status_witness :
  res_status
    (app (H := Sample.platform) PUT_publisher_contents_id Sample.env Sample.store
       (Sample.request Run.alice_auth "2" {[ "status" := JStr "archived" ]})).2
  = 200.
Proof.
  apply (status_is_writable (H := Sample.platform) Sample.env Sample.store
           (Sample.request Run.alice_auth "2" {[ "status" := JStr "archived" ]})
           (mkClaims 1 "alice" (Some "publisher")) 2
           (Sample.item (Some Status.published) (Some 5) 1) Status.archived);
    vm_compute; reflexivity.
Defined.

(** An update that names only an [id] and an unknown key changes nothing. *)
Lemma update_ignores_witness :
  app (H := Sample.platform) PUT_publisher_contents_id Sample.env Sample.store
    (Sample.request Run.alice_auth "1" {[ "id" := JNum 99; "foo" := JStr "bar" ]})
  = (Sample.store,
     respond 200
       (JObj (Contents.toJSON 1 (Sample.item (Some Status.draft) (Some 0) 1)))).
Proof.
  apply (update_ignores_other_keys (H := Sample.platform) Sample.env Sample.store
           (Sample.request Run.alice_auth "1"
              {[ "id" := JNum 99; "foo" := JStr "bar" ]})
           (mkClaims 1 "alice" (Some "publisher")) 1).
  - vm_compute. reflexivity.
  - reflexivity.
  - vm_compute. reflexivity.
  - vm_compute. reflexivity.
  - reflexivity.
  - intros key Hkey. unfold updatable_keys in Hkey.
    repeat (apply elem_of_cons in Hkey as [->|Hkey]; [vm_compute; reflexivity|]).
    by apply elem_of_nil in Hkey.
Defined.

(** Alice gives her draft to carol and can no longer publish it. *)
Lemma transfer_witness :
  res_status
    (app (H := Sample.platform) PUT_publisher_contents_id_publish Sample.env
       (app (H := Sample.platform) PUT_publisher_contents_id Sample.env
          Sample.store
          (Sample.request Run.alice_auth "1" {[ "publisherId" := JNum 3 ]})).1
       (Sample.request Run.alice_auth "1" ∅)).2
  = 404.
Proof.
  destruct (ownership_transfer (H := Sample.platform) Sample.env Sample.store
              (Sample.request Run.alice_auth "1" {[ "publisherId" := JNum 3 ]})
              (mkClaims 1 "alice" (Some "publisher")) 1
              (Sample.item (Some Status.draft) (Some 0) 1) 3)
    as (_ & _ & Hformer & _).
  - vm_compute. reflexivity.
  - reflexivity.
  - vm_compute. reflexivity.
  - vm_compute. reflexivity.
  - reflexivity.
  - reflexivity.
  - reflexivity.
  - vm_compute. eauto.
  - vm_compute. discriminate.
  - rewrite (Hformer PUT_publisher_contents_id_publish Sample.env
               (Sample.request Run.alice_auth "1" ∅));
      [reflexivity|by right|vm_compute; reflexivity|vm_compute; reflexivity].
Defined.

(** With no user stored, alice's token cannot create an item. *)
Lemma create_needs_witness :
  res_status
    (app (H := Sample.platform) POST_publisher_contents Sample.env Sample.empty
       (Sample.request Run.alice_auth ""
          {[ "title" := JStr "Title"; "content" := JStr "Text";
             "type" := JStr "article" ]})).2
  = 500.
Proof.
  apply (create_needs_stored_publisher (H := Sample.platform) Sample.env
           Sample.empty
           (Sample.request Run.alice_auth ""
              {[ "title" := JStr "Title"; "content" := JStr "Text";
                 "type" := JStr "article" ]})
           (mkClaims 1 "alice" (Some "publisher")));
    vm_compute; reflexivity.
Defined.

(** Dave registers and then logs in with the same password. *)
Lemma register_login_witness :
  res_status
    (app (H := Sample.platform) POST_login Sample.env
       (app (H := Sample.platform) POST_register Sample.env Sample.store
          Run.register_dave).1
       (Run.login_dave "pw4")).2
  = 200.
Proof.
  destruct (register_then_login (H := Sample.platform) Sample.env Sample.env
              Sample.store Run.register_dave (Run.login_dave "pw4"))
    as (id & u & e & p & _ & He & Hp & _ & Hshort & _).
  - vm_compute. reflexivity.
  - vm_compute. reflexivity.
  - vm_compute in He. injection He as <-. vm_compute in Hp. injection Hp as <-.
    destruct Hshort as (_ & Hgood & _); [cbn; lia|].
    rewrite Hgood; [reflexivity|vm_compute; reflexivity|vm_compute; reflexivity].
Defined.

(** The bootstrap of the empty database stores the default publisher under
    id 1. *)
Lemma bootstrap_witness :
  users (syncDatabase (H := Sample.platform) Sample.env Sample.empty) !! 1
  = Some (User.mk "admin" "admin@news.com" "salt$publisher123"
            (Some Role.publisher) (JObj []) 1000 1000).
Proof.
  destruct (bootstrap_outcome (H := Sample.platform) Sample.env Sample.empty)
    as (_ & Hseed & _).
  rewrite Hseed.
  - vm_compute. reflexivity.
  - intros k u Hk. vm_compute in Hk. discriminate Hk.
  - intros k u Hk. vm_compute in Hk. discriminate Hk.
  - vm_compute. reflexivity.
Defined.

Lemma seeded_witness :
  res_status
    (app (H := Sample.platform) POST_login Sample.env
       (syncDatabase (H := Sample.platform) Sample.env Sample.empty)
       (Sample.request None ""
          {[ "email" := JStr "admin@news.com";
             "password" := JStr "publisher123" ]})).2
  = 200.
Proof.
  rewrite (seeded_publisher_logs_in (H := Sample.platform) Sample.env Sample.env
             Sample.empty).
  - reflexivity.
  - intros k u Hk. vm_compute in Hk. discriminate Hk.
  - intros k u Hk. vm_compute in Hk. discriminate Hk.
  - vm_compute. reflexivity.
  - vm_compute. reflexivity.
  - vm_compute. reflexivity.
  - vm_compute. reflexivity.
Defined.

(** A login for alice's email with no password is answered 500. *)
Lemma login_without_password_witness :
  app (H := Sample.platform) POST_login Sample.env Sample.store
    (Sample.request None "" {[ "email" := JStr "alice@news.com" ]})
  = (Sample.store,
     respond 500 (error_body "Illegal arguments: undefined, string")).
Proof.
  destruct (login_without_password (H := Sample.platform) Sample.env Sample.store
              (Sample.request None "" {[ "email" := JStr "alice@news.com" ]})
              "alice@news.com" "alice@news.com") as [_ Hknown].
  - vm_compute. reflexivity.
  - vm_compute. reflexivity.
  - vm_compute. reflexivity.
  - apply Hknown. exists 1, Sample.alice. split; vm_compute; reflexivity.
Defined.

(** Alice registers as a publisher on the empty database; the token of the
    answer opens her profile. *)
Lemma registered_token_witness :
  res_status
    (app (H := Sample.platform) GET_profile Sample.env
       (app (H := Sample.platform) POST_register Sample.env Sample.empty
          Run.register_alice).1
       (Sample.request Run.alice_auth "" ∅)).2
  = 200.
Proof.
  destruct (registered_token_authorises (H := Sample.platform) Sample.env
              Sample.env Sample.empty Run.register_alice
              (Sample.request Run.alice_auth "" ∅))
    as (id & u & token & Hu & Hbody & _ & _ & Hserve).
  - vm_compute. reflexivity.
  - vm_compute in Hbody. simplify_eq. vm_compute in Hu. simplify_eq.
    destruct Hserve as (Hprofile & _).
    + reflexivity.
    + discriminate.
    + reflexivity.
    + vm_compute. reflexivity.
    + rewrite Hprofile. reflexivity.
Defined.

(** Restarted on the empty database, the server seeds one publisher. *)
Lemma bootstrap_idempotent_witness :
  users (syncDatabase (H := Sample.platform) (mkEnv 2000 "pepper")
           (syncDatabase (H := Sample.platform) Sample.env Sample.empty))
  = users (syncDatabase (H := Sample.platform) Sample.env Sample.empty).
Proof.
  apply (bootstrap_idempotent (H := Sample.platform)). apply map_Forall_empty.
Defined.
